(** * nfc-laboratory: radio capture back-ends and the NFC frame classifier

    A shallow embedding of
    - [StreamModel.cpp]: the frame event classifier ([frameEvent] and the
      per-technology [eventNfc*] helpers, the ISO-DEP overlay) and the
      pending-queue / visible-list frame store;
    - [AirspyDevice.cpp] and the two [MiriDevice.cpp] translation units: the
      device life cycle, the parameter mutators and the capture callback
      [process_transfer] with its bounded drop-oldest queue.

    Conventions.  A C++ [int] read from a payload byte is a [Z] in
    [0, 256); [long] counters are 64-bit two's-complement values kept in [Z]
    with the wrap-around written out ([wrap64]); a [long] stored into an [int]
    field is narrowed with [wrap32].  A method that mutates [*this] is a
    function from the old state to the new one (paired with the returned
    status when the status matters).  The answers of the vendor libraries
    (libairspy, libmirisdr) and the clock are inputs of the step functions. *)

From Stdlib Require Import ZArith List Bool Lia Floats Sorted.
From Stdlib.Strings Require Import String Ascii Byte.
From stdpp Require Import base option list gmap strings.

Local Open Scope string_scope.
Local Open Scope Z_scope.

(** ** Machine integers *)

Definition wrap (w : Z) (z : Z) : Z := (z + 2 ^ (w - 1)) mod 2 ^ w - 2 ^ (w - 1).
Definition wrap32 : Z -> Z := wrap 32.
Definition wrap64 : Z -> Z := wrap 64.

Definition fits (w : Z) (z : Z) : Prop := - 2 ^ (w - 1) <= z < 2 ^ (w - 1).

(** ** QString helpers used by the classifier *)

(** [QString::isEmpty]. *)
Definition isEmpty (s : string) : bool :=
  match s with EmptyString => true | String _ _ => false end.

(** One digit of [QString::number(n, 16)]: Qt writes the digits above nine
    as the lower-case letters a-f. *)
Definition hexDigit (d : Z) : ascii :=
  if d <? 10 then ascii_of_nat (Z.to_nat (48 + d))
  else ascii_of_nat (Z.to_nat (97 + (d - 10))).

(** The base-16 digits of a non-negative number, most significant first. *)
Fixpoint number16 (fuel : nat) (n : Z) (acc : string) : string :=
  match fuel with
  | O => acc
  | S fuel' =>
      let acc' := String (hexDigit (n mod 16)) acc in
      if n / 16 =? 0 then acc' else number16 fuel' (n / 16) acc'
  end.

Fixpoint fill (n : nat) (c : ascii) (s : string) : string :=
  match n with O => s | S n' => String c (fill n' c s) end.

(** [QString("CMD %1").arg(command, fieldWidth, 16, fillChar)] for a
    non-negative [command]: the number in base 16, right-aligned in
    [fieldWidth] columns and padded on the left with [fillChar]. *)
Definition QString_arg16 (fieldWidth : nat) (fillChar : ascii) (n : Z) : string :=
  let digits := number16 (S (Z.to_nat (Z.log2 n))) n "" in
  fill (fieldWidth - String.length digits) fillChar digits.

(** ** The frame classifier of StreamModel.cpp *)

Module Classifier.

Inductive TechType := TechNone | NfcA | NfcB | NfcF | NfcV.

(** Modelled from the spec: the frame kinds of nfc/NfcFrame.h (the header is
    not among the sources), one per accessor the classifier calls on
    [frameType()]: [isCarrierOff], [isCarrierOn], [isPollFrame] and
    [isListenFrame].  A frame is a carrier transition or carries a payload
    in the poll or in the listen direction. *)
Inductive FrameType := CarrierOff | CarrierOn | PollFrame | ListenFrame.

(** Modelled from the spec: nfc::NfcFrame (nfc/NfcFrame.h is not among the
    sources), with the accessors StreamModel.cpp uses: technology tag, frame
    kind, the encrypted flag, start and end time stamps (C++ [double], here
    IEEE 754 binary64) and the payload bytes; [limit()] is their number. *)
Record NfcFrame := mkFrame {
  techType : TechType;
  frameType : FrameType;
  isEncrypted : bool;
  timeStart : float;
  timeEnd : float;
  data : list byte
}.

Definition isCarrierOn (f : NfcFrame) : bool :=
  match frameType f with CarrierOn => true | _ => false end.
Definition isCarrierOff (f : NfcFrame) : bool :=
  match frameType f with CarrierOff => true | _ => false end.
Definition isPollFrame (f : NfcFrame) : bool :=
  match frameType f with PollFrame => true | _ => false end.
Definition isListenFrame (f : NfcFrame) : bool :=
  match frameType f with ListenFrame => true | _ => false end.

Definition limit (f : NfcFrame) : Z := Z.of_nat (length (data f)).

(** The payload read [frame[i]], converted to [int].  The classifier never checks the index;
    a read past [limit()] is reported as [None], and every function below
    that reads the payload propagates it. *)
Definition at_ (f : NfcFrame) (i : nat) : option Z :=
  (fun b => Z.of_N (Byte.to_N b)) <$> data f !! i.

(** The static command tables. *)
Definition NfcACmd : gmap Z string := list_to_map
  [ (0x1A, "AUTH"); (0x1B, "PWD_AUTH"); (0x26, "REQA"); (0x30, "READ");
    (0x39, "READ_CNT"); (0x3A, "FAST_READ"); (0x3C, "READ_SIG");
    (0x3E, "TEARING"); (0x4B, "VCSL"); (0x50, "HLTA"); (0x52, "WUPA");
    (0x60, "AUTH"); (0x61, "AUTH"); (0x93, "SEL1"); (0x95, "SEL2");
    (0x97, "SEL3"); (0xA0, "COMP_WRITE"); (0xA2, "WRITE");
    (0xA5, "INCR_CNT"); (0xE0, "RATS") ].

Definition NfcAResp : gmap Z string := list_to_map
  [ (0x26, "ATQA"); (0x52, "ATQA") ].

Definition NfcBCmd : gmap Z string := list_to_map
  [ (0x05, "REQB"); (0x1d, "ATTRIB"); (0x50, "HLTB") ].

Definition NfcBResp : gmap Z string := list_to_map [ (0x05, "ATQB") ].

Definition NfcFCmd : gmap Z string := list_to_map [ (0x00, "REQC") ].

Definition NfcFResp : gmap Z string := list_to_map [ (0x00, "ATQC") ].

Definition NfcVCmd : gmap Z string := list_to_map
  [ (0x01, "Inventory"); (0x02, "StayQuiet"); (0x20, "ReadBlock");
    (0x21, "WriteBlock"); (0x22, "LockBlock"); (0x23, "ReadBlocks");
    (0x24, "WriteBlocks"); (0x25, "Select"); (0x26, "Reset");
    (0x27, "WriteAFI"); (0x28, "LockAFI"); (0x29, "WriteDSFID");
    (0x2a, "LockDSFID"); (0x2b, "SysInfo"); (0x2c, "GetSecurity") ].

(** [if (T.contains(command)) return T[command];] followed by [return {}]. *)
Definition lookupOrEmpty (T : gmap Z string) (command : Z) : string :=
  match T !! command with Some l => l | None => "" end.

Definition isoDepLabel (command len : Z) : string :=
  if (Z.land command 0xF7 =? 0xC2) && (3 <=? len) && (len <=? 4) then "S(Deselect)"
  else if (Z.land command 0xF7 =? 0xF2) && (3 <=? len) && (len <=? 4) then "S(WTX)"
  else if (Z.land command 0xF6 =? 0xA2) && (len =? 3) then "R(ACK)"
  else if (Z.land command 0xF6 =? 0xB2) && (len =? 3) then "R(NACK)"
  else if (Z.land command 0xE2 =? 0x02) && (4 <=? len) then "I-Block"
  else if (Z.land command 0xE6 =? 0xA2) && (len =? 3) then "R-Block"
  else if (Z.land command 0xC7 =? 0xC2) && (3 <=? len) && (len <=? 4) then "S-Block"
  else "".

Definition eventIsoDep (frame : NfcFrame) : option string :=
  command ← at_ frame 0;
  Some (isoDepLabel command (limit frame)).

Definition eventNfcA (frame : NfcFrame) (prev : option NfcFrame) : option string :=
  if isEncrypted frame then Some ""
  else if isPollFrame frame then
    command ← at_ frame 0;
    if (command =? 0x50) && (limit frame =? 4) then Some "HALT"
    else if (Z.land command 0xF0 =? 0xD0) && (limit frame =? 5) then Some "PPS"
    else
      result ← eventIsoDep frame;
      if negb (isEmpty result) then Some result
      else Some (lookupOrEmpty NfcACmd command)
  else
    match prev with
    | Some p =>
        if isPollFrame p then
          command ← at_ p 0;
          let select := (command =? 0x93) || (command =? 0x95) || (command =? 0x97) in
          if select && (limit frame =? 3) then Some "SAK"
          else if select && (limit frame =? 5) then Some "UID"
          else
            ats ← (if command =? 0xE0
                   then first ← at_ frame 0; Some (first =? limit frame - 2)
                   else Some false);
            if (ats : bool) then Some "ATS"
            else
              result ← eventIsoDep frame;
              if negb (isEmpty result) then Some result
              else Some (lookupOrEmpty NfcAResp command)
        else Some ""
    | None => Some ""
    end.

Definition eventNfcB (frame : NfcFrame) (prev : option NfcFrame) : option string :=
  if isPollFrame frame then
    command ← at_ frame 0;
    result ← eventIsoDep frame;
    if negb (isEmpty result) then Some result
    else Some (lookupOrEmpty NfcBCmd command)
  else if isListenFrame frame then
    command ← at_ frame 0;
    result ← eventIsoDep frame;
    if negb (isEmpty result) then Some result
    else Some (lookupOrEmpty NfcBResp command)
  else Some "".

Definition cmdLabel (command : Z) : string :=
  String.append "CMD " (QString_arg16 2 "0"%char command).

Definition eventNfcF (frame : NfcFrame) (prev : option NfcFrame) : option string :=
  command ← at_ frame 1;
  if isPollFrame frame then
    match NfcFCmd !! command with
    | Some l => Some l
    | None => Some (cmdLabel command)
    end
  else if isListenFrame frame then Some (lookupOrEmpty NfcFResp command)
  else Some "".

Definition eventNfcV (frame : NfcFrame) (prev : option NfcFrame) : option string :=
  if isPollFrame frame then
    command ← at_ frame 1;
    match NfcVCmd !! command with
    | Some l => Some l
    | None => Some (cmdLabel command)
    end
  else Some "".

Definition frameEvent (frame : NfcFrame) (prev : option NfcFrame) : option string :=
  if isCarrierOn frame then Some "RF-On"
  else if isCarrierOff frame then Some "RF-Off"
  else
    match techType frame with
    | NfcA => eventNfcA frame prev
    | NfcB => eventNfcB frame prev
    | NfcF => eventNfcF frame prev
    | NfcV => eventNfcV frame prev
    | TechNone => Some ""
    end.

End Classifier.


(** ** The frame store of StreamModel.cpp *)

Module StreamModel.

Import Classifier.

(** [Impl::frames] is the list the views read (one heap copy per frame),
    [Impl::stream] the queue [append] writes to. *)
Record Impl := mkImpl {
  frames : list NfcFrame;
  stream : list NfcFrame
}.

Definition headers : list string :=
  ["#"; "Time"; "Delta"; "Rate"; "Type"; "Event"; ""; "Frame"].

(** A [QModelIndex]: the default-constructed invalid index, or the row, the
    column and the frame that [createIndex] stores as internal pointer. *)
Inductive QModelIndex :=
| InvalidIndex
| ModelIndex (row column : nat) (internalPointer : NfcFrame).

Definition rowCount (m : Impl) : nat := length (frames m).
Definition columnCount (m : Impl) : nat := length headers.

(** [index(row, column)]: [hasIndex] holds inside the table only. *)
Definition index (m : Impl) (row column : nat) : QModelIndex :=
  match frames m !! row with
  | Some frame =>
      if (column <? columnCount m)%nat then ModelIndex row column frame
      else InvalidIndex
  | None => InvalidIndex
  end.

Definition canFetchMore (m : Impl) : bool := (0 <? length (stream m))%nat.

(** The loop of [fetchMore]: while the queue is not empty, dequeue its head
    and append the copy to the frame list. *)
Fixpoint drain (stream frames : list NfcFrame) : list NfcFrame :=
  match stream with
  | [] => frames
  | frame :: stream' => drain stream' (frames ++ [frame])%list
  end.

Definition fetchMore (m : Impl) : Impl :=
  mkImpl (drain (stream m) (frames m)) [].

Definition resetModel (m : Impl) : Impl := mkImpl [] (stream m).

Definition append (frame : NfcFrame) (m : Impl) : Impl :=
  mkImpl (frames m) (stream m ++ [frame])%list.

(** [frame->timeStart() >= from && frame->timeEnd() <= to] on doubles. *)
Definition inWindow (from to : float) (frame : NfcFrame) : bool :=
  PrimFloat.leb from (timeStart frame) && PrimFloat.leb (timeEnd frame) to.

(** [modelRange]: rows 0 .. size-1 in order, keeping the index of every frame
    inside the window. *)
Definition modelRange (from to : float) (m : Impl) : list QModelIndex :=
  foldl (fun acc i =>
           match frames m !! i with
           | Some frame =>
               if inWindow from to frame then (acc ++ [index m i 0])%list else acc
           | None => acc
           end)
        [] (seq 0 (length (frames m))).

(** The frame an index refers to ([StreamModel::frame]). *)
Definition frame (idx : QModelIndex) : option NfcFrame :=
  match idx with
  | InvalidIndex => None
  | ModelIndex _ _ f => Some f
  end.

(** The model right after construction. *)
Definition empty : Impl := mkImpl [] [].

End StreamModel.

(** ** Sample buffers and the shared device vocabulary *)

(** How the back-ends build a [SignalBuffer]: default-constructed, or from
    the constructor arguments (the sample data itself is not modelled). *)
Inductive SignalBuffer :=
| EmptyBuffer
| Buffer (length stride samplerate offset decimation type : Z).

(** What the headers of lib-sdr declare (SignalBuffer.h, SignalType.h and the
    device headers are not among the sources): the element count of a
    buffer, the signal type tags, the sample-type enumerator
    [RadioDevice::Float] and the gain-mode enumerators. *)
Class SdrHeaders := {
  elements : SignalBuffer -> Z;
  SAMPLE_REAL : Z;
  SAMPLE_IQ : Z;
  Float : Z;
  Auto : Z;
  Linearity : Z;
  Sensitivity : Z;
  Manual : Z
}.

(** A device handle of the vendor library and a registered stream handler
    are opaque tokens. *)
Definition Handle := nat.
Definition StreamHandler := nat.

(** What the capture callback does with buffers: it hands the new buffer to
    the registered handler, or it pops the oldest buffer off the full queue
    and pushes the new one. *)
Inductive Event :=
| Forwarded (handler : StreamHandler) (buffer : SignalBuffer)
| Evicted (buffer : SignalBuffer)
| Queued (buffer : SignalBuffer).

Definition MAX_QUEUE_SIZE : Z := 4.

(** ** AirspyDevice.cpp *)

Module AirspyDevice.

(** [AIRSPY_SUCCESS] of libairspy's airspy.h. *)
Definition AIRSPY_SUCCESS : Z := 0.

Inductive airspy_sample_type :=
| AIRSPY_SAMPLE_FLOAT32_IQ
| AIRSPY_SAMPLE_FLOAT32_REAL
| AIRSPY_SAMPLE_OTHER.

Record airspy_transfer := mkTransfer {
  sample_count : Z;
  dropped_samples : Z;
  sample_type : airspy_sample_type
}.

Record Impl := mkImpl {
  deviceName : string;
  deviceVersion : string;
  fileDesc : Z;
  centerFreq : Z;
  sampleRate : Z;
  sampleSize : Z;
  sampleType : Z;
  gainMode : Z;
  gainValue : Z;
  tunerAgc : Z;
  mixerAgc : Z;
  decimation : Z;
  streamTime : Z;
  deviceResult : Z;
  deviceHandle : option Handle;
  streamQueue : list SignalBuffer;
  streamCallback : option StreamHandler;
  samplesReceived : Z;
  samplesDropped : Z
}.

Definition set_deviceName (v : string) (d : Impl) : Impl :=
  mkImpl v (deviceVersion d) (fileDesc d) (centerFreq d) (sampleRate d) (sampleSize d) (sampleType d) (gainMode d) (gainValue d) (tunerAgc d) (mixerAgc d) (decimation d) (streamTime d) (deviceResult d) (deviceHandle d) (streamQueue d) (streamCallback d) (samplesReceived d) (samplesDropped d).
Definition set_deviceVersion (v : string) (d : Impl) : Impl :=
  mkImpl (deviceName d) v (fileDesc d) (centerFreq d) (sampleRate d) (sampleSize d) (sampleType d) (gainMode d) (gainValue d) (tunerAgc d) (mixerAgc d) (decimation d) (streamTime d) (deviceResult d) (deviceHandle d) (streamQueue d) (streamCallback d) (samplesReceived d) (samplesDropped d).
Definition set_centerFreq (v : Z) (d : Impl) : Impl :=
  mkImpl (deviceName d) (deviceVersion d) (fileDesc d) v (sampleRate d) (sampleSize d) (sampleType d) (gainMode d) (gainValue d) (tunerAgc d) (mixerAgc d) (decimation d) (streamTime d) (deviceResult d) (deviceHandle d) (streamQueue d) (streamCallback d) (samplesReceived d) (samplesDropped d).
Definition set_sampleRate (v : Z) (d : Impl) : Impl :=
  mkImpl (deviceName d) (deviceVersion d) (fileDesc d) (centerFreq d) v (sampleSize d) (sampleType d) (gainMode d) (gainValue d) (tunerAgc d) (mixerAgc d) (decimation d) (streamTime d) (deviceResult d) (deviceHandle d) (streamQueue d) (streamCallback d) (samplesReceived d) (samplesDropped d).
Definition set_gainMode (v : Z) (d : Impl) : Impl :=
  mkImpl (deviceName d) (deviceVersion d) (fileDesc d) (centerFreq d) (sampleRate d) (sampleSize d) (sampleType d) v (gainValue d) (tunerAgc d) (mixerAgc d) (decimation d) (streamTime d) (deviceResult d) (deviceHandle d) (streamQueue d) (streamCallback d) (samplesReceived d) (samplesDropped d).
Definition set_gainValue (v : Z) (d : Impl) : Impl :=
  mkImpl (deviceName d) (deviceVersion d) (fileDesc d) (centerFreq d) (sampleRate d) (sampleSize d) (sampleType d) (gainMode d) v (tunerAgc d) (mixerAgc d) (decimation d) (streamTime d) (deviceResult d) (deviceHandle d) (streamQueue d) (streamCallback d) (samplesReceived d) (samplesDropped d).
Definition set_tunerAgc (v : Z) (d : Impl) : Impl :=
  mkImpl (deviceName d) (deviceVersion d) (fileDesc d) (centerFreq d) (sampleRate d) (sampleSize d) (sampleType d) (gainMode d) (gainValue d) v (mixerAgc d) (decimation d) (streamTime d) (deviceResult d) (deviceHandle d) (streamQueue d) (streamCallback d) (samplesReceived d) (samplesDropped d).
Definition set_mixerAgc (v : Z) (d : Impl) : Impl :=
  mkImpl (deviceName d) (deviceVersion d) (fileDesc d) (centerFreq d) (sampleRate d) (sampleSize d) (sampleType d) (gainMode d) (gainValue d) (tunerAgc d) v (decimation d) (streamTime d) (deviceResult d) (deviceHandle d) (streamQueue d) (streamCallback d) (samplesReceived d) (samplesDropped d).
Definition set_decimation (v : Z) (d : Impl) : Impl :=
  mkImpl (deviceName d) (deviceVersion d) (fileDesc d) (centerFreq d) (sampleRate d) (sampleSize d) (sampleType d) (gainMode d) (gainValue d) (tunerAgc d) (mixerAgc d) v (streamTime d) (deviceResult d) (deviceHandle d) (streamQueue d) (streamCallback d) (samplesReceived d) (samplesDropped d).
Definition set_streamTime (v : Z) (d : Impl) : Impl :=
  mkImpl (deviceName d) (deviceVersion d) (fileDesc d) (centerFreq d) (sampleRate d) (sampleSize d) (sampleType d) (gainMode d) (gainValue d) (tunerAgc d) (mixerAgc d) (decimation d) v (deviceResult d) (deviceHandle d) (streamQueue d) (streamCallback d) (samplesReceived d) (samplesDropped d).
Definition set_deviceResult (v : Z) (d : Impl) : Impl :=
  mkImpl (deviceName d) (deviceVersion d) (fileDesc d) (centerFreq d) (sampleRate d) (sampleSize d) (sampleType d) (gainMode d) (gainValue d) (tunerAgc d) (mixerAgc d) (decimation d) (streamTime d) v (deviceHandle d) (streamQueue d) (streamCallback d) (samplesReceived d) (samplesDropped d).
Definition set_deviceHandle (v : option Handle) (d : Impl) : Impl :=
  mkImpl (deviceName d) (deviceVersion d) (fileDesc d) (centerFreq d) (sampleRate d) (sampleSize d) (sampleType d) (gainMode d) (gainValue d) (tunerAgc d) (mixerAgc d) (decimation d) (streamTime d) (deviceResult d) v (streamQueue d) (streamCallback d) (samplesReceived d) (samplesDropped d).
Definition set_streamQueue (v : list SignalBuffer) (d : Impl) : Impl :=
  mkImpl (deviceName d) (deviceVersion d) (fileDesc d) (centerFreq d) (sampleRate d) (sampleSize d) (sampleType d) (gainMode d) (gainValue d) (tunerAgc d) (mixerAgc d) (decimation d) (streamTime d) (deviceResult d) (deviceHandle d) v (streamCallback d) (samplesReceived d) (samplesDropped d).
Definition set_streamCallback (v : option StreamHandler) (d : Impl) : Impl :=
  mkImpl (deviceName d) (deviceVersion d) (fileDesc d) (centerFreq d) (sampleRate d) (sampleSize d) (sampleType d) (gainMode d) (gainValue d) (tunerAgc d) (mixerAgc d) (decimation d) (streamTime d) (deviceResult d) (deviceHandle d) (streamQueue d) v (samplesReceived d) (samplesDropped d).
Definition set_samplesReceived (v : Z) (d : Impl) : Impl :=
  mkImpl (deviceName d) (deviceVersion d) (fileDesc d) (centerFreq d) (sampleRate d) (sampleSize d) (sampleType d) (gainMode d) (gainValue d) (tunerAgc d) (mixerAgc d) (decimation d) (streamTime d) (deviceResult d) (deviceHandle d) (streamQueue d) (streamCallback d) v (samplesDropped d).
Definition set_samplesDropped (v : Z) (d : Impl) : Impl :=
  mkImpl (deviceName d) (deviceVersion d) (fileDesc d) (centerFreq d) (sampleRate d) (sampleSize d) (sampleType d) (gainMode d) (gainValue d) (tunerAgc d) (mixerAgc d) (decimation d) (streamTime d) (deviceResult d) (deviceHandle d) (streamQueue d) (streamCallback d) (samplesReceived d) v.

Section Methods.
Context `{SdrHeaders}.

(** [Impl(std::string name)] with the default member initialisers. *)
Definition create (name : string) : Impl :=
  mkImpl name "" 0 0 0 16 Float 0 0 0 0 0 0 0 None [] None 0 0.

(** [start]: [rx] is the status of [airspy_start_rx], [now] the clock in
    seconds (a 64-bit count), which the [int] field [streamTime] narrows. *)
Definition start (handler : option StreamHandler) (rx now : Z) (d : Impl) : Impl * Z :=
  match deviceHandle d with
  | Some _ =>
      let d := set_samplesDropped 0 d in
      let d := set_samplesReceived 0 d in
      let d := set_streamCallback handler d in
      let d := set_streamQueue [] d in
      let d := set_deviceResult rx d in
      let d := if negb (deviceResult d =? AIRSPY_SUCCESS)
               then set_streamCallback None d else d in
      let d := set_streamTime (wrap32 now) d in
      (d, deviceResult d)
  | None => (d, -1)
  end.

(** [stop]: [rx] is the status of [airspy_stop_rx]. *)
Definition stop (rx : Z) (d : Impl) : Impl * Z :=
  match deviceHandle d, streamCallback d with
  | Some _, Some _ =>
      let d := set_deviceResult rx d in
      let d := set_streamCallback None d in
      let d := set_streamQueue [] d in
      let d := set_streamTime 0 d in
      (d, deviceResult d)
  | _, _ => (d, -1)
  end.

(** [close]: [rx] and [cl] are the statuses of [airspy_stop_rx] and
    [airspy_close]. *)
Definition close (rx cl : Z) (d : Impl) : Impl :=
  match deviceHandle d with
  | Some _ =>
      let d := fst (stop rx d) in
      let d := set_deviceResult cl d in
      let d := set_deviceName "" d in
      let d := set_deviceVersion "" d in
      set_deviceHandle None d
  | None => d
  end.

Definition isOpen (d : Impl) : bool := bool_decide (is_Some (deviceHandle d)).

(** [hw] is the answer of [airspy_is_streaming]. *)
Definition isStreaming (hw : bool) (d : Impl) : bool := isOpen d && hw.
Definition isEof (hw : bool) (d : Impl) : bool := negb (isOpen d) || negb hw.

(** The mutators; [r], [r1], [r2] are the statuses of the library calls in
    the order the method makes them. *)
Definition setCenterFreq (value r : Z) (d : Impl) : Impl * Z :=
  let d := set_centerFreq (wrap32 value) d in
  match deviceHandle d with
  | Some _ => let d := set_deviceResult r d in (d, deviceResult d)
  | None => (d, 0)
  end.

Definition setSampleRate (value r : Z) (d : Impl) : Impl * Z :=
  let d := set_sampleRate (wrap32 value) d in
  match deviceHandle d with
  | Some _ => let d := set_deviceResult r d in (d, deviceResult d)
  | None => (d, 0)
  end.

Definition setGainValue (value r : Z) (d : Impl) : Impl * Z :=
  let d := set_gainValue value d in
  match deviceHandle d with
  | Some _ =>
      let d := if gainMode d =? Linearity then set_deviceResult r d
               else if gainMode d =? Sensitivity then set_deviceResult r d
               else d in
      (d, deviceResult d)
  | None => (d, 0)
  end.

Definition setGainMode (mode r1 r2 : Z) (d : Impl) : Impl * Z :=
  let d := set_gainMode mode d in
  match deviceHandle d with
  | Some _ =>
      if gainMode d =? Auto then
        let d := set_deviceResult r1 d in
        let d := set_deviceResult r2 d in
        (d, deviceResult d)
      else setGainValue (gainValue d) r1 d
  | None => (d, 0)
  end.

Definition setTunerAgc (value r : Z) (d : Impl) : Impl * Z :=
  let d := set_tunerAgc value d in
  let d := if negb (tunerAgc d =? 0) then set_gainMode Auto d else d in
  match deviceHandle d with
  | Some _ => let d := set_deviceResult r d in (d, deviceResult d)
  | None => (d, 0)
  end.

Definition setMixerAgc (value r : Z) (d : Impl) : Impl * Z :=
  let d := set_mixerAgc value d in
  let d := if negb (mixerAgc d =? 0) then set_gainMode Auto d else d in
  match deviceHandle d with
  | Some _ => let d := set_deviceResult r d in (d, deviceResult d)
  | None => (d, 0)
  end.

Definition setDecimation (value : Z) (d : Impl) : Impl * Z :=
  (set_decimation value d, 0).

(** [read]: the oldest queued buffer, if any (the status is its [limit()],
    not modelled; -1 on an empty queue is [None] here). *)
Definition read (d : Impl) : Impl * option SignalBuffer :=
  match streamQueue d with
  | front :: rest => (set_streamQueue rest d, Some front)
  | [] => (d, None)
  end.

(** The capture callback; [ctx] is the device pointer libairspy passes
    back.  The result lists what happened to buffers. *)
Definition process_transfer (transfer : airspy_transfer) (ctx : option Impl)
  : option Impl * list Event * Z :=
  match ctx with
  | Some device =>
      let buffer :=
        match sample_type transfer with
        | AIRSPY_SAMPLE_FLOAT32_REAL =>
            Buffer (sample_count transfer) 1 (sampleRate device)
                   (samplesReceived device) 0 SAMPLE_REAL
        | AIRSPY_SAMPLE_FLOAT32_IQ =>
            Buffer (sample_count transfer * 2) 2 (sampleRate device)
                   (samplesReceived device) 0 SAMPLE_IQ
        | AIRSPY_SAMPLE_OTHER => EmptyBuffer
        end in
      let device :=
        set_samplesReceived (wrap64 (samplesReceived device + sample_count transfer)) device in
      let device :=
        set_samplesDropped (wrap64 (samplesDropped device + dropped_samples transfer)) device in
      match streamCallback device with
      | Some handler => (Some device, [Forwarded handler buffer], 0)
      | None =>
          let '(device, events) :=
            if MAX_QUEUE_SIZE <=? Z.of_nat (length (streamQueue device)) then
              match streamQueue device with
              | front :: rest =>
                  let device :=
                    set_samplesDropped (wrap64 (samplesDropped device + elements front)) device in
                  (set_streamQueue rest device, [Evicted front])
              | [] => (device, [])
              end
            else (device, []) in
          (Some (set_streamQueue (streamQueue device ++ [buffer])%list device),
           (events ++ [Queued buffer])%list, 0)
      end
  | None => (None, [], -1)
  end.

End Methods.

(** The public class forwards to [Impl]; its accessors read the fields. *)
Module Public.
Section Public.
Context `{SdrHeaders}.

Definition start := start.
Definition stop := stop.
Definition isOpen := isOpen.
Definition isStreaming := isStreaming.

Definition sampleRate (d : Impl) : Z := sampleRate d.
Definition setSampleRate (value r : Z) (d : Impl) : Impl * Z := setSampleRate value r d.
Definition streamTime (d : Impl) : Z := streamTime d.
Definition centerFreq (d : Impl) : Z := centerFreq d.
Definition setCenterFreq (value r : Z) (d : Impl) : Impl * Z := setCenterFreq value r d.
Definition tunerAgc (d : Impl) : Z := tunerAgc d.
Definition setTunerAgc (value r : Z) (d : Impl) : Impl * Z := setTunerAgc value r d.
Definition mixerAgc (d : Impl) : Z := mixerAgc d.
Definition setMixerAgc (value r : Z) (d : Impl) : Impl * Z := setMixerAgc value r d.
Definition gainMode (d : Impl) : Z := gainMode d.
Definition setGainMode (value r1 r2 : Z) (d : Impl) : Impl * Z := setGainMode value r1 r2 d.
Definition gainValue (d : Impl) : Z := gainValue d.
Definition setGainValue (value r : Z) (d : Impl) : Impl * Z := setGainValue value r d.
Definition decimation (d : Impl) : Z := decimation d.
Definition setDecimation (value : Z) (d : Impl) : Impl * Z := setDecimation value d.
Definition samplesReceived (d : Impl) : Z := samplesReceived d.
Definition samplesDropped (d : Impl) : Z := samplesDropped d.

End Public.
End Public.

End AirspyDevice.

(** ** MiriDevice.cpp, the libmirisdr back-end *)

Module MiriDevice.

Definition MIRI_SUCCESS : Z := 0.

Record Impl := mkImpl {
  deviceName : string;
  deviceVersion : string;
  fileDesc : Z;
  centerFreq : Z;
  sampleRate : Z;
  sampleSize : Z;
  sampleType : Z;
  gainMode : Z;
  gainValue : Z;
  tunerAgc : Z;
  mixerAgc : Z;
  decimation : Z;
  streamTime : Z;
  deviceHandle : option Handle;
  streamQueue : list SignalBuffer;
  streamCallback : option StreamHandler;
  samplesReceived : Z;
  samplesDropped : Z
}.

Definition set_deviceName (v : string) (d : Impl) : Impl :=
  mkImpl v (deviceVersion d) (fileDesc d) (centerFreq d) (sampleRate d) (sampleSize d) (sampleType d) (gainMode d) (gainValue d) (tunerAgc d) (mixerAgc d) (decimation d) (streamTime d) (deviceHandle d) (streamQueue d) (streamCallback d) (samplesReceived d) (samplesDropped d).
Definition set_deviceVersion (v : string) (d : Impl) : Impl :=
  mkImpl (deviceName d) v (fileDesc d) (centerFreq d) (sampleRate d) (sampleSize d) (sampleType d) (gainMode d) (gainValue d) (tunerAgc d) (mixerAgc d) (decimation d) (streamTime d) (deviceHandle d) (streamQueue d) (streamCallback d) (samplesReceived d) (samplesDropped d).
Definition set_centerFreq (v : Z) (d : Impl) : Impl :=
  mkImpl (deviceName d) (deviceVersion d) (fileDesc d) v (sampleRate d) (sampleSize d) (sampleType d) (gainMode d) (gainValue d) (tunerAgc d) (mixerAgc d) (decimation d) (streamTime d) (deviceHandle d) (streamQueue d) (streamCallback d) (samplesReceived d) (samplesDropped d).
Definition set_sampleRate (v : Z) (d : Impl) : Impl :=
  mkImpl (deviceName d) (deviceVersion d) (fileDesc d) (centerFreq d) v (sampleSize d) (sampleType d) (gainMode d) (gainValue d) (tunerAgc d) (mixerAgc d) (decimation d) (streamTime d) (deviceHandle d) (streamQueue d) (streamCallback d) (samplesReceived d) (samplesDropped d).
Definition set_gainMode (v : Z) (d : Impl) : Impl :=
  mkImpl (deviceName d) (deviceVersion d) (fileDesc d) (centerFreq d) (sampleRate d) (sampleSize d) (sampleType d) v (gainValue d) (tunerAgc d) (mixerAgc d) (decimation d) (streamTime d) (deviceHandle d) (streamQueue d) (streamCallback d) (samplesReceived d) (samplesDropped d).
Definition set_gainValue (v : Z) (d : Impl) : Impl :=
  mkImpl (deviceName d) (deviceVersion d) (fileDesc d) (centerFreq d) (sampleRate d) (sampleSize d) (sampleType d) (gainMode d) v (tunerAgc d) (mixerAgc d) (decimation d) (streamTime d) (deviceHandle d) (streamQueue d) (streamCallback d) (samplesReceived d) (samplesDropped d).
Definition set_tunerAgc (v : Z) (d : Impl) : Impl :=
  mkImpl (deviceName d) (deviceVersion d) (fileDesc d) (centerFreq d) (sampleRate d) (sampleSize d) (sampleType d) (gainMode d) (gainValue d) v (mixerAgc d) (decimation d) (streamTime d) (deviceHandle d) (streamQueue d) (streamCallback d) (samplesReceived d) (samplesDropped d).
Definition set_mixerAgc (v : Z) (d : Impl) : Impl :=
  mkImpl (deviceName d) (deviceVersion d) (fileDesc d) (centerFreq d) (sampleRate d) (sampleSize d) (sampleType d) (gainMode d) (gainValue d) (tunerAgc d) v (decimation d) (streamTime d) (deviceHandle d) (streamQueue d) (streamCallback d) (samplesReceived d) (samplesDropped d).
Definition set_decimation (v : Z) (d : Impl) : Impl :=
  mkImpl (deviceName d) (deviceVersion d) (fileDesc d) (centerFreq d) (sampleRate d) (sampleSize d) (sampleType d) (gainMode d) (gainValue d) (tunerAgc d) (mixerAgc d) v (streamTime d) (deviceHandle d) (streamQueue d) (streamCallback d) (samplesReceived d) (samplesDropped d).
Definition set_streamTime (v : Z) (d : Impl) : Impl :=
  mkImpl (deviceName d) (deviceVersion d) (fileDesc d) (centerFreq d) (sampleRate d) (sampleSize d) (sampleType d) (gainMode d) (gainValue d) (tunerAgc d) (mixerAgc d) (decimation d) v (deviceHandle d) (streamQueue d) (streamCallback d) (samplesReceived d) (samplesDropped d).
Definition set_deviceHandle (v : option Handle) (d : Impl) : Impl :=
  mkImpl (deviceName d) (deviceVersion d) (fileDesc d) (centerFreq d) (sampleRate d) (sampleSize d) (sampleType d) (gainMode d) (gainValue d) (tunerAgc d) (mixerAgc d) (decimation d) (streamTime d) v (streamQueue d) (streamCallback d) (samplesReceived d) (samplesDropped d).
Definition set_streamQueue (v : list SignalBuffer) (d : Impl) : Impl :=
  mkImpl (deviceName d) (deviceVersion d) (fileDesc d) (centerFreq d) (sampleRate d) (sampleSize d) (sampleType d) (gainMode d) (gainValue d) (tunerAgc d) (mixerAgc d) (decimation d) (streamTime d) (deviceHandle d) v (streamCallback d) (samplesReceived d) (samplesDropped d).
Definition set_streamCallback (v : option StreamHandler) (d : Impl) : Impl :=
  mkImpl (deviceName d) (deviceVersion d) (fileDesc d) (centerFreq d) (sampleRate d) (sampleSize d) (sampleType d) (gainMode d) (gainValue d) (tunerAgc d) (mixerAgc d) (decimation d) (streamTime d) (deviceHandle d) (streamQueue d) v (samplesReceived d) (samplesDropped d).
Definition set_samplesReceived (v : Z) (d : Impl) : Impl :=
  mkImpl (deviceName d) (deviceVersion d) (fileDesc d) (centerFreq d) (sampleRate d) (sampleSize d) (sampleType d) (gainMode d) (gainValue d) (tunerAgc d) (mixerAgc d) (decimation d) (streamTime d) (deviceHandle d) (streamQueue d) (streamCallback d) v (samplesDropped d).
Definition set_samplesDropped (v : Z) (d : Impl) : Impl :=
  mkImpl (deviceName d) (deviceVersion d) (fileDesc d) (centerFreq d) (sampleRate d) (sampleSize d) (sampleType d) (gainMode d) (gainValue d) (tunerAgc d) (mixerAgc d) (decimation d) (streamTime d) (deviceHandle d) (streamQueue d) (streamCallback d) (samplesReceived d) v.

Section Methods.
Context `{SdrHeaders}.

(** [Impl(std::string name)] with the default member initialisers. *)
Definition create (name : string) : Impl :=
  mkImpl name "" 0 0 0 16 Float 0 0 0 0 0 0 None [] None 0 0.

(** [start]: [rx] is the status of [mirisdr_read_async], [now] the clock in
    seconds (a 64-bit count), which the [int] field [streamTime] narrows. *)
Definition start (handler : option StreamHandler) (rx now : Z) (d : Impl) : Impl * Z :=
  match deviceHandle d with
  | Some _ =>
      let d := set_samplesDropped 0 d in
      let d := set_samplesReceived 0 d in
      let d := set_streamCallback handler d in
      let d := set_streamQueue [] d in
      if negb (rx =? MIRI_SUCCESS) then (set_streamCallback None d, -1)
      else (set_streamTime (wrap32 now) d, 0)
  | None => (d, -1)
  end.

Definition stop (d : Impl) : Impl * Z :=
  match deviceHandle d, streamCallback d with
  | Some _, Some _ =>
      let d := set_streamCallback None d in
      let d := set_streamQueue [] d in
      let d := set_streamTime 0 d in
      (d, 0)
  | _, _ => (d, -1)
  end.

Definition close (d : Impl) : Impl :=
  match deviceHandle d with
  | Some _ =>
      let d := fst (stop d) in
      let d := set_deviceName "" d in
      let d := set_deviceVersion "" d in
      set_deviceHandle None d
  | None => d
  end.

Definition isOpen (d : Impl) : bool := bool_decide (is_Some (deviceHandle d)).
Definition isReady (d : Impl) : bool := isOpen d.
Definition isStreaming (d : Impl) : bool :=
  isOpen d && bool_decide (is_Some (streamCallback d)).
Definition isEof (d : Impl) : bool :=
  negb (isOpen d) || negb (bool_decide (is_Some (streamCallback d))).

(** The mutators: a failing library call is only logged. *)
Definition setCenterFreq (value : Z) (d : Impl) : Impl * Z :=
  let d := set_centerFreq (wrap32 value) d in
  match deviceHandle d with Some _ => (d, 0) | None => (d, -1) end.

Definition setSampleRate (value : Z) (d : Impl) : Impl * Z :=
  let d := set_sampleRate (wrap32 value) d in
  match deviceHandle d with Some _ => (d, 0) | None => (d, -1) end.

Definition setGainValue (value : Z) (d : Impl) : Impl * Z :=
  let d := set_gainValue value d in
  match deviceHandle d with Some _ => (d, 0) | None => (d, -1) end.

Definition setGainMode (mode : Z) (d : Impl) : Impl * Z :=
  let d := set_gainMode mode d in
  match deviceHandle d with
  | Some _ =>
      if gainMode d =? Manual then setGainValue (gainValue d) d else (d, -1)
  | None => (d, -1)
  end.

Definition setTunerAgc (value : Z) (d : Impl) : Impl * Z :=
  (set_tunerAgc value d, -1).

Definition setMixerAgc (value : Z) (d : Impl) : Impl * Z :=
  (set_mixerAgc value d, 0).

Definition setDecimation (value : Z) (d : Impl) : Impl * Z :=
  (set_decimation value d, 0).

Definition read (d : Impl) : Impl * option SignalBuffer :=
  match streamQueue d with
  | front :: rest => (set_streamQueue rest d, Some front)
  | [] => (d, None)
  end.

(** The capture callback: [len] is the byte count libmirisdr reports and
    [ctx] the device pointer it passes back; the queued buffer is a
    default-constructed one. *)
Definition process_transfer (len : Z) (ctx : option Impl)
  : option Impl * list Event * Z :=
  match ctx with
  | Some device =>
      let buffer := EmptyBuffer in
      let device :=
        set_samplesReceived (wrap64 (samplesReceived device + len)) device in
      match streamCallback device with
      | Some handler => (Some device, [Forwarded handler buffer], 0)
      | None =>
          let '(device, events) :=
            if MAX_QUEUE_SIZE <=? Z.of_nat (length (streamQueue device)) then
              match streamQueue device with
              | front :: rest =>
                  let device :=
                    set_samplesDropped (wrap64 (samplesDropped device + elements front)) device in
                  (set_streamQueue rest device, [Evicted front])
              | [] => (device, [])
              end
            else (device, []) in
          (Some (set_streamQueue (streamQueue device ++ [buffer])%list device),
           (events ++ [Queued buffer])%list, 0)
      end
  | None => (None, [], -1)
  end.

End Methods.

(** The public class.  Every method forwards to [Impl] except the
    sample-rate pair, which returns 0 without touching the device, and
    [setSampleSize], which forwards to [Impl::setSampleRate]. *)
Module Public.
Section Public.
Context `{SdrHeaders}.

Definition start := start.
Definition stop := stop.
Definition isOpen := isOpen.
Definition isStreaming := isStreaming.

Definition sampleSize (d : Impl) : Z := sampleSize d.
Definition setSampleSize (value : Z) (d : Impl) : Impl * Z := setSampleRate value d.
Definition sampleRate (d : Impl) : Z := 0.
Definition setSampleRate (value : Z) (d : Impl) : Impl * Z := (d, 0).
Definition streamTime (d : Impl) : Z := streamTime d.
Definition centerFreq (d : Impl) : Z := centerFreq d.
Definition setCenterFreq (value : Z) (d : Impl) : Impl * Z := setCenterFreq value d.
Definition tunerAgc (d : Impl) : Z := tunerAgc d.
Definition setTunerAgc (value : Z) (d : Impl) : Impl * Z := setTunerAgc value d.
Definition mixerAgc (d : Impl) : Z := mixerAgc d.
Definition setMixerAgc (value : Z) (d : Impl) : Impl * Z := setMixerAgc value d.
Definition gainMode (d : Impl) : Z := gainMode d.
Definition setGainMode (value : Z) (d : Impl) : Impl * Z := setGainMode value d.
Definition gainValue (d : Impl) : Z := gainValue d.
Definition setGainValue (value : Z) (d : Impl) : Impl * Z := setGainValue value d.
Definition decimation (d : Impl) : Z := decimation d.
Definition setDecimation (value : Z) (d : Impl) : Impl * Z := setDecimation value d.
Definition samplesReceived (d : Impl) : Z := samplesReceived d.
Definition samplesDropped (d : Impl) : Z := samplesDropped d.

End Public.
End Public.

End MiriDevice.

(** ** MiriDevice.cpp, the placeholder translation unit

    Its [Impl] is an empty struct; every method returns a constant. *)

Module MiriDevicePlaceholder.

Inductive Impl := mkImpl.

Definition start (handler : option StreamHandler) (d : Impl) : Impl * Z := (d, 0).
Definition stop (d : Impl) : Impl * Z := (d, 0).
Definition isOpen (d : Impl) : bool := false.
Definition isStreaming (d : Impl) : bool := false.

Definition sampleRate (d : Impl) : Z := 0.
Definition setSampleRate (value : Z) (d : Impl) : Impl * Z := (d, 0).
Definition streamTime (d : Impl) : Z := 0.
Definition centerFreq (d : Impl) : Z := 0.
Definition setCenterFreq (value : Z) (d : Impl) : Impl * Z := (d, 0).
Definition tunerAgc (d : Impl) : Z := 0.
Definition setTunerAgc (value : Z) (d : Impl) : Impl * Z := (d, 0).
Definition mixerAgc (d : Impl) : Z := 0.
Definition setMixerAgc (value : Z) (d : Impl) : Impl * Z := (d, 0).
Definition gainMode (d : Impl) : Z := 0.
Definition setGainMode (value : Z) (d : Impl) : Impl * Z := (d, 0).
Definition gainValue (d : Impl) : Z := 0.
Definition setGainValue (value : Z) (d : Impl) : Impl * Z := (d, 0).
Definition decimation (d : Impl) : Z := 0.
Definition setDecimation (value : Z) (d : Impl) : Impl * Z := (d, 0).
Definition samplesReceived (d : Impl) : Z := 0.
Definition samplesDropped (d : Impl) : Z := 0.

End MiriDevicePlaceholder.

(** ** Runs of the capture thread

    The vendor library calls the capture callback once per buffer, always
    with the device pointer that [start] registered. *)

Definition evictions (events : list Event) : list SignalBuffer :=
  omap (fun e => match e with Evicted b => Some b | _ => None end) events.

Definition queued (events : list Event) : list SignalBuffer :=
  omap (fun e => match e with Queued b => Some b | _ => None end) events.

Definition sumZ (l : list Z) : Z := foldr Z.add 0 l.

Module AirspyRun.
Section Run.
Context `{SdrHeaders}.
Import AirspyDevice.

Fixpoint deliver (transfers : list airspy_transfer) (device : Impl)
  : Impl * list Event :=
  match transfers with
  | [] => (device, [])
  | transfer :: rest =>
      match process_transfer transfer (Some device) with
      | (Some device', events, _) =>
          let '(device'', events') := deliver rest device' in
          (device'', (events ++ events')%list)
      | (None, events, _) => (device, events)
      end
  end.

End Run.
End AirspyRun.

Module MiriRun.
Section Run.
Context `{SdrHeaders}.
Import MiriDevice.

Fixpoint deliver (lens : list Z) (device : Impl) : Impl * list Event :=
  match lens with
  | [] => (device, [])
  | len :: rest =>
      match process_transfer len (Some device) with
      | (Some device', events, _) =>
          let '(device'', events') := deliver rest device' in
          (device'', (events ++ events')%list)
      | (None, events, _) => (device, events)
      end
  end.

End Run.
End MiriRun.

(** ** Sequences of calls on the frame store *)

Module StreamRun.
Import Classifier StreamModel.

(** The operations that change a [StreamModel]. *)
Inductive Op :=
| Append (frame : NfcFrame)
| FetchMore
| ResetModel.

Definition apply (m : Impl) (op : Op) : Impl :=
  match op with
  | Append frame => append frame m
  | FetchMore => fetchMore m
  | ResetModel => resetModel m
  end.

(** The frames an operation sequence appends, in call order. *)
Definition appended (ops : list Op) : list NfcFrame :=
  omap (fun op => match op with Append frame => Some frame | _ => None end) ops.

(** Both time stamps are numbers (neither is a NaN). *)
Definition timed (frame : NfcFrame) : bool :=
  negb (PrimFloat.is_nan (timeStart frame)) && negb (PrimFloat.is_nan (timeEnd frame)).

(** The indexes of the frames of [l] that satisfy [keep], by ascending row,
    the first frame of [l] being in row [k]. *)
Fixpoint rows (keep : NfcFrame -> bool) (k : nat) (l : list NfcFrame) : list QModelIndex :=
  match l with
  | [] => []
  | frame :: l' =>
      ((if keep frame then [ModelIndex k 0 frame] else []) ++ rows keep (S k) l')%list
  end.

End StreamRun.

(** ** Reference values for concrete runs *)

(** Modelled from the spec: the sample count of a buffer ("SignalBuffer:
    sample count, channel count (1 real / 2 IQ)"), that is its length divided
    by its channel count, and 0 for a default-constructed buffer.  The
    enumerators get distinct small numbers; no statement below depends on
    which. *)
Definition sampleCount (b : SignalBuffer) : Z :=
  match b with
  | EmptyBuffer => 0
  | Buffer length stride _ _ _ _ => length / stride
  end.

Definition referenceHeaders : SdrHeaders :=
  {| elements := sampleCount; SAMPLE_REAL := 1; SAMPLE_IQ := 2; Float := 0;
     Auto := 0; Linearity := 1; Sensitivity := 2; Manual := 1 |}.

(** Device objects that hold a live handle, their other fields as the
    constructor sets them. *)
Definition airspyOpen : AirspyDevice.Impl :=
  AirspyDevice.set_deviceHandle (Some 1%nat)
    (@AirspyDevice.create referenceHeaders "airspy://260868c82a6b11c7").

Definition miriOpen : MiriDevice.Impl :=
  MiriDevice.set_deviceHandle (Some 1%nat)
    (@MiriDevice.create referenceHeaders "miri://0").

(** A transfer of [n] IQ samples for which the library reports [lost]
    dropped samples. *)
Definition iqTransfer (n lost : Z) : AirspyDevice.airspy_transfer :=
  AirspyDevice.mkTransfer n lost AirspyDevice.AIRSPY_SAMPLE_FLOAT32_IQ.

(** ** The ISO-DEP overlay as the specification words it *)

Module IsoDepSpec.

Record Pattern := mkPattern {
  mask : Z;
  value : Z;
  minLength : Z;
  maxLength : option Z;
  label : string
}.

(** Deselect, Wait-Time-Extension, Acknowledge, Negative-Acknowledge,
    I-Block, R-Block, S-Block, in priority order. *)
Definition patterns : list Pattern :=
  [ mkPattern 0xF7 0xC2 3 (Some 4) "S(Deselect)";
    mkPattern 0xF7 0xF2 3 (Some 4) "S(WTX)";
    mkPattern 0xF6 0xA2 3 (Some 3) "R(ACK)";
    mkPattern 0xF6 0xB2 3 (Some 3) "R(NACK)";
    mkPattern 0xE2 0x02 4 None "I-Block";
    mkPattern 0xE6 0xA2 3 (Some 3) "R-Block";
    mkPattern 0xC7 0xC2 3 (Some 4) "S-Block" ].

Definition matches (b len : Z) (p : Pattern) : bool :=
  (Z.land b (mask p) =? value p) && (minLength p <=? len)
  && match maxLength p with Some hi => len <=? hi | None => true end.

(** First match wins; no match gives the empty label. *)
Definition firstMatch (b len : Z) : string :=
  match List.find (matches b len) patterns with
  | Some p => label p
  | None => ""
  end.

End IsoDepSpec.

(** Two hexadecimal digits of a byte value, in upper or in lower case. *)
Definition hexChar (upper : bool) (d : Z) : ascii :=
  if d <? 10 then ascii_of_nat (Z.to_nat (48 + d))
  else ascii_of_nat (Z.to_nat ((if upper then 65 else 97) + (d - 10))).

Definition hex2 (upper : bool) (n : Z) : string :=
  String (hexChar upper (n / 16)) (String (hexChar upper (n mod 16)) "").

(** The value of a payload byte. *)
Definition byteZ (b : byte) : Z := Z.of_N (Byte.to_N b).

(** A frame without time stamps of interest, for concrete scenarios. *)
Definition frameOf (t : Classifier.TechType) (k : Classifier.FrameType)
    (encrypted : bool) (payload : list byte) : Classifier.NfcFrame :=
  Classifier.mkFrame t k encrypted 0%float 0%float payload.

(** Whether some rule or table entry of the classifier applies to a frame:
    the conditions under which [eventNfcA], [eventNfcB], [eventNfcF] and
    [eventNfcV] return a label from a rule or a table. *)
Module Matched.
Import Classifier.

Definition inTable (T : gmap Z string) (command : Z) : bool :=
  bool_decide (is_Some (T !! command)).

Definition first (f : NfcFrame) : Z := default 0 (at_ f 0).
Definition second (f : NfcFrame) : Z := default 0 (at_ f 1).

Definition overlay (f : NfcFrame) : bool :=
  negb (isEmpty (isoDepLabel (first f) (limit f))).

Definition matched (frame : NfcFrame) (prev : option NfcFrame) : bool :=
  match techType frame with
  | NfcA =>
      if isPollFrame frame then
        (first frame =? 0x50) && (limit frame =? 4)
        || (Z.land (first frame) 0xF0 =? 0xD0) && (limit frame =? 5)
        || overlay frame || inTable NfcACmd (first frame)
      else
        match prev with
        | Some p =>
            isPollFrame p &&
            (((first p =? 0x93) || (first p =? 0x95) || (first p =? 0x97))
               && ((limit frame =? 3) || (limit frame =? 5))
             || (first p =? 0xE0) && (first frame =? limit frame - 2)
             || overlay frame || inTable NfcAResp (first p))
        | None => false
        end
  | NfcB =>
      if isPollFrame frame then overlay frame || inTable NfcBCmd (first frame)
      else if isListenFrame frame then overlay frame || inTable NfcBResp (first frame)
      else false
  | NfcF =>
      if isPollFrame frame then inTable NfcFCmd (second frame)
      else if isListenFrame frame then inTable NfcFResp (second frame)
      else false
  | NfcV => isPollFrame frame && inTable NfcVCmd (second frame)
  | TechNone => false
  end.

End Matched.

(** Whether the payload bytes that the classifier reads for a frame exist.
    It reads nothing for a carrier frame, a frame without technology, a
    technology-A frame marked encrypted, a technology-A listen frame that
    has no preceding frame or follows a frame that is no poll frame, and a
    technology-V listen frame; index 0 of an unencrypted technology-A poll
    frame and of a technology-B frame; index 0 of the preceding poll frame
    and then of the frame itself for an unencrypted technology-A listen
    frame; index 1 of a technology-F frame and of a technology-V poll
    frame. *)
Definition inBounds (frame : Classifier.NfcFrame)
    (prev : option Classifier.NfcFrame) : bool :=
  if Classifier.isCarrierOn frame || Classifier.isCarrierOff frame then true
  else
    match Classifier.techType frame with
    | Classifier.NfcA =>
        if Classifier.isEncrypted frame then true
        else if Classifier.isPollFrame frame then 1 <=? Classifier.limit frame
        else
          match prev with
          | Some p =>
              if Classifier.isPollFrame p
              then (1 <=? Classifier.limit p) && (1 <=? Classifier.limit frame)
              else true
          | None => true
          end
    | Classifier.NfcB =>
        if Classifier.isPollFrame frame || Classifier.isListenFrame frame
        then 1 <=? Classifier.limit frame else true
    | Classifier.NfcF => 2 <=? Classifier.limit frame
    | Classifier.NfcV =>
        if Classifier.isPollFrame frame then 2 <=? Classifier.limit frame else true
    | Classifier.TechNone => true
    end.

(** The label a frame gets when no rule and no table entry applies. *)
Definition unmatchedLabel (frame : Classifier.NfcFrame) : string :=
  match Classifier.techType frame with
  | Classifier.NfcF | Classifier.NfcV =>
      if Classifier.isPollFrame frame
      then String.append "CMD " (hex2 false (Matched.second frame))
      else ""
  | _ => ""
  end.

(** * Further operations of the same files *)

(** ** The parts of std::string and std::stoull that [open] relies on *)

Module Std.

Inductive exception := out_of_range | invalid_argument.

(** [s.find(pattern) != -1] *)
Definition found (pattern s : string) : bool :=
  match String.index 0 pattern s with Some _ => true | None => false end.

(** [s.substr(pos)] throws [out_of_range] when [pos > s.size()]. *)
Definition substr (pos : nat) (s : string) : exception + string :=
  if (String.length s <? pos)%nat then inl out_of_range
  else inr (String.substring pos (String.length s - pos) s).

(** [isspace] in the C locale. *)
Definition isspace (c : ascii) : bool :=
  let n := nat_of_ascii c in
  ((n =? 32) || ((9 <=? n) && (n <=? 13)))%nat.

(** The value of a hexadecimal digit, in either case. *)
Definition hexValue (c : ascii) : option Z :=
  let n := Z.of_nat (nat_of_ascii c) in
  if (48 <=? n) && (n <=? 57) then Some (n - 48)
  else if (97 <=? n) && (n <=? 102) then Some (n - 87)
  else if (65 <=? n) && (n <=? 70) then Some (n - 55)
  else None.

Fixpoint skipSpace (s : string) : string :=
  match s with
  | String c s' => if isspace c then skipSpace s' else s
  | EmptyString => s
  end.

(** The value and the number of the leading hexadecimal digits of [s]. *)
Fixpoint hexDigits (acc : Z) (count : nat) (s : string) : Z * nat :=
  match s with
  | String c s' =>
      match hexValue c with
      | Some v => hexDigits (acc * 16 + v) (S count) s'
      | None => (acc, count)
      end
  | EmptyString => (acc, count)
  end.

(** The characters [hexDigits] accepts. *)
Definition isHex (c : ascii) : Prop := is_Some (hexValue c).

Fixpoint allHex (s : string) : Prop :=
  match s with
  | String c s' => isHex c /\ allHex s'
  | EmptyString => True
  end.

Definition ULLONG_MAX : Z := 2 ^ 64 - 1.

(** An optional sign in front of the digits. *)
Definition stripSign (s : string) : bool * string :=
  match s with
  | String c s' =>
      if Ascii.eqb c "-" then (true, s')
      else if Ascii.eqb c "+" then (false, s')
      else (false, s)
  | EmptyString => (false, s)
  end.

(** An optional "0x" or "0X", taken only in front of a digit. *)
Definition stripPrefix (s : string) : string :=
  match s with
  | String c0 (String x (String c s')) =>
      if Ascii.eqb c0 "0" && (Ascii.eqb x "x" || Ascii.eqb x "X")
         && bool_decide (is_Some (hexValue c))
      then String c s' else s
  | _ => s
  end.

(** [std::stoull(s, nullptr, 16)], that is [strtoull] in base 16: leading
    white space, an optional sign, an optional "0x" or "0X", then the
    longest run of hexadecimal digits.  No digit at all throws
    [invalid_argument], a value above [ULLONG_MAX] throws [out_of_range],
    and a minus sign negates in the unsigned type. *)
Definition stoull16 (s : string) : exception + Z :=
  let '(negative, s) := stripSign (skipSpace s) in
  let '(value, count) := hexDigits 0 0 (stripPrefix s) in
  if (count =? 0)%nat then inl invalid_argument
  else if ULLONG_MAX <? value then inl out_of_range
  else inr (if negative : bool then (2 ^ 64 - value) mod 2 ^ 64 else value).

(** [snprintf(buffer, size, ...)] keeps the first [size - 1] characters of
    the formatted text. *)
Definition snprintf (size : nat) (text : string) : string :=
  String.substring 0 (size - 1) text.

(** The conversion [%llx] of a value below 2^64 (the flag 0 has no effect
    without a field width): lower-case digits, no padding. *)
Definition llx (n : Z) : string :=
  number16 (S (Z.to_nat (Z.log2 n))) n "".

(** What a call hands back: a value, or an exception that leaves the
    function. *)
Inductive result (A : Type) :=
| Returned (a : A)
| Thrown (e : exception).
Arguments Returned {A} a.
Arguments Thrown {A} e.

End Std.

(** ** AirspyDevice.cpp: [listDevices] and [open] *)

Module AirspyOpen.
Import AirspyDevice.

(** [devices] are the serial numbers [airspy_list_devices] writes (their
    number is the count it returns). *)
Definition listDevices (devices : list Z) : list string :=
  (fun serial => Std.snprintf 256 (String.append "airspy://" (Std.llx serial)))
    <$> devices.

(** The answers of libairspy during one [open]: the statuses of
    [airspy_stop_rx] and [airspy_close] (asked only when a handle is open),
    the status of [airspy_open_sn] for a serial number and the handle it
    yields, then the statuses of the set-up calls and of the four parameter
    pushes, and the version text read into [tmp]. *)
Record Answers := mkAnswers {
  stop_rx : Z;
  close_status : Z;
  open_sn : Z -> Z;
  handle : Handle;
  version_status : Z;
  version : string;
  rf_bias : Z;
  serialno : Z;
  sample_type_status : Z;
  freq : Z;
  samplerate : Z;
  gain1 : Z;
  gain2 : Z;
  gain : Z
}.

Section Open.
Context `{SdrHeaders}.

(** [open]: the device afterwards, and the returned flag or the exception
    that [substr] or [stoull] throws.  (The board serial that
    [airspy_board_partid_serialno_read] stores is read nowhere and is not
    kept.) *)
Definition open (a : Answers) (d : Impl) : Impl * Std.result bool :=
  if Std.found "://" (deviceName d) && negb (Std.found "airspy://" (deviceName d))
  then (d, Std.Returned false)
  else
    let d := close (stop_rx a) (close_status a) d in
    match Std.substr 9 (deviceName d) with
    | inl e => (d, Std.Thrown e)
    | inr digits =>
        match Std.stoull16 digits with
        | inl e => (d, Std.Thrown e)
        | inr sn =>
            let d := set_deviceResult (open_sn a sn) d in
            if deviceResult d =? AIRSPY_SUCCESS then
              let d := set_deviceHandle (Some (handle a)) d in
              let d := set_deviceResult (version_status a) d in
              let d := set_deviceResult (rf_bias a) d in
              let d := set_deviceResult (serialno a) d in
              let d := set_deviceResult (sample_type_status a) d in
              let d := set_deviceVersion (version a) d in
              let d := fst (setCenterFreq (centerFreq d) (freq a) d) in
              let d := fst (setSampleRate (sampleRate d) (samplerate a) d) in
              let d := fst (setGainMode (gainMode d) (gain1 a) (gain2 a) d) in
              let d := fst (setGainValue (gainValue d) (gain a) d) in
              (d, Std.Returned true)
            else (d, Std.Returned false)
        end
    end.

End Open.
End AirspyOpen.

(** ** MiriDevice.cpp (libmirisdr): [listDevices] and [open] *)

Module MiriOpen.
Import MiriDevice.

(** [names] are the texts [mirisdr_get_device_name] returns for the indexes
    below the device count. *)
Definition listDevices (names : list string) : list string :=
  (fun name => Std.snprintf 256 (String.append "miri://" name)) <$> names.

Section Open.
Context `{SdrHeaders}.

(** [open]: [status] is the status of [mirisdr_open] (always asked for
    device index 0) and [handle] the handle it yields; the set-up calls
    that follow are only logged. *)
Definition open (status : Z) (handle : Handle) (d : Impl) : Impl * bool :=
  if Std.found "://" (deviceName d) && negb (Std.found "miri://" (deviceName d))
  then (d, false)
  else
    let d := close d in
    if status =? MIRI_SUCCESS then
      let d := set_deviceHandle (Some handle) d in
      let d := fst (setCenterFreq (centerFreq d) d) in
      let d := fst (setSampleRate (sampleRate d) d) in
      let d := fst (setGainMode (gainMode d) d) in
      let d := fst (setGainValue (gainValue d) d) in
      (d, true)
    else (d, false).

End Open.
End MiriOpen.

(** ** A consumer that reads until the queue is empty *)

Module Pull.

Fixpoint airspyReadAll (fuel : nat) (d : AirspyDevice.Impl)
  : AirspyDevice.Impl * list SignalBuffer :=
  match fuel with
  | O => (d, [])
  | S fuel' =>
      match AirspyDevice.read d with
      | (d', Some buffer) =>
          let '(d'', buffers) := airspyReadAll fuel' d' in (d'', buffer :: buffers)
      | (d', None) => (d', [])
      end
  end.

Fixpoint miriReadAll (fuel : nat) (d : MiriDevice.Impl)
  : MiriDevice.Impl * list SignalBuffer :=
  match fuel with
  | O => (d, [])
  | S fuel' =>
      match MiriDevice.read d with
      | (d', Some buffer) =>
          let '(d'', buffers) := miriReadAll fuel' d' in (d'', buffer :: buffers)
      | (d', None) => (d', [])
      end
  end.

End Pull.

(** The buffers handed to a handler, with the handler. *)
Definition forwarded (events : list Event) : list (StreamHandler * SignalBuffer) :=
  omap (fun e => match e with Forwarded h b => Some (h, b) | _ => None end) events.

(** The buffers the Airspy callback builds for a run of transfers when the
    device reports sample rate [rate] and has received [received] samples
    before: each buffer carries the number of samples received before it. *)
Fixpoint airspyBuffers `{SdrHeaders} (rate received : Z)
    (transfers : list AirspyDevice.airspy_transfer) : list SignalBuffer :=
  match transfers with
  | [] => []
  | t :: rest =>
      match AirspyDevice.sample_type t with
      | AirspyDevice.AIRSPY_SAMPLE_FLOAT32_REAL =>
          Buffer (AirspyDevice.sample_count t) 1 rate received 0 SAMPLE_REAL
      | AirspyDevice.AIRSPY_SAMPLE_FLOAT32_IQ =>
          Buffer (AirspyDevice.sample_count t * 2) 2 rate received 0 SAMPLE_IQ
      | AirspyDevice.AIRSPY_SAMPLE_OTHER => EmptyBuffer
      end
      :: airspyBuffers rate (wrap64 (received + AirspyDevice.sample_count t)) rest
  end.

(** ** StreamModel.cpp: the table cells that hold the event label *)

Module StreamView.
Import Classifier StreamModel.

(** A [QVariant]: invalid, or a text. *)
Inductive QVariant :=
| Invalid
| Text (s : string).

(** [data(index, Qt::DisplayRole)] for a valid index in column [Event] and
    row [row]: the label of the frame of that row, classified with the frame
    of the row above as context; [None] when the classifier reads past the
    end of a payload. *)
Definition dataEvent (m : Impl) (row : Z) : option QVariant :=
  if (Z.of_nat (length (frames m)) <=? row) || (row <? 0) then Some Invalid
  else
    match frames m !! Z.to_nat row with
    | Some frame =>
        let prev := if 0 <? row then frames m !! Z.to_nat (row - 1) else None in
        Text <$> frameEvent frame prev
    | None => Some Invalid
    end.

(** The row of an index, when it is valid. *)
Definition indexRow (idx : QModelIndex) : option nat :=
  match idx with
  | InvalidIndex => None
  | ModelIndex row _ _ => Some row
  end.

End StreamView.

(** * Properties *)

Import Classifier.

(** ** Arithmetic helpers *)

Lemma wrap_fits w z : 0 < w -> fits w z -> wrap w z = z.
Proof.
  intros Hw [Hlo Hhi]. unfold wrap.
  assert (Hp : 2 ^ w = 2 * 2 ^ (w - 1)).
  { replace w with (Z.succ (w - 1)) at 1 by lia. apply Z.pow_succ_r. lia. }
  assert (0 < 2 ^ (w - 1)) by (apply Z.pow_pos_nonneg; lia).
  rewrite Z.mod_small; lia.
Qed.

Lemma wrap_add_l w a b : 0 < w -> wrap w (wrap w a + b) = wrap w (a + b).
Proof.
  intros Hw. unfold wrap. f_equal.
  replace ((a + 2 ^ (w - 1)) mod 2 ^ w - 2 ^ (w - 1) + b + 2 ^ (w - 1))
    with ((a + 2 ^ (w - 1)) mod 2 ^ w + b) by lia.
  rewrite Zplus_mod_idemp_l. f_equal. lia.
Qed.

Lemma wrap64_add_l a b : wrap64 (wrap64 a + b) = wrap64 (a + b).
Proof. apply wrap_add_l. lia. Qed.

Lemma land_bit4 b : Z.land b 16 = 0 \/ Z.land b 16 = 16.
Proof.
  destruct (Z.testbit b 4) eqn:E; [right | left]; apply Z.bits_inj'; intros n Hn;
    rewrite Z.land_spec; change 16 with (2 ^ 4);
    rewrite ?Z.bits_0, Z.pow2_bits_eqb by lia;
    destruct (Z.eqb_spec 4 n) as [<- | Hne]; rewrite ?E, ?andb_false_r; reflexivity.
Qed.

(** Every byte matching the R-Block pattern matches the R(ACK) or the
    R(NACK) pattern. *)
Lemma rblock_subsumed b :
  Z.land b 0xE6 = 0xA2 -> Z.land b 0xF6 = 0xA2 \/ Z.land b 0xF6 = 0xB2.
Proof.
  intros Hb.
  assert (Hs : Z.land b 0xF6 = Z.lor (Z.land b 0xE6) (Z.land b 16)).
  { rewrite <- Z.land_lor_distr_r. reflexivity. }
  rewrite Hb in Hs. destruct (land_bit4 b) as [H0 | H1].
  - left. rewrite Hs, H0. reflexivity.
  - right. rewrite Hs, H1. reflexivity.
Qed.

(** ** The overlay agrees with the priority list *)

Lemma isoDepLabel_firstMatch b len :
  isoDepLabel b len = IsoDepSpec.firstMatch b len.
Proof.
  unfold isoDepLabel, IsoDepSpec.firstMatch, IsoDepSpec.patterns.
  cbv beta iota delta [List.find IsoDepSpec.matches IsoDepSpec.mask IsoDepSpec.value
       IsoDepSpec.minLength IsoDepSpec.maxLength IsoDepSpec.label].
  assert (E3 : (len =? 3) = (3 <=? len) && (len <=? 3)).
  { destruct (Z.eqb_spec len 3), (Z.leb_spec 3 len), (Z.leb_spec len 3); simpl; lia. }
  rewrite E3, ?andb_true_r, ?andb_assoc.
  repeat match goal with
         | |- context [if ?c then _ else _] => destruct c eqn:?; try reflexivity
         end.
Qed.

(** ** Reading the payload *)

(** Runs the binds of the payload reads without unfolding the tables. *)
Ltac run_bind := cbv beta iota delta [mbind option_bind].

Lemma at_0 frame b rest : data frame = b :: rest -> at_ frame 0 = Some (byteZ b).
Proof. unfold at_. intros ->. reflexivity. Qed.

Lemma at_1 frame b0 b1 rest :
  data frame = b0 :: b1 :: rest -> at_ frame 1 = Some (byteZ b1).
Proof. unfold at_. intros ->. reflexivity. Qed.

Lemma limit_ge_1 frame :
  1 <= limit frame -> exists b rest, data frame = b :: rest.
Proof.
  unfold limit. destruct (data frame) as [| b rest]; simpl; [lia | eauto].
Qed.

Lemma limit_ge_2 frame :
  2 <= limit frame -> exists b0 b1 rest, data frame = b0 :: b1 :: rest.
Proof.
  unfold limit. destruct (data frame) as [| b0 [| b1 rest]]; simpl; [lia | lia | eauto].
Qed.

Lemma frameType_poll frame : isPollFrame frame = true -> frameType frame = PollFrame.
Proof. unfold isPollFrame. destruct (frameType frame); congruence. Qed.

Lemma frameType_listen frame : isListenFrame frame = true -> frameType frame = ListenFrame.
Proof. unfold isListenFrame. destruct (frameType frame); congruence. Qed.

Lemma listen_not_poll frame : isListenFrame frame = true -> isPollFrame frame = false.
Proof. unfold isListenFrame, isPollFrame. destruct (frameType frame); congruence. Qed.

Lemma isEmpty_true s : isEmpty s = true -> s = "".
Proof. destruct s; simpl; congruence. Qed.

Lemma inTable_false T c : Matched.inTable T c = false -> T !! c = None.
Proof.
  unfold Matched.inTable. intros Hc. apply bool_decide_eq_false in Hc.
  destruct (T !! c) eqn:E; [| reflexivity]. exfalso. apply Hc. eauto.
Qed.

(** Qt's formatting of a byte is its two lower-case hexadecimal digits. *)
Lemma cmdLabel_hex2 b : cmdLabel (byteZ b) = String.append "CMD " (hex2 false (byteZ b)).
Proof. destruct b; vm_compute; reflexivity. Qed.

(** The overlay never answers with the R-Block label. *)
Lemma isoDepLabel_not_rblock b len : isoDepLabel b len <> "R-Block".
Proof.
  unfold isoDepLabel.
  repeat match goal with
         | |- context [if ?c then _ else _] => destruct c eqn:?
         end; try discriminate.
  exfalso.
  match goal with
  | H : (Z.land b 0xE6 =? 0xA2) && (len =? 3) = true |- _ =>
      apply andb_true_iff in H; destruct H as [Hr Hlen]
  end.
  apply Z.eqb_eq in Hr. rewrite Hlen, andb_true_r in *.
  destruct (rblock_subsumed b Hr) as [E | E]; rewrite E in *; discriminate.
Qed.

Lemma land_E6_of_F7 b : Z.land b 0xE6 = Z.land (Z.land b 0xF7) 0xE6.
Proof. rewrite <- Z.land_assoc. reflexivity. Qed.

Lemma isoDepLabel_rblock_pattern b :
  Z.land b 0xE6 = 0xA2 -> isoDepLabel b 3 = "R(ACK)" \/ isoDepLabel b 3 = "R(NACK)".
Proof.
  intros Hr. unfold isoDepLabel.
  destruct (Z.eqb_spec (Z.land b 0xF7) 0xC2) as [E | _].
  { rewrite land_E6_of_F7, E in Hr. discriminate. }
  destruct (Z.eqb_spec (Z.land b 0xF7) 0xF2) as [E | _].
  { rewrite land_E6_of_F7, E in Hr. discriminate. }
  simpl. destruct (rblock_subsumed b Hr) as [-> | ->]; simpl; auto.
Qed.

(** ** Claims about the classifier *)

Lemma eventIsoDep_data frame b rest :
  data frame = b :: rest ->
  eventIsoDep frame = Some (isoDepLabel (byteZ b) (limit frame)).
Proof. intros Hd. unfold eventIsoDep. rewrite (at_0 _ _ _ Hd). reflexivity. Qed.

Lemma limit_3 frame b0 b1 b2 : data frame = [b0; b1; b2] -> limit frame = 3.
Proof. unfold limit. intros ->. reflexivity. Qed.

(** C2.  The overlay returns the label of the first pattern, in the
    order Deselect, WTX, ACK, NACK, I-Block, R-Block, S-Block, that the first
    byte and the length match, and the empty label when none matches.  A
    3-byte frame with first byte 0xC2 is classified "S(Deselect)" on every
    path that reaches the overlay: an unencrypted technology-A poll frame, an
    unencrypted technology-A listen frame that follows a poll frame other
    than an anti-collision select, and a technology-B poll or listen frame. *)
Theorem isoDep_overlay_priority :
  (forall frame command,
      at_ frame 0 = Some command ->
      eventIsoDep frame = Some (IsoDepSpec.firstMatch command (limit frame)))
  /\ (forall frame prev b1 b2,
      data frame = [xc2; b1; b2] ->
      (techType frame = NfcA /\ isEncrypted frame = false /\ isPollFrame frame = true)
      \/ (techType frame = NfcA /\ isEncrypted frame = false /\ isListenFrame frame = true
          /\ exists p c, prev = Some p /\ isPollFrame p = true /\ at_ p 0 = Some c
                         /\ c <> 0x93 /\ c <> 0x95 /\ c <> 0x97)
      \/ (techType frame = NfcB
          /\ (isPollFrame frame = true \/ isListenFrame frame = true)) ->
      frameEvent frame prev = Some "S(Deselect)").
Proof.
  split.
  - intros frame command Hc. unfold eventIsoDep. rewrite Hc. simpl.
    f_equal. apply isoDepLabel_firstMatch.
  - intros frame prev b1 b2 Hd Hpath.
    pose proof (limit_3 _ _ _ _ Hd) as Hl.
    pose proof (at_0 _ _ _ Hd) as H0.
    pose proof (eventIsoDep_data _ _ _ Hd) as Hiso. rewrite Hl in Hiso.
    change (isoDepLabel (byteZ xc2) 3) with "S(Deselect)" in Hiso.
    unfold frameEvent, isCarrierOn, isCarrierOff.
    destruct Hpath as [(Ht & He & Hp) | [(Ht & He & Hli & p & c & -> & Hpp & Hc & N1 & N2 & N3)
                                        | (Ht & [Hp | Hli])]].
    + rewrite (frameType_poll _ Hp), Ht. unfold eventNfcA.
      rewrite He, Hp, H0, Hl, Hiso. reflexivity.
    + rewrite (frameType_listen _ Hli), Ht. unfold eventNfcA.
      rewrite He, (listen_not_poll _ Hli), Hpp, Hc, H0, Hl, Hiso. simpl.
      apply Z.eqb_neq in N1, N2, N3. rewrite N1, N2, N3. simpl.
      destruct (c =? 224); reflexivity.
    + rewrite (frameType_poll _ Hp), Ht. unfold eventNfcB.
      rewrite Hp, H0, Hiso. reflexivity.
    + rewrite (frameType_listen _ Hli), Ht. unfold eventNfcB.
      rewrite (listen_not_poll _ Hli), Hli, H0, Hiso. reflexivity.
Qed.

Lemma isoDep_overlay_priority_witness :
  eventIsoDep (frameOf NfcB ListenFrame false [xa2; x00; x00])
    = Some (IsoDepSpec.firstMatch 0xA2 3)
  /\ frameEvent (frameOf NfcA PollFrame false [xc2; x00; x00]) None
     = Some "S(Deselect)".
Proof.
  destruct isoDep_overlay_priority as [Hfirst Hdeselect]. split.
  - apply (Hfirst (frameOf NfcB ListenFrame false [xa2; x00; x00]) 0xA2). reflexivity.
  - apply (Hdeselect (frameOf NfcA PollFrame false [xc2; x00; x00]) None x00 x00).
    + reflexivity.
    + left. repeat split.
Defined.

(** C10.  The overlay never returns "R-Block": a byte matching the R-Block
    pattern matches the R(ACK) or the R(NACK) pattern, so a 3-byte frame
    matching it is labelled "R(ACK)" or "R(NACK)". *)
Theorem isoDep_never_R_Block :
  (forall frame, eventIsoDep frame <> Some "R-Block")
  /\ (forall b, Z.land b 0xE6 = 0xA2 ->
                Z.land b 0xF6 = 0xA2 \/ Z.land b 0xF6 = 0xB2)
  /\ (forall frame b,
        at_ frame 0 = Some b -> limit frame = 3 -> Z.land b 0xE6 = 0xA2 ->
        eventIsoDep frame = Some "R(ACK)" \/ eventIsoDep frame = Some "R(NACK)").
Proof.
  split; [| split].
  - intros frame. unfold eventIsoDep.
    destruct (at_ frame 0) as [c |]; simpl; [| discriminate].
    intros [= E]. exact (isoDepLabel_not_rblock _ _ E).
  - exact rblock_subsumed.
  - intros frame b Hb Hl Hr. unfold eventIsoDep. rewrite Hb, Hl. simpl.
    destruct (isoDepLabel_rblock_pattern b Hr) as [-> | ->]; auto.
Qed.

Lemma isoDep_never_R_Block_witness :
  (Z.land 0xBA 0xF6 = 0xA2 \/ Z.land 0xBA 0xF6 = 0xB2)
  /\ (eventIsoDep (frameOf NfcA PollFrame false [xba; x00; x00]) = Some "R(ACK)"
      \/ eventIsoDep (frameOf NfcA PollFrame false [xba; x00; x00]) = Some "R(NACK)").
Proof.
  destruct isoDep_never_R_Block as (_ & Hbits & Hframe). split.
  - apply Hbits. reflexivity.
  - apply (Hframe _ 0xBA); reflexivity.
Defined.

(** C5.  A carrier-on frame is labelled "RF-On" and a carrier-off frame
    "RF-Off" whatever its technology, flags and payload; a technology-A
    frame marked encrypted that is not a carrier transition gets the empty
    label whatever its payload, its direction and the previous frame. *)
Theorem carrier_then_encrypted frame prev :
  (isCarrierOn frame = true -> frameEvent frame prev = Some "RF-On")
  /\ (isCarrierOff frame = true -> frameEvent frame prev = Some "RF-Off")
  /\ (techType frame = NfcA -> isEncrypted frame = true ->
      isCarrierOn frame = false -> isCarrierOff frame = false ->
      frameEvent frame prev = Some "").
Proof.
  unfold frameEvent. repeat split.
  - intros ->. reflexivity.
  - intros Hoff. unfold isCarrierOn, isCarrierOff in *.
    destruct (frameType frame); try discriminate; reflexivity.
  - intros Ht He -> ->. rewrite Ht. unfold eventNfcA. rewrite He. reflexivity.
Qed.

Lemma carrier_then_encrypted_witness :
  frameEvent (frameOf NfcF CarrierOn false []) None = Some "RF-On"
  /\ frameEvent (frameOf NfcV CarrierOff true [x01]) None = Some "RF-Off"
  /\ frameEvent (frameOf NfcA ListenFrame true [])
       (Some (frameOf NfcA PollFrame false [x93])) = Some "".
Proof.
  split; [| split].
  - apply (carrier_then_encrypted (frameOf NfcF CarrierOn false []) None). reflexivity.
  - apply (carrier_then_encrypted (frameOf NfcV CarrierOff true [x01]) None). reflexivity.
  - apply (carrier_then_encrypted (frameOf NfcA ListenFrame true [])
             (Some (frameOf NfcA PollFrame false [x93]))); reflexivity.
Defined.

(** C3 (amended).  For a technology-A listen frame that is not marked
    encrypted and follows a poll frame: after a poll frame whose first byte
    is 0x93, 0x95 or 0x97, a 3-byte listen frame is labelled "SAK" and a
    5-byte one "UID"; after a poll frame whose first byte is 0xE0, a listen
    frame whose first byte equals its length minus 2 is labelled "ATS". *)
Theorem nfcA_listen_after_poll frame poll :
  techType frame = NfcA -> isListenFrame frame = true ->
  isEncrypted frame = false -> isPollFrame poll = true ->
  (forall c, at_ poll 0 = Some c -> c = 0x93 \/ c = 0x95 \/ c = 0x97 ->
             (limit frame = 3 -> frameEvent frame (Some poll) = Some "SAK")
             /\ (limit frame = 5 -> frameEvent frame (Some poll) = Some "UID"))
  /\ (forall b, at_ poll 0 = Some 0xE0 -> at_ frame 0 = Some b ->
                b = limit frame - 2 ->
                frameEvent frame (Some poll) = Some "ATS").
Proof.
  intros Ht Hli He Hpp.
  assert (Hev : frameEvent frame (Some poll) = eventNfcA frame (Some poll)).
  { unfold frameEvent, isCarrierOn, isCarrierOff.
    rewrite (frameType_listen _ Hli), Ht. reflexivity. }
  rewrite Hev. unfold eventNfcA.
  rewrite He, (listen_not_poll _ Hli), Hpp. split.
  - intros c Hc Hsel. rewrite Hc. simpl.
    assert (Hs : (c =? 147) || (c =? 149) || (c =? 151) = true).
    { destruct Hsel as [-> | [-> | ->]]; reflexivity. }
    rewrite Hs. split; intros ->; reflexivity.
  - intros b Hc Hb ->. rewrite Hc, Hb. simpl. rewrite Z.eqb_refl. reflexivity.
Qed.

Lemma nfcA_listen_after_poll_witness :
  frameEvent (frameOf NfcA ListenFrame false [x04; x11; x22; x33; x44])
    (Some (frameOf NfcA PollFrame false [x93])) = Some "UID"
  /\ frameEvent (frameOf NfcA ListenFrame false [x02; x80; x00; x00])
       (Some (frameOf NfcA PollFrame false [xe0; x50])) = Some "ATS".
Proof.
  split.
  - apply (nfcA_listen_after_poll (frameOf NfcA ListenFrame false [x04; x11; x22; x33; x44])
             (frameOf NfcA PollFrame false [x93])
             eq_refl eq_refl eq_refl eq_refl) with (c := 0x93); auto.
  - apply (nfcA_listen_after_poll (frameOf NfcA ListenFrame false [x02; x80; x00; x00])
             (frameOf NfcA PollFrame false [xe0; x50])
             eq_refl eq_refl eq_refl eq_refl) with (b := 0x02); reflexivity.
Defined.

(** C3 as stated fails on a listen frame marked encrypted: the 5-byte answer
    to a select gets the empty label, not "UID". *)
Lemma nfcA_listen_encrypted_counterexample :
  frameEvent (frameOf NfcA ListenFrame true [x04; x11; x22; x33; x44])
    (Some (frameOf NfcA PollFrame false [x93])) = Some ""
  /\ frameEvent (frameOf NfcA ListenFrame true [x04; x11; x22; x33; x44])
       (Some (frameOf NfcA PollFrame false [x93])) <> Some "UID".
Proof. split; [reflexivity | vm_compute; discriminate]. Qed.

(** C4 (amended).  For a frame that has a second payload byte, technology F
    looks that byte up in the poll table (poll frames) or in the response
    table (listen frames), and technology V looks the second byte of a poll
    frame up in its poll table; a poll frame without table entry is labelled
    "CMD " followed by the two lower-case hexadecimal digits of that byte,
    and a technology-F listen frame without table entry gets the empty
    label.  Every technology-V listen frame gets the empty label. *)
Theorem nfcF_nfcV_second_byte :
  (forall frame prev b0 b1 rest,
      data frame = b0 :: b1 :: rest ->
      (techType frame = NfcF -> isPollFrame frame = true ->
       frameEvent frame prev =
         Some (match NfcFCmd !! byteZ b1 with
               | Some l => l
               | None => String.append "CMD " (hex2 false (byteZ b1))
               end))
      /\ (techType frame = NfcF -> isListenFrame frame = true ->
          frameEvent frame prev =
            Some (match NfcFResp !! byteZ b1 with Some l => l | None => "" end))
      /\ (techType frame = NfcV -> isPollFrame frame = true ->
          frameEvent frame prev =
            Some (match NfcVCmd !! byteZ b1 with
                  | Some l => l
                  | None => String.append "CMD " (hex2 false (byteZ b1))
                  end)))
  /\ (forall frame prev,
        techType frame = NfcV -> isListenFrame frame = true ->
        frameEvent frame prev = Some "").
Proof.
  split.
  - intros frame prev b0 b1 rest Hd.
    pose proof (at_1 _ _ _ _ Hd) as H1.
    unfold frameEvent, isCarrierOn, isCarrierOff. repeat split.
    + intros Ht Hp. rewrite (frameType_poll _ Hp), Ht. unfold eventNfcF.
      rewrite H1, Hp. run_bind.
      destruct (NfcFCmd !! byteZ b1); [reflexivity |]. now rewrite cmdLabel_hex2.
    + intros Ht Hli. rewrite (frameType_listen _ Hli), Ht. unfold eventNfcF.
      rewrite H1, (listen_not_poll _ Hli), Hli. reflexivity.
    + intros Ht Hp. rewrite (frameType_poll _ Hp), Ht. unfold eventNfcV.
      rewrite H1, Hp. run_bind.
      destruct (NfcVCmd !! byteZ b1); [reflexivity |]. now rewrite cmdLabel_hex2.
  - intros frame prev Ht Hli. unfold frameEvent, isCarrierOn, isCarrierOff.
    rewrite (frameType_listen _ Hli), Ht. unfold eventNfcV.
    rewrite (listen_not_poll _ Hli). reflexivity.
Qed.

Lemma nfcF_nfcV_second_byte_witness :
  frameEvent (frameOf NfcF PollFrame false [xff; x00]) None = Some "REQC"
  /\ frameEvent (frameOf NfcF PollFrame false [x00; x4e]) None = Some "CMD 4e"
  /\ frameEvent (frameOf NfcF ListenFrame false [x00; x4e]) None = Some ""
  /\ frameEvent (frameOf NfcV PollFrame false [x26; x20]) None = Some "ReadBlock"
  /\ frameEvent (frameOf NfcV ListenFrame false [x00]) None = Some "".
Proof.
  destruct nfcF_nfcV_second_byte as [Hsecond HlistenV].
  split; [| split; [| split; [| split]]].
  - destruct (Hsecond (frameOf NfcF PollFrame false [xff; x00]) None xff x00 [] eq_refl)
      as (H & _ & _). exact (H eq_refl eq_refl).
  - destruct (Hsecond (frameOf NfcF PollFrame false [x00; x4e]) None x00 x4e [] eq_refl)
      as (H & _ & _). exact (H eq_refl eq_refl).
  - destruct (Hsecond (frameOf NfcF ListenFrame false [x00; x4e]) None x00 x4e [] eq_refl)
      as (_ & H & _). exact (H eq_refl eq_refl).
  - destruct (Hsecond (frameOf NfcV PollFrame false [x26; x20]) None x26 x20 [] eq_refl)
      as (_ & _ & H). exact (H eq_refl eq_refl).
  - exact (HlistenV (frameOf NfcV ListenFrame false [x00]) None eq_refl eq_refl).
Defined.

(** C4 as stated fails on the letter case: command byte 0xAB is rendered
    "CMD ab", not "CMD AB".  (A technology-F listen frame without second
    byte gets no label at all: the read at index 1 is past its end.) *)
Lemma nfcF_nfcV_uppercase_counterexample :
  frameEvent (frameOf NfcF PollFrame false [x00; xab]) None = Some "CMD ab"
  /\ frameEvent (frameOf NfcV PollFrame false [x00; xab]) None = Some "CMD ab"
  /\ frameEvent (frameOf NfcF PollFrame false [x00; xab]) None
     <> Some (String.append "CMD " (hex2 true 0xAB))
  /\ frameEvent (frameOf NfcF ListenFrame false [x01]) None = None.
Proof. repeat split; try reflexivity. vm_compute. discriminate. Qed.

Ltac split_orb :=
  repeat match goal with
         | H : _ || _ = false |- _ =>
             apply orb_false_iff in H; destruct H
         end.

Lemma first_data frame b rest : data frame = b :: rest -> Matched.first frame = byteZ b.
Proof. intros Hd. unfold Matched.first. now rewrite (at_0 _ _ _ Hd). Qed.

Lemma second_data frame b0 b1 rest :
  data frame = b0 :: b1 :: rest -> Matched.second frame = byteZ b1.
Proof. intros Hd. unfold Matched.second. now rewrite (at_1 _ _ _ _ Hd). Qed.

Lemma lookupOrEmpty_unmatched T c :
  Matched.inTable T c = false -> lookupOrEmpty T c = "".
Proof. intros Hc. unfold lookupOrEmpty. now rewrite (inTable_false _ _ Hc). Qed.

Ltac label_found := eexists; split; [reflexivity | discriminate].

Ltac overlay_or_table Hd :=
  let Eo := fresh "Eo" in
  let Hm := fresh "Hm" in
  destruct (negb (isEmpty (isoDepLabel _ _))) eqn:Eo;
  [ eexists; split; [reflexivity |]; unfold Matched.overlay;
    rewrite (first_data _ _ _ Hd), Eo; discriminate
  | eexists; split; [reflexivity |]; intros Hm; split_orb;
    now apply lookupOrEmpty_unmatched ].

Lemma eventNfcA_total frame prev :
  techType frame = NfcA -> 1 <= limit frame ->
  (forall p, prev = Some p -> 1 <= limit p) ->
  exists label, eventNfcA frame prev = Some label
                /\ (Matched.matched frame prev = false -> label = "").
Proof.
  intros Ht Hl Hprev. destruct (limit_ge_1 _ Hl) as (b & rest & Hd).
  unfold Matched.matched. rewrite Ht, (first_data _ _ _ Hd).
  unfold eventNfcA. rewrite (eventIsoDep_data _ _ _ Hd), (at_0 _ _ _ Hd).
  destruct (isEncrypted frame); [eauto |].
  destruct (isPollFrame frame).
  - simpl.
    destruct ((byteZ b =? 80) && (limit frame =? 4)); [label_found |].
    destruct ((Z.land (byteZ b) 240 =? 208) && (limit frame =? 5)); [label_found |].
    simpl. overlay_or_table Hd.
  - destruct prev as [p |]; [| eauto].
    destruct (limit_ge_1 p (Hprev p eq_refl)) as (c & prest & Hpd).
    rewrite (at_0 _ _ _ Hpd), (first_data _ _ _ Hpd).
    destruct (isPollFrame p); [| eauto]. simpl.
    set (sel := (byteZ c =? 147) || (byteZ c =? 149) || (byteZ c =? 151)).
    destruct sel; simpl.
    + destruct (limit frame =? 3); [label_found |].
      destruct (limit frame =? 5); [label_found |].
      simpl. destruct (byteZ c =? 224); simpl.
      * destruct (byteZ b =? limit frame - 2); simpl; [label_found |].
        overlay_or_table Hd.
      * overlay_or_table Hd.
    + destruct (byteZ c =? 224); simpl.
      * destruct (byteZ b =? limit frame - 2); simpl; [label_found |].
        overlay_or_table Hd.
      * overlay_or_table Hd.
Qed.

Lemma eventNfcB_total frame prev :
  techType frame = NfcB -> 1 <= limit frame ->
  exists label, eventNfcB frame prev = Some label
                /\ (Matched.matched frame prev = false -> label = "").
Proof.
  intros Ht Hl. destruct (limit_ge_1 _ Hl) as (b & rest & Hd).
  unfold Matched.matched. rewrite Ht, (first_data _ _ _ Hd).
  unfold eventNfcB. rewrite (eventIsoDep_data _ _ _ Hd), (at_0 _ _ _ Hd).
  destruct (isPollFrame frame); simpl; [overlay_or_table Hd |].
  destruct (isListenFrame frame); simpl; [overlay_or_table Hd | eauto].
Qed.

Lemma eventNfcF_total frame prev :
  techType frame = NfcF -> 2 <= limit frame ->
  exists label, eventNfcF frame prev = Some label
                /\ (Matched.matched frame prev = false -> label = unmatchedLabel frame).
Proof.
  intros Ht Hl. destruct (limit_ge_2 _ Hl) as (b0 & b1 & rest & Hd).
  unfold Matched.matched, unmatchedLabel. rewrite Ht, (second_data _ _ _ _ Hd).
  unfold eventNfcF. rewrite (at_1 _ _ _ _ Hd). run_bind.
  destruct (isPollFrame frame).
  - unfold Matched.inTable. destruct (NfcFCmd !! byteZ b1) eqn:E.
    + eexists; split; [reflexivity |]. intros Hm.
      apply bool_decide_eq_false in Hm. exfalso. apply Hm. eauto.
    + eexists; split; [reflexivity |]. intros _. apply cmdLabel_hex2.
  - destruct (isListenFrame frame); [| eauto].
    eexists; split; [reflexivity |]. apply lookupOrEmpty_unmatched.
Qed.

Lemma eventNfcV_total frame prev :
  techType frame = NfcV -> 2 <= limit frame ->
  exists label, eventNfcV frame prev = Some label
                /\ (Matched.matched frame prev = false -> label = unmatchedLabel frame).
Proof.
  intros Ht Hl. destruct (limit_ge_2 _ Hl) as (b0 & b1 & rest & Hd).
  unfold Matched.matched, unmatchedLabel. rewrite Ht, (second_data _ _ _ _ Hd).
  unfold eventNfcV. rewrite (at_1 _ _ _ _ Hd).
  destruct (isPollFrame frame); [| eauto]. run_bind.
  unfold Matched.inTable. destruct (NfcVCmd !! byteZ b1) eqn:E.
  - eexists; split; [reflexivity |]. intros Hm.
    apply bool_decide_eq_false in Hm. exfalso. apply Hm. eauto.
  - eexists; split; [reflexivity |]. intros _. apply cmdLabel_hex2.
Qed.

Lemma at_none frame i : limit frame <= Z.of_nat i -> at_ frame i = None.
Proof.
  unfold limit, at_. intros Hl.
  rewrite (lookup_ge_None_2 (data frame) i) by lia. reflexivity.
Qed.

Lemma eventNfcA_poll_prev frame prev :
  isPollFrame frame = true ->
  eventNfcA frame prev = eventNfcA frame None
  /\ (techType frame = NfcA -> Matched.matched frame prev = Matched.matched frame None).
Proof.
  intros Hp. unfold eventNfcA, Matched.matched. rewrite Hp.
  split; [reflexivity | intros ->; reflexivity].
Qed.

(** The frames on which the classifier returns a label. *)
Lemma frameEvent_inBounds frame prev :
  inBounds frame prev = true ->
  exists label,
    frameEvent frame prev = Some label
    /\ (isCarrierOn frame = false -> isCarrierOff frame = false ->
        Matched.matched frame prev = false -> label = unmatchedLabel frame).
Proof.
  unfold inBounds, frameEvent.
  destruct (isCarrierOn frame); [intros _; eexists; split; [reflexivity | discriminate] |].
  destruct (isCarrierOff frame); [intros _; eexists; split; [reflexivity | discriminate] |].
  cbn [orb]. unfold unmatchedLabel.
  destruct (techType frame) eqn:Ht.
  - intros _. exists "". split; [reflexivity | reflexivity].
  - destruct (isEncrypted frame) eqn:He.
    { intros _. exists "". split; [| reflexivity]. unfold eventNfcA. now rewrite He. }
    destruct (isPollFrame frame) eqn:Hp.
    { intros Hl. apply Z.leb_le in Hl.
      destruct (eventNfcA_poll_prev frame prev Hp) as [Hev Hm].
      rewrite Hev, (Hm Ht).
      destruct (eventNfcA_total frame None Ht Hl) as (label & Hlabel & Hun);
        [discriminate |].
      exists label. split; [exact Hlabel |]. intros _ _. exact Hun. }
    destruct prev as [p |].
    2:{ intros _. exists "". split; [| reflexivity]. unfold eventNfcA. now rewrite He, Hp. }
    destruct (isPollFrame p) eqn:Hpp.
    2:{ intros _. exists "". split; [| reflexivity].
        unfold eventNfcA. now rewrite He, Hp, Hpp. }
    intros Hl. apply andb_true_iff in Hl. destruct Hl as [Hlp Hlf].
    apply Z.leb_le in Hlp, Hlf.
    destruct (eventNfcA_total frame (Some p) Ht Hlf) as (label & Hlabel & Hun).
    { intros q [= <-]. exact Hlp. }
    exists label. split; [exact Hlabel |]. intros _ _. exact Hun.
  - destruct (isPollFrame frame || isListenFrame frame) eqn:Hk.
    + intros Hl. apply Z.leb_le in Hl.
      destruct (eventNfcB_total frame prev Ht Hl) as (label & Hlabel & Hun).
      exists label. split; [exact Hlabel |]. intros _ _. exact Hun.
    + intros _. apply orb_false_iff in Hk. destruct Hk as [Hp Hli].
      exists "". split; [| reflexivity]. unfold eventNfcB. now rewrite Hp, Hli.
  - intros Hl. apply Z.leb_le in Hl.
    destruct (eventNfcF_total frame prev Ht Hl) as (label & Hlabel & Hun).
    exists label. split; [exact Hlabel |]. intros _ _ Hm.
    rewrite (Hun Hm). unfold unmatchedLabel. now rewrite Ht.
  - destruct (isPollFrame frame) eqn:Hp.
    + intros Hl. apply Z.leb_le in Hl.
      destruct (eventNfcV_total frame prev Ht Hl) as (label & Hlabel & Hun).
      exists label. split; [exact Hlabel |]. intros _ _ Hm.
      rewrite (Hun Hm). unfold unmatchedLabel. now rewrite Ht, Hp.
    + intros _. exists "". split; [| reflexivity]. unfold eventNfcV. now rewrite Hp.
Qed.

(** The frames on which the classifier reads past the end of a payload. *)
Lemma frameEvent_out_of_bounds frame prev :
  inBounds frame prev = false -> frameEvent frame prev = None.
Proof.
  unfold inBounds, frameEvent.
  destruct (isCarrierOn frame); [discriminate |].
  destruct (isCarrierOff frame); [discriminate |].
  cbn [orb].
  destruct (techType frame) eqn:Ht; [discriminate | | | |].
  - unfold eventNfcA.
    destruct (isEncrypted frame); [discriminate |].
    destruct (isPollFrame frame).
    { intros Hl. apply Z.leb_gt in Hl. rewrite (at_none frame 0) by lia. reflexivity. }
    destruct prev as [p |]; [| discriminate].
    destruct (isPollFrame p); [| discriminate].
    intros Hl. apply andb_false_iff in Hl.
    destruct (Z.leb_spec 1 (limit p)) as [Hp | Hp].
    2:{ rewrite (at_none p 0) by lia. reflexivity. }
    destruct Hl as [Hl | Hl]; [discriminate |].
    apply Z.leb_gt in Hl.
    destruct (limit_ge_1 p Hp) as (c & rest & Hd).
    rewrite (at_0 _ _ _ Hd). run_bind.
    assert (H3 : (limit frame =? 3) = false) by (apply Z.eqb_neq; lia).
    assert (H5 : (limit frame =? 5) = false) by (apply Z.eqb_neq; lia).
    rewrite H3, H5, !andb_false_r.
    unfold eventIsoDep. rewrite (at_none frame 0) by lia.
    destruct (byteZ c =? 224); reflexivity.
  - unfold eventNfcB.
    destruct (isPollFrame frame).
    { intros Hl. apply Z.leb_gt in Hl. rewrite (at_none frame 0) by lia. reflexivity. }
    destruct (isListenFrame frame); [| discriminate].
    intros Hl. apply Z.leb_gt in Hl. rewrite (at_none frame 0) by lia. reflexivity.
  - intros Hl. apply Z.leb_gt in Hl. unfold eventNfcF.
    rewrite (at_none frame 1) by lia. reflexivity.
  - unfold eventNfcV. destruct (isPollFrame frame); [| discriminate].
    intros Hl. apply Z.leb_gt in Hl. rewrite (at_none frame 1) by lia. reflexivity.
Qed.

(** C6 (amended).  [frameEvent] returns a label, every payload read being
    inside the frame, exactly for the frames on which the bytes it reads
    exist ([inBounds]): carrier frames, frames without technology,
    technology-A frames marked encrypted, technology-A listen frames that
    follow no poll frame and technology-V listen frames need no byte; an
    unencrypted technology-A poll frame and a technology-B frame need one
    byte, an unencrypted technology-A listen frame after a poll frame needs
    one byte in each of the two, a technology-F frame and a technology-V
    poll frame need two.  On every other frame the classifier reads past
    the end of a payload.  A frame to which no rule and no table entry
    applies gets the empty label, except a technology-F or technology-V
    poll frame, which gets "CMD " and the two hexadecimal digits of its
    second byte. *)
Theorem frameEvent_total_with_payload frame prev :
  (inBounds frame prev = true ->
   exists label,
     frameEvent frame prev = Some label
     /\ (isCarrierOn frame = false -> isCarrierOff frame = false ->
         Matched.matched frame prev = false -> label = unmatchedLabel frame))
  /\ (frameEvent frame prev = None <-> inBounds frame prev = false).
Proof.
  split; [apply frameEvent_inBounds |].
  split; [| apply frameEvent_out_of_bounds].
  intros Hnone. destruct (inBounds frame prev) eqn:Hb; [| reflexivity].
  destruct (frameEvent_inBounds frame prev Hb) as (label & Hlabel & _). congruence.
Qed.

Lemma frameEvent_total_with_payload_witness :
  (exists label,
      frameEvent (frameOf NfcB PollFrame false [x77]) None = Some label
      /\ (isCarrierOn (frameOf NfcB PollFrame false [x77]) = false ->
          isCarrierOff (frameOf NfcB PollFrame false [x77]) = false ->
          Matched.matched (frameOf NfcB PollFrame false [x77]) None = false ->
          label = unmatchedLabel (frameOf NfcB PollFrame false [x77])))
  /\ (exists label,
        frameEvent (frameOf NfcV ListenFrame false [])
          (Some (frameOf TechNone CarrierOn false [])) = Some label)
  /\ frameEvent (frameOf NfcV PollFrame false [x01]) None = None.
Proof.
  destruct (frameEvent_total_with_payload (frameOf NfcB PollFrame false [x77]) None)
    as (Hlabel & _).
  destruct (frameEvent_total_with_payload (frameOf NfcV ListenFrame false [])
              (Some (frameOf TechNone CarrierOn false []))) as (Hlisten & _).
  destruct (frameEvent_total_with_payload (frameOf NfcV PollFrame false [x01]) None)
    as (_ & Hnone).
  split; [| split].
  - apply Hlabel. reflexivity.
  - destruct Hlisten as (label & Hl & _); [reflexivity |]. exists label. exact Hl.
  - apply Hnone. reflexivity.
Defined.

(** C6 as stated fails twice: a technology-F frame with a single payload
    byte makes the classifier read index 1 past the end of the frame (and so
    does a technology-A poll frame without payload at index 0), and a
    technology-F poll frame without table entry gets "CMD 07", not the empty
    label. *)
Lemma frameEvent_total_counterexample :
  frameEvent (frameOf NfcF ListenFrame false [x01]) None = None
  /\ frameEvent (frameOf NfcA PollFrame false []) None = None
  /\ Matched.matched (frameOf NfcF PollFrame false [x06; x07]) None = false
  /\ frameEvent (frameOf NfcF PollFrame false [x06; x07]) None = Some "CMD 07"
  /\ frameEvent (frameOf NfcF PollFrame false [x06; x07]) None <> Some "".
Proof. repeat split; try reflexivity. vm_compute. discriminate. Qed.

(** ** Claims about the frame store *)

Section FrameStore.
Import StreamModel StreamRun.

Lemma drain_app stream frames : drain stream frames = (frames ++ stream)%list.
Proof.
  revert frames. induction stream as [| f stream IH]; intros frames; simpl.
  - now rewrite app_nil_r.
  - rewrite IH, <- app_assoc. reflexivity.
Qed.

Lemma modelRange_loop from to m pre rest acc :
  frames m = (pre ++ rest)%list ->
  foldl (fun acc i =>
           match frames m !! i with
           | Some frame =>
               if inWindow from to frame then (acc ++ [index m i 0])%list else acc
           | None => acc
           end) acc (seq (length pre) (length rest))
  = (acc ++ rows (inWindow from to) (length pre) rest)%list.
Proof.
  revert pre acc. induction rest as [| f rest IH]; intros pre acc Hm; simpl.
  - now rewrite app_nil_r.
  - assert (Hf : frames m !! length pre = Some f).
    { rewrite Hm. apply list_lookup_middle. reflexivity. }
    assert (Hi : index m (length pre) 0 = ModelIndex (length pre) 0 f).
    { unfold index. rewrite Hf. reflexivity. }
    rewrite Hf, Hi.
    specialize (IH (pre ++ [f])%list). rewrite length_app in IH. simpl in IH.
    replace (length pre + 1)%nat with (S (length pre)) in IH by lia.
    rewrite IH by (rewrite <- app_assoc; exact Hm).
    destruct (inWindow from to f); simpl; [| reflexivity].
    now rewrite <- app_assoc.
Qed.

Lemma modelRange_rows from to m :
  modelRange from to m = rows (inWindow from to) 0 (frames m).
Proof.
  unfold modelRange.
  exact (modelRange_loop from to m [] (frames m) [] eq_refl).
Qed.

Lemma leb_neg_infinity t : PrimFloat.leb neg_infinity t = negb (PrimFloat.is_nan t).
Proof.
  unfold PrimFloat.is_nan. rewrite FloatAxioms.leb_spec, FloatAxioms.eqb_spec.
  change (Prim2SF neg_infinity) with (S754_infinity true).
  destruct (Prim2SF t) as [s | s | | s m e]; try destruct s; simpl; try reflexivity.
  all: unfold SFeqb, SFcompare; simpl; rewrite ?Z.compare_refl, ?Pos.compare_refl;
    reflexivity.
Qed.

Lemma leb_infinity t : PrimFloat.leb t infinity = negb (PrimFloat.is_nan t).
Proof.
  unfold PrimFloat.is_nan. rewrite FloatAxioms.leb_spec, FloatAxioms.eqb_spec.
  change (Prim2SF infinity) with (S754_infinity false).
  destruct (Prim2SF t) as [s | s | | s m e]; try destruct s; simpl; try reflexivity.
  all: unfold SFeqb, SFcompare; simpl; rewrite ?Z.compare_refl, ?Pos.compare_refl;
    reflexivity.
Qed.

Lemma inWindow_unbounded frame : inWindow neg_infinity infinity frame = timed frame.
Proof. unfold inWindow, timed. now rewrite leb_neg_infinity, leb_infinity. Qed.

Lemma rows_ext keep keep' k l :
  (forall f, f ∈ l -> keep f = keep' f) -> rows keep k l = rows keep' k l.
Proof.
  revert k. induction l as [| f l IH]; intros k Hk; simpl; [reflexivity |].
  rewrite (Hk f) by apply list_elem_of_here.
  rewrite IH; [reflexivity |]. intros g Hg. apply Hk. now apply list_elem_of_further.
Qed.

Lemma rows_all k l : frame <$> rows (fun _ => true) k l = Some <$> l.
Proof.
  revert k. induction l as [| f l IH]; intros k; simpl; [reflexivity |].
  now rewrite IH.
Qed.


Lemma run_keeps_order ops m :
  Forall (fun op => op <> ResetModel) ops ->
  (frames (foldl apply m ops) ++ stream (foldl apply m ops))%list
  = (frames m ++ stream m ++ appended ops)%list.
Proof.
  intros Hops. revert m. induction Hops as [| op ops Hop _ IH]; intros m; simpl.
  - now rewrite app_nil_r.
  - rewrite IH. destruct op as [f | |]; simpl.
    + now rewrite <- !app_assoc.
    + now rewrite drain_app, <- app_assoc.
    + contradiction.
Qed.

(** C7 (amended).  After any sequence of [append] calls, interleaved or not with
    [fetchMore], a final [fetchMore] empties the queue and leaves the frame
    list equal to the appended frames in call order; [modelRange] over
    (-inf, +inf) then returns the indexes of these frames by ascending row,
    that is in append order: all of them when the time stamps are numbers,
    and in general those whose time stamps are (a NaN compares false with
    either bound).  [append] only extends the queue, [fetchMore] is what
    moves the queue behind the frame list, and [resetModel] leaves the queue
    alone. *)
Theorem fetchMore_keeps_append_order (ops : list Op) :
  Forall (fun op => op <> ResetModel) ops ->
  let m := fetchMore (foldl apply empty ops) in
  frames m = appended ops
  /\ stream m = []
  /\ modelRange neg_infinity infinity m = rows timed 0 (appended ops)
  /\ (Forall (fun f => timed f = true) (appended ops) ->
      frame <$> modelRange neg_infinity infinity m = Some <$> appended ops)
  /\ (forall f m0, frames (append f m0) = frames m0
                   /\ stream (append f m0) = (stream m0 ++ [f])%list)
  /\ (forall m0, frames (fetchMore m0) = (frames m0 ++ stream m0)%list
                 /\ stream (fetchMore m0) = [])
  /\ (forall m0, frames (resetModel m0) = [] /\ stream (resetModel m0) = stream m0).
Proof.
  intros Hops m.
  assert (Hframes : frames m = appended ops).
  { unfold m. simpl. rewrite drain_app.
    exact (run_keeps_order ops empty Hops). }
  assert (Hrange : modelRange neg_infinity infinity m = rows timed 0 (appended ops)).
  { rewrite modelRange_rows, Hframes. apply rows_ext.
    intros f _. apply inWindow_unbounded. }
  repeat split; try reflexivity; try assumption.
  - intros Htimed. rewrite Hrange.
    rewrite (rows_ext timed (fun _ => true)); [apply rows_all |].
    intros f Hf. rewrite Forall_forall in Htimed. now apply Htimed.
  - simpl. apply drain_app.
Qed.

Lemma fetchMore_keeps_append_order_witness :
  let f1 := mkFrame NfcA PollFrame false 0.5%float 0.75%float [x26] in
  let f2 := mkFrame NfcA ListenFrame false 1%float 1.25%float [x04; x00] in
  let f3 := mkFrame NfcA PollFrame false 2%float 2.5%float [x93; x20] in
  let m := fetchMore (foldl apply empty [Append f1; Append f2; FetchMore; Append f3]) in
  frames m = [f1; f2; f3]
  /\ modelRange neg_infinity infinity m
     = [ModelIndex 0 0 f1; ModelIndex 1 0 f2; ModelIndex 2 0 f3]
  /\ frame <$> modelRange neg_infinity infinity m = [Some f1; Some f2; Some f3].
Proof.
  intros f1 f2 f3 m.
  assert (Hops : Forall (fun op => op <> ResetModel)
                   [Append f1; Append f2; FetchMore; Append f3])
    by (repeat constructor; discriminate).
  destruct (fetchMore_keeps_append_order _ Hops) as (Hf & _ & Hr & Hall & _).
  split; [exact Hf |]. split; [exact Hr |].
  apply Hall. repeat constructor.
Defined.

(** C7 as stated fails for a frame whose time stamps are NaN: it is appended
    and fetched like every other frame, but no window holds it, not even
    (-inf, +inf), so [modelRange] returns two of the three appended
    frames. *)
Lemma fetchMore_nan_counterexample :
  let f1 := mkFrame NfcA PollFrame false 0.5%float 0.75%float [x26] in
  let f2 := mkFrame NfcA ListenFrame false nan nan [x04; x00] in
  let f3 := mkFrame NfcA PollFrame false 2%float 2.5%float [x93; x20] in
  let m := fetchMore (foldl apply empty [Append f1; Append f2; Append f3]) in
  frames m = [f1; f2; f3]
  /\ modelRange neg_infinity infinity m = [ModelIndex 0 0 f1; ModelIndex 2 0 f3]
  /\ frame <$> modelRange neg_infinity infinity m <> Some <$> [f1; f2; f3].
Proof. vm_compute. repeat split. discriminate. Qed.

End FrameStore.

(** ** Claims about the bounded queue *)

Lemma sumZ_app l1 l2 : sumZ (l1 ++ l2) = sumZ l1 + sumZ l2.
Proof. unfold sumZ. induction l1 as [| x l1 IH]; simpl; lia. Qed.

Lemma sumZ_cons x l : sumZ (x :: l) = x + sumZ l.
Proof. reflexivity. Qed.

Lemma evictions_app e1 e2 : evictions (e1 ++ e2) = (evictions e1 ++ evictions e2)%list.
Proof. unfold evictions. apply omap_app. Qed.

Lemma queued_app e1 e2 : queued (e1 ++ e2) = (queued e1 ++ queued e2)%list.
Proof. unfold queued. apply omap_app. Qed.

Section MiriQueue.
Context `{SdrHeaders}.
Import MiriDevice MiriRun.

(** One callback without registered handler: the status is 0, the head of
    the queue is evicted when the queue holds 4 buffers, the new buffer goes
    to the back, and the drop counter grows by the element count of what was
    evicted. *)
Lemma miri_process_transfer_queue len d k :
  streamCallback d = None -> samplesDropped d = wrap64 k ->
  exists d' events,
    process_transfer len (Some d) = (Some d', events, 0)
    /\ streamCallback d' = None
    /\ queued events = [EmptyBuffer]
    /\ (evictions events ++ streamQueue d')%list = (streamQueue d ++ queued events)%list
    /\ length (evictions events)
       = (if MAX_QUEUE_SIZE <=? Z.of_nat (length (streamQueue d)) then 1%nat else 0%nat)
    /\ samplesDropped d' = wrap64 (k + sumZ (elements <$> evictions events)).
Proof.
  intros Hcb Hk. unfold process_transfer. simpl. rewrite Hcb.
  destruct (MAX_QUEUE_SIZE <=? Z.of_nat (length (streamQueue d))) eqn:Efull.
  - destruct (streamQueue d) as [| front rest] eqn:Eq.
    + simpl in Efull. discriminate.
    + eexists _, _. split; [reflexivity |]. simpl. rewrite Hcb.
      repeat split. rewrite Hk, wrap64_add_l. f_equal. lia.
  - eexists _, _. split; [reflexivity |]. simpl. rewrite Hcb.
    repeat split. rewrite Z.add_0_r. exact Hk.
Qed.

Lemma miri_deliver_queue lens : forall d k,
  streamCallback d = None -> samplesDropped d = wrap64 k ->
  (length (streamQueue d) <= 4)%nat ->
  let '(d', events) := deliver lens d in
  streamCallback d' = None
  /\ queued events = replicate (length lens) EmptyBuffer
  /\ (evictions events ++ streamQueue d')%list = (streamQueue d ++ queued events)%list
  /\ (length (streamQueue d') <= 4)%nat
  /\ (length (streamQueue d) + length lens <= 4 ->
      length (streamQueue d') = length (streamQueue d) + length lens)%nat
  /\ (4 <= length (streamQueue d) + length lens -> length (streamQueue d') = 4)%nat
  /\ samplesDropped d' = wrap64 (k + sumZ (elements <$> evictions events)).
Proof.
  induction lens as [| len lens IH]; intros d k Hcb Hk Hq; cbn [deliver length replicate].
  - rewrite app_nil_r, Z.add_0_r. simpl. repeat split; try assumption; lia.
  - destruct (miri_process_transfer_queue len d k Hcb Hk)
      as (d1 & ev1 & -> & Hcb1 & Hpush1 & Hfifo1 & Hlen1 & Hk1).
    assert (Hq1 : (length (streamQueue d1) <= 4
                   /\ (length (streamQueue d) < 4 ->
                       length (streamQueue d1) = length (streamQueue d) + 1)
                   /\ (length (streamQueue d) = 4 -> length (streamQueue d1) = 4))%nat).
    { pose proof (f_equal length Hfifo1) as Hl.
      rewrite !length_app, Hlen1, Hpush1 in Hl.
      simpl in Hl. unfold MAX_QUEUE_SIZE in Hl.
      destruct (Z.leb_spec 4 (Z.of_nat (length (streamQueue d)))); lia. }
    specialize (IH d1 _ Hcb1 Hk1 ltac:(lia)).
    destruct (deliver lens d1) as [d2 ev2].
    destruct IH as (Hcb2 & Hpush2 & Hfifo2 & Hle2 & Hsmall2 & Hfull2 & Hk2).
    rewrite evictions_app, queued_app, fmap_app, sumZ_app. repeat split.
    + assumption.
    + now rewrite Hpush1, Hpush2.
    + rewrite <- app_assoc, Hfifo2, app_assoc, Hfifo1, <- !app_assoc. reflexivity.
    + assumption.
    + lia.
    + lia.
    + rewrite Hk2. f_equal. lia.
Qed.

End MiriQueue.

Section AirspyQueue.
Context `{SdrHeaders}.
Import AirspyDevice AirspyRun.

(** The same step on the Airspy back-end, whose callback first adds the
    drop count the library reports for the transfer. *)
Lemma airspy_process_transfer_queue transfer d k :
  streamCallback d = None -> samplesDropped d = wrap64 k ->
  exists d' events,
    process_transfer transfer (Some d) = (Some d', events, 0)
    /\ streamCallback d' = None
    /\ length (queued events) = 1%nat
    /\ (evictions events ++ streamQueue d')%list = (streamQueue d ++ queued events)%list
    /\ length (evictions events)
       = (if MAX_QUEUE_SIZE <=? Z.of_nat (length (streamQueue d)) then 1%nat else 0%nat)
    /\ samplesDropped d'
       = wrap64 (k + dropped_samples transfer + sumZ (elements <$> evictions events)).
Proof.
  intros Hcb Hk. unfold process_transfer. simpl. rewrite Hcb.
  destruct (MAX_QUEUE_SIZE <=? Z.of_nat (length (streamQueue d))) eqn:Efull.
  - destruct (streamQueue d) as [| front rest] eqn:Eq.
    + simpl in Efull. discriminate.
    + eexists _, _. split; [reflexivity |]. simpl. rewrite Hcb.
      repeat split. rewrite Hk, (wrap64_add_l k), wrap64_add_l. f_equal. lia.
  - eexists _, _. split; [reflexivity |]. simpl. rewrite Hcb.
    repeat split. rewrite Hk, wrap64_add_l, Z.add_0_r. reflexivity.
Qed.

Lemma airspy_deliver_queue transfers : forall d k,
  streamCallback d = None -> samplesDropped d = wrap64 k ->
  (length (streamQueue d) <= 4)%nat ->
  let '(d', events) := deliver transfers d in
  streamCallback d' = None
  /\ length (queued events) = length transfers
  /\ (evictions events ++ streamQueue d')%list = (streamQueue d ++ queued events)%list
  /\ (length (streamQueue d') <= 4)%nat
  /\ (length (streamQueue d) + length transfers <= 4 ->
      length (streamQueue d') = length (streamQueue d) + length transfers)%nat
  /\ (4 <= length (streamQueue d) + length transfers -> length (streamQueue d') = 4)%nat
  /\ samplesDropped d'
     = wrap64 (k + sumZ (dropped_samples <$> transfers)
               + sumZ (elements <$> evictions events)).
Proof.
  induction transfers as [| t transfers IH]; intros d k Hcb Hk Hq;
    cbn [deliver length fmap list_fmap].
  - simpl. rewrite !Z.add_0_r, app_nil_r. repeat split; try assumption; try lia.
  - destruct (airspy_process_transfer_queue t d k Hcb Hk)
      as (d1 & ev1 & -> & Hcb1 & Hpush1 & Hfifo1 & Hlen1 & Hk1).
    assert (Hq1 : (length (streamQueue d1) <= 4
                   /\ (length (streamQueue d) < 4 ->
                       length (streamQueue d1) = length (streamQueue d) + 1)
                   /\ (length (streamQueue d) = 4 -> length (streamQueue d1) = 4))%nat).
    { pose proof (f_equal length Hfifo1) as Hl.
      rewrite !length_app, Hlen1, Hpush1 in Hl.
      simpl in Hl. unfold MAX_QUEUE_SIZE in Hl.
      destruct (Z.leb_spec 4 (Z.of_nat (length (streamQueue d)))); lia. }
    specialize (IH d1 _ Hcb1 Hk1 ltac:(lia)).
    destruct (deliver transfers d1) as [d2 ev2].
    destruct IH as (Hcb2 & Hpush2 & Hfifo2 & Hle2 & Hsmall2 & Hfull2 & Hk2).
    rewrite evictions_app, queued_app, fmap_app, sumZ_app. repeat split.
    + assumption.
    + rewrite length_app. lia.
    + rewrite <- app_assoc, Hfifo2, app_assoc, Hfifo1, <- !app_assoc. reflexivity.
    + assumption.
    + lia.
    + lia.
    + rewrite Hk2. f_equal. rewrite sumZ_cons. lia.
Qed.

End AirspyQueue.

(** C1 (amended).  Without registered handler, and starting from the empty
    queue and the zero drop counter that [start] leaves, K > 4 callbacks
    evict exactly K - 4 buffers, each from the head of the queue: the evicted
    buffers followed by the final queue are the K pushed buffers in order, and
    the queue never holds more than 4 buffers.  On the MiriSDR
    back-end the drop counter then equals the sum of the element counts of
    the evicted buffers; on the Airspy back-end it equals that sum plus the
    dropped-sample counts the library reported for the K transfers (both as
    64-bit values). *)
Theorem queue_overflow_accounting `{SdrHeaders} :
  (forall lens d d' events,
      MiriDevice.streamCallback d = None ->
      MiriDevice.streamQueue d = [] ->
      MiriDevice.samplesDropped d = 0 ->
      (4 < length lens)%nat ->
      MiriRun.deliver lens d = (d', events) ->
      length (evictions events) = (length lens - 4)%nat
      /\ length (MiriDevice.streamQueue d') = 4%nat
      /\ queued events = replicate (length lens) EmptyBuffer
      /\ (evictions events ++ MiriDevice.streamQueue d')%list = queued events
      /\ (forall n, (length (MiriDevice.streamQueue
                              (fst (MiriRun.deliver (take n lens) d))) <= 4)%nat)
      /\ MiriDevice.samplesDropped d'
         = wrap64 (sumZ (elements <$> evictions events))
      /\ (fits 64 (sumZ (elements <$> evictions events)) ->
          MiriDevice.samplesDropped d' = sumZ (elements <$> evictions events)))
  /\ (forall transfers d d' events,
      AirspyDevice.streamCallback d = None ->
      AirspyDevice.streamQueue d = [] ->
      AirspyDevice.samplesDropped d = 0 ->
      (4 < length transfers)%nat ->
      AirspyRun.deliver transfers d = (d', events) ->
      length (evictions events) = (length transfers - 4)%nat
      /\ length (AirspyDevice.streamQueue d') = 4%nat
      /\ length (queued events) = length transfers
      /\ (evictions events ++ AirspyDevice.streamQueue d')%list = queued events
      /\ (forall n, (length (AirspyDevice.streamQueue
                              (fst (AirspyRun.deliver (take n transfers) d))) <= 4)%nat)
      /\ AirspyDevice.samplesDropped d'
         = wrap64 (sumZ (AirspyDevice.dropped_samples <$> transfers)
                   + sumZ (elements <$> evictions events))
      /\ (fits 64 (sumZ (AirspyDevice.dropped_samples <$> transfers)
                   + sumZ (elements <$> evictions events)) ->
          AirspyDevice.samplesDropped d'
          = sumZ (AirspyDevice.dropped_samples <$> transfers)
            + sumZ (elements <$> evictions events))).
Proof.
  split.
  - intros lens d d' events Hcb Hq Hd HK Hrun.
    assert (Hk : MiriDevice.samplesDropped d = wrap64 0) by (now rewrite Hd).
    assert (Hle : (length (MiriDevice.streamQueue d) <= 4)%nat) by (rewrite Hq; simpl; lia).
    pose proof (miri_deliver_queue lens d 0 Hcb Hk Hle) as Hall.
    rewrite Hrun, Hq in Hall. simpl in Hall.
    destruct Hall as (_ & Hpush & Hfifo & _ & _ & Hfull & Hdrop).
    specialize (Hfull ltac:(lia)).
    pose proof (f_equal length Hfifo) as Hlen.
    rewrite length_app, Hpush, length_replicate in Hlen.
    repeat split; try assumption; try lia.
    + intros n. pose proof (miri_deliver_queue (take n lens) d 0 Hcb Hk Hle) as Hn.
      destruct (MiriRun.deliver (take n lens) d) as [dn evn]. simpl. tauto.
    + intros Hfit. rewrite Hdrop. apply wrap_fits; [lia | exact Hfit].
  - intros transfers d d' events Hcb Hq Hd HK Hrun.
    assert (Hk : AirspyDevice.samplesDropped d = wrap64 0) by (now rewrite Hd).
    assert (Hle : (length (AirspyDevice.streamQueue d) <= 4)%nat)
      by (rewrite Hq; simpl; lia).
    pose proof (airspy_deliver_queue transfers d 0 Hcb Hk Hle) as Hall.
    rewrite Hrun, Hq in Hall. simpl in Hall.
    destruct Hall as (_ & Hpush & Hfifo & _ & _ & Hfull & Hdrop).
    specialize (Hfull ltac:(lia)).
    pose proof (f_equal length Hfifo) as Hlen. rewrite length_app, Hpush in Hlen.
    repeat split; try assumption; try lia.
    + intros n.
      pose proof (airspy_deliver_queue (take n transfers) d 0 Hcb Hk Hle) as Hn.
      destruct (AirspyRun.deliver (take n transfers) d) as [dn evn]. simpl. tauto.
    + intros Hfit. rewrite Hdrop. apply wrap_fits; [lia | exact Hfit].
Qed.

Lemma queue_overflow_accounting_witness :
  let miri := fst (MiriDevice.start None 0 1700000000 miriOpen) in
  let lens := [512; 512; 512; 512; 512; 512] in
  let airspy := fst (AirspyDevice.start None 0 1700000000 airspyOpen) in
  let transfers := [iqTransfer 1000 0; iqTransfer 1000 7; iqTransfer 1000 0;
                    iqTransfer 1000 0; iqTransfer 1000 0] in
  (length (evictions (snd (@MiriRun.deliver referenceHeaders lens miri))) = 2%nat
   /\ MiriDevice.samplesDropped (fst (@MiriRun.deliver referenceHeaders lens miri))
      = sumZ (sampleCount <$> evictions (snd (@MiriRun.deliver referenceHeaders lens miri))))
  /\ (length (evictions (snd (@AirspyRun.deliver referenceHeaders transfers airspy))) = 1%nat
      /\ AirspyDevice.samplesDropped (fst (@AirspyRun.deliver referenceHeaders transfers airspy))
         = 7 + 1000).
Proof.
  intros miri lens airspy transfers.
  destruct (@queue_overflow_accounting referenceHeaders) as [Hmiri Hairspy].
  split.
  - destruct (Hmiri lens miri
                (fst (@MiriRun.deliver referenceHeaders lens miri))
                (snd (@MiriRun.deliver referenceHeaders lens miri)))
      as (Hcount & _ & _ & _ & _ & _ & Hdrop);
      [vm_compute; reflexivity | vm_compute; reflexivity | vm_compute; reflexivity
      | vm_compute; lia | vm_compute; reflexivity |].
    split; [exact Hcount |]. apply Hdrop. vm_compute. split; [discriminate | reflexivity].
  - destruct (Hairspy transfers airspy
                (fst (@AirspyRun.deliver referenceHeaders transfers airspy))
                (snd (@AirspyRun.deliver referenceHeaders transfers airspy)))
      as (Hcount & _ & _ & _ & _ & _ & Hdrop);
      [vm_compute; reflexivity | vm_compute; reflexivity | vm_compute; reflexivity
      | vm_compute; lia | vm_compute; reflexivity |].
    split; [exact Hcount |]. apply Hdrop. vm_compute. split; [discriminate | reflexivity].
Defined.

(** C1 as stated fails on the Airspy back-end: when the library reports
    dropped samples for a transfer, the callback adds them to the same
    counter, which then exceeds the element counts of the evicted buffers. *)
Lemma queue_overflow_counterexample :
  let airspy := fst (AirspyDevice.start None 0 1700000000 airspyOpen) in
  let transfers := [iqTransfer 1000 0; iqTransfer 1000 7; iqTransfer 1000 0;
                    iqTransfer 1000 0; iqTransfer 1000 0] in
  let run := @AirspyRun.deliver referenceHeaders transfers airspy in
  AirspyDevice.streamCallback airspy = None
  /\ evictions (snd run) = [Buffer 2000 2 0 0 0 2]
  /\ sumZ (sampleCount <$> evictions (snd run)) = 1000
  /\ AirspyDevice.samplesDropped (fst run) = 1007
  /\ AirspyDevice.samplesDropped (fst run) <> sumZ (sampleCount <$> evictions (snd run)).
Proof. repeat split; try reflexivity. vm_compute. discriminate. Qed.

(** ** Claims about the device life cycle *)




(** ** Claims about the parameter mutators *)

(** C9 (amended).  On the Airspy back-end each of the seven mutators, and on
    the MiriSDR back-end each of them except [setSampleRate], stores its
    argument whatever the handle and whatever the status of the hardware
    push, and the accessor then returns it; the two [long] arguments are
    narrowed to the [int] field, so a value that fits 32 bits is returned
    unchanged.  The placeholder [MiriDevice] stores nothing and its accessors
    return 0. *)
Theorem mutators_store_requested_value `{SdrHeaders} :
  (forall value r r' (d : AirspyDevice.Impl),
      AirspyDevice.Public.centerFreq (fst (AirspyDevice.Public.setCenterFreq value r d))
      = wrap32 value
      /\ AirspyDevice.Public.sampleRate (fst (AirspyDevice.Public.setSampleRate value r d))
         = wrap32 value
      /\ AirspyDevice.Public.gainMode (fst (AirspyDevice.Public.setGainMode value r r' d))
         = value
      /\ AirspyDevice.Public.gainValue (fst (AirspyDevice.Public.setGainValue value r d))
         = value
      /\ AirspyDevice.Public.decimation (fst (AirspyDevice.Public.setDecimation value d))
         = value
      /\ AirspyDevice.Public.tunerAgc (fst (AirspyDevice.Public.setTunerAgc value r d))
         = value
      /\ AirspyDevice.Public.mixerAgc (fst (AirspyDevice.Public.setMixerAgc value r d))
         = value)
  /\ (forall value (d : MiriDevice.Impl),
      MiriDevice.Public.centerFreq (fst (MiriDevice.Public.setCenterFreq value d))
      = wrap32 value
      /\ MiriDevice.Public.gainMode (fst (MiriDevice.Public.setGainMode value d)) = value
      /\ MiriDevice.Public.gainValue (fst (MiriDevice.Public.setGainValue value d)) = value
      /\ MiriDevice.Public.decimation (fst (MiriDevice.Public.setDecimation value d)) = value
      /\ MiriDevice.Public.tunerAgc (fst (MiriDevice.Public.setTunerAgc value d)) = value
      /\ MiriDevice.Public.mixerAgc (fst (MiriDevice.Public.setMixerAgc value d)) = value)
  /\ (forall value, fits 32 value -> wrap32 value = value)
  /\ (forall value (d : MiriDevicePlaceholder.Impl),
      MiriDevicePlaceholder.centerFreq (fst (MiriDevicePlaceholder.setCenterFreq value d)) = 0
      /\ MiriDevicePlaceholder.sampleRate (fst (MiriDevicePlaceholder.setSampleRate value d)) = 0
      /\ MiriDevicePlaceholder.gainMode (fst (MiriDevicePlaceholder.setGainMode value d)) = 0
      /\ MiriDevicePlaceholder.gainValue (fst (MiriDevicePlaceholder.setGainValue value d)) = 0
      /\ MiriDevicePlaceholder.decimation (fst (MiriDevicePlaceholder.setDecimation value d)) = 0
      /\ MiriDevicePlaceholder.tunerAgc (fst (MiriDevicePlaceholder.setTunerAgc value d)) = 0
      /\ MiriDevicePlaceholder.mixerAgc (fst (MiriDevicePlaceholder.setMixerAgc value d)) = 0).
Proof.
  repeat apply conj.
  - intros value r r' d.
    unfold AirspyDevice.Public.centerFreq, AirspyDevice.Public.setCenterFreq,
      AirspyDevice.Public.sampleRate, AirspyDevice.Public.setSampleRate,
      AirspyDevice.Public.gainMode, AirspyDevice.Public.setGainMode,
      AirspyDevice.Public.gainValue, AirspyDevice.Public.setGainValue,
      AirspyDevice.Public.decimation, AirspyDevice.Public.setDecimation,
      AirspyDevice.Public.tunerAgc, AirspyDevice.Public.setTunerAgc,
      AirspyDevice.Public.mixerAgc, AirspyDevice.Public.setMixerAgc,
      AirspyDevice.setCenterFreq, AirspyDevice.setSampleRate, AirspyDevice.setGainMode,
      AirspyDevice.setGainValue, AirspyDevice.setDecimation, AirspyDevice.setTunerAgc,
      AirspyDevice.setMixerAgc.
    simpl. destruct (AirspyDevice.deviceHandle d); simpl; repeat split;
      repeat match goal with
             | |- context [if ?c then _ else _] => destruct c; simpl
             end; reflexivity.
  - intros value d.
    unfold MiriDevice.Public.centerFreq, MiriDevice.Public.setCenterFreq,
      MiriDevice.Public.gainMode, MiriDevice.Public.setGainMode,
      MiriDevice.Public.gainValue, MiriDevice.Public.setGainValue,
      MiriDevice.Public.decimation, MiriDevice.Public.setDecimation,
      MiriDevice.Public.tunerAgc, MiriDevice.Public.setTunerAgc,
      MiriDevice.Public.mixerAgc, MiriDevice.Public.setMixerAgc,
      MiriDevice.setCenterFreq, MiriDevice.setGainMode, MiriDevice.setGainValue,
      MiriDevice.setDecimation, MiriDevice.setTunerAgc, MiriDevice.setMixerAgc.
    simpl. destruct (MiriDevice.deviceHandle d); simpl; repeat split;
      repeat match goal with
             | |- context [if ?c then _ else _] => destruct c; simpl
             end; reflexivity.
  - intros value Hfit. apply wrap_fits; [lia | exact Hfit].
  - intros value d. repeat split.
Qed.

Lemma mutators_store_requested_value_witness :
  AirspyDevice.Public.centerFreq
    (fst (AirspyDevice.Public.setCenterFreq 13560000 (-2) airspyOpen)) = 13560000
  /\ AirspyDevice.Public.gainMode
       (fst (@AirspyDevice.Public.setGainMode referenceHeaders 2 0 0
               (@AirspyDevice.create referenceHeaders "airspy://1"))) = 2
  /\ MiriDevice.Public.gainValue (fst (MiriDevice.Public.setGainValue 40 miriOpen)) = 40.
Proof.
  destruct (@mutators_store_requested_value referenceHeaders)
    as (Hairspy & Hmiri & Hfit & _).
  repeat apply conj.
  - destruct (Hairspy 13560000 (-2) 0 airspyOpen) as (Hc & _).
    rewrite Hc. apply Hfit. vm_compute. split; [discriminate | reflexivity].
  - destruct (Hairspy 2 0 0 (@AirspyDevice.create referenceHeaders "airspy://1"))
      as (_ & _ & Hg & _). exact Hg.
  - destruct (Hmiri 40 miriOpen) as (_ & _ & Hg & _). exact Hg.
Defined.

(** C9 as stated fails: the placeholder [MiriDevice] keeps no value at all,
    and a frequency that does not fit the [int] field comes back narrowed. *)
Lemma mutators_store_counterexample :
  MiriDevicePlaceholder.centerFreq
    (fst (MiriDevicePlaceholder.setCenterFreq 13560000 MiriDevicePlaceholder.mkImpl)) = 0
  /\ MiriDevicePlaceholder.centerFreq
       (fst (MiriDevicePlaceholder.setCenterFreq 13560000 MiriDevicePlaceholder.mkImpl))
     <> 13560000
  /\ AirspyDevice.Public.centerFreq
       (fst (AirspyDevice.Public.setCenterFreq (2 ^ 32 + 13560000) 0 airspyOpen))
     = 13560000
  /\ AirspyDevice.Public.centerFreq
       (fst (AirspyDevice.Public.setCenterFreq (2 ^ 32 + 13560000) 0 airspyOpen))
     <> 2 ^ 32 + 13560000.
Proof. vm_compute. repeat split; discriminate. Qed.

(** The sample-rate pair of the libmirisdr translation unit does not reach
    [Impl]: the public mutator leaves the device as it is and the public
    accessor answers 0, while [Impl::setSampleRate], which [setSampleSize]
    calls, stores the value. *)
Lemma miri_sampleRate_not_forwarded value d :
  MiriDevice.Public.setSampleRate value d = (d, 0)
  /\ MiriDevice.Public.sampleRate d = 0
  /\ MiriDevice.sampleRate (fst (MiriDevice.Public.setSampleSize value d)) = wrap32 value.
Proof.
  unfold MiriDevice.Public.setSampleRate, MiriDevice.Public.sampleRate,
    MiriDevice.Public.setSampleSize, MiriDevice.setSampleRate.
  repeat split. simpl. destruct (MiriDevice.deviceHandle d); reflexivity.
Qed.

(** * Further properties *)

(** ** The classifier: tables against rules *)

Lemma eventNfcA_poll frame prev b rest :
  techType frame = NfcA -> isEncrypted frame = false -> isPollFrame frame = true ->
  data frame = b :: rest ->
  frameEvent frame prev =
    Some (if (byteZ b =? 0x50) && (limit frame =? 4) then "HALT"
          else if (Z.land (byteZ b) 0xF0 =? 0xD0) && (limit frame =? 5) then "PPS"
          else if negb (isEmpty (isoDepLabel (byteZ b) (limit frame)))
               then isoDepLabel (byteZ b) (limit frame)
               else lookupOrEmpty NfcACmd (byteZ b)).
Proof.
  intros Ht He Hp Hd. unfold frameEvent, isCarrierOn, isCarrierOff.
  rewrite (frameType_poll _ Hp), Ht. unfold eventNfcA.
  rewrite He, Hp, (eventIsoDep_data _ _ _ Hd), (at_0 _ _ _ Hd). run_bind.
  repeat match goal with
         | |- context [if ?c then _ else _] => destruct c; try reflexivity
         end.
Qed.

(** Splits on every comparison of the length in the goal. *)
Ltac length_cases len :=
  repeat match goal with
         | |- context [len =? ?k] => destruct (Z.eqb_spec len k)
         | |- context [?k <=? len] => destruct (Z.leb_spec k len)
         | |- context [len <=? ?k] => destruct (Z.leb_spec len k)
         end.

(** X1.  An unencrypted technology-A poll frame whose first byte is in the
    command table gets the table label, with three exceptions that the rules
    tested earlier take: a 4-byte frame starting 0x50 is "HALT" (not
    "HLTA"), a frame of 4 or more bytes starting 0x1A or 0x1B is "I-Block"
    (not "AUTH" or "PWD_AUTH"), and a 3-byte frame starting 0xA2 is "R(ACK)"
    (not "WRITE"). *)
Theorem nfcA_poll_table_shadowing frame prev b rest l :
  techType frame = NfcA -> isEncrypted frame = false -> isPollFrame frame = true ->
  data frame = b :: rest ->
  NfcACmd !! byteZ b = Some l ->
  frameEvent frame prev =
    Some (if (byteZ b =? 0x50) && (limit frame =? 4) then "HALT"
          else if ((byteZ b =? 0x1A) || (byteZ b =? 0x1B)) && (4 <=? limit frame)
               then "I-Block"
          else if (byteZ b =? 0xA2) && (limit frame =? 3) then "R(ACK)"
          else l).
Proof.
  intros Ht He Hp Hd Hl.
  rewrite (eventNfcA_poll frame prev b rest Ht He Hp Hd).
  unfold lookupOrEmpty. rewrite Hl. clear Hd Ht He Hp prev rest.
  generalize (limit frame). intros len. f_equal.
  destruct b; vm_compute in Hl; try discriminate Hl; clear Hl;
    unfold isoDepLabel; cbn [byteZ Byte.to_N Z.of_N];
    cbn -[Z.eqb Z.leb]; length_cases len; cbn; try reflexivity; try lia.
Qed.

Lemma nfcA_poll_table_shadowing_witness :
  frameEvent (frameOf NfcA PollFrame false [x1a; x00; x41; x76]) None = Some "I-Block"
  /\ frameEvent (frameOf NfcA PollFrame false [x26]) None = Some "REQA".
Proof.
  split.
  - apply (nfcA_poll_table_shadowing (frameOf NfcA PollFrame false [x1a; x00; x41; x76])
             None x1a [x00; x41; x76] "AUTH"); reflexivity.
  - apply (nfcA_poll_table_shadowing (frameOf NfcA PollFrame false [x26])
             None x26 [] "REQA"); reflexivity.
Defined.

Lemma eventNfcB_first frame prev b rest :
  techType frame = NfcB -> data frame = b :: rest ->
  frameEvent frame prev =
    Some (if isPollFrame frame || isListenFrame frame then
            if negb (isEmpty (isoDepLabel (byteZ b) (limit frame)))
            then isoDepLabel (byteZ b) (limit frame)
            else lookupOrEmpty (if isPollFrame frame then NfcBCmd else NfcBResp) (byteZ b)
          else if isCarrierOn frame then "RF-On" else "RF-Off").
Proof.
  intros Ht Hd. unfold frameEvent, eventNfcB.
  rewrite Ht, (eventIsoDep_data _ _ _ Hd), (at_0 _ _ _ Hd). run_bind.
  unfold isCarrierOn, isCarrierOff, isPollFrame, isListenFrame.
  destruct (frameType frame); cbn [orb];
    try reflexivity; destruct (negb _); reflexivity.
Qed.

(** X2.  The overlay never takes a technology-B frame away from its table: a
    poll frame whose first byte is in the command table (REQB, ATTRIB, HLTB)
    and a listen frame whose first byte is in the response table (ATQB) get
    the table label whatever their length, their other bytes and their
    encrypted flag. *)
Theorem nfcB_tables_not_shadowed frame prev b rest l :
  techType frame = NfcB -> data frame = b :: rest ->
  (isPollFrame frame = true /\ NfcBCmd !! byteZ b = Some l)
  \/ (isListenFrame frame = true /\ NfcBResp !! byteZ b = Some l) ->
  frameEvent frame prev = Some l.
Proof.
  intros Ht Hd Hl. rewrite (eventNfcB_first frame prev b rest Ht Hd).
  assert (Hover : isoDepLabel (byteZ b) (limit frame) = ""
                  /\ lookupOrEmpty (if isPollFrame frame then NfcBCmd else NfcBResp)
                       (byteZ b) = l
                  /\ isPollFrame frame || isListenFrame frame = true).
  { generalize (limit frame). intros len. unfold lookupOrEmpty.
    destruct Hl as [[Hp Hl] | [Hli Hl]].
    - rewrite Hp, Hl. split; [| split; reflexivity].
      destruct b; vm_compute in Hl; try discriminate Hl; clear Hl;
        unfold isoDepLabel; cbn [byteZ Byte.to_N Z.of_N];
        cbn -[Z.eqb Z.leb]; reflexivity.
    - rewrite (listen_not_poll _ Hli), Hli, Hl. split; [| split; reflexivity].
      destruct b; vm_compute in Hl; try discriminate Hl; clear Hl;
        unfold isoDepLabel; cbn [byteZ Byte.to_N Z.of_N];
        cbn -[Z.eqb Z.leb]; reflexivity. }
  destruct Hover as (-> & -> & ->). reflexivity.
Qed.

Lemma nfcB_tables_not_shadowed_witness :
  frameEvent (frameOf NfcB PollFrame true [x1d; x00; x00; x00; x00; x00; x08; x01; x00]) None
  = Some "ATTRIB".
Proof.
  apply (nfcB_tables_not_shadowed _ None x1d [x00; x00; x00; x00; x00; x08; x01; x00]);
    [reflexivity | reflexivity | left; split; reflexivity].
Defined.

(** X3.  The overlay by frame length: a frame shorter than 3 bytes gets no
    overlay label, a frame longer than 4 bytes gets "I-Block" when its first
    byte matches the I-Block pattern and no overlay label otherwise, and a
    3-byte frame is never an "I-Block". *)
Theorem isoDep_by_length frame b :
  at_ frame 0 = Some b ->
  (limit frame < 3 -> eventIsoDep frame = Some "")
  /\ (4 < limit frame ->
      eventIsoDep frame = Some (if Z.land b 0xE2 =? 0x02 then "I-Block" else ""))
  /\ (limit frame = 3 -> eventIsoDep frame <> Some "I-Block").
Proof.
  intros Hb. unfold eventIsoDep. rewrite Hb. run_bind.
  generalize (limit frame). intros len. unfold isoDepLabel. repeat split.
  - intros Hlen. length_cases len; try lia. rewrite ?andb_false_r. reflexivity.
  - intros Hlen. length_cases len; try lia. rewrite ?andb_false_r, ?andb_true_r.
    reflexivity.
  - intros ->. cbn -[Z.land Z.eqb]. rewrite ?andb_false_r, ?andb_true_r.
    repeat match goal with
           | |- context [if ?c then _ else _] => destruct c
           end; discriminate.
Qed.

Lemma isoDep_by_length_witness :
  eventIsoDep (frameOf NfcA PollFrame false [xc2; x00]) = Some ""
  /\ eventIsoDep (frameOf NfcB PollFrame false [x02; x00; xa4; x04; x00; x00]) = Some "I-Block".
Proof.
  split.
  - destruct (isoDep_by_length (frameOf NfcA PollFrame false [xc2; x00]) 0xC2 eq_refl)
      as (Hshort & _ & _).
    apply Hshort. vm_compute. reflexivity.
  - destruct (isoDep_by_length
                (frameOf NfcB PollFrame false [x02; x00; xa4; x04; x00; x00]) 0x02 eq_refl)
      as (_ & Hlong & _).
    apply Hlong. vm_compute. reflexivity.
Defined.

(** ** The frame store: ranges, resets and table cells *)

Section FrameStoreMore.
Import StreamModel StreamRun StreamView.

Lemma rows_elem keep k l idx :
  idx ∈ rows keep k l <->
  exists i f, idx = ModelIndex (k + i) 0 f /\ l !! i = Some f /\ keep f = true.
Proof.
  revert k. induction l as [| g l IH]; intros k; simpl.
  - split; [intros Hin; inversion Hin | intros (i & f & _ & Hl & _); discriminate].
  - rewrite elem_of_app, IH. split.
    + intros [Hin | (i & f & -> & Hl & Hk)].
      * destruct (keep g) eqn:Eg; [| inversion Hin].
        apply list_elem_of_singleton in Hin. subst idx.
        exists 0%nat, g. rewrite Nat.add_0_r. auto.
      * exists (S i), f. replace (k + S i)%nat with (S k + i)%nat by lia. auto.
    + intros (i & f & -> & Hl & Hk). destruct i as [| i]; simpl in Hl.
      * injection Hl as ->. rewrite Hk, Nat.add_0_r. left. apply list_elem_of_here.
      * right. exists i, f. replace (S k + i)%nat with (k + S i)%nat by lia. auto.
Qed.

Lemma rows_ascending keep k l :
  StronglySorted lt (omap indexRow (rows keep k l))
  /\ Forall (fun r => (k <= r)%nat) (omap indexRow (rows keep k l)).
Proof.
  revert k. induction l as [| g l IH]; intros k; simpl.
  - split; constructor.
  - destruct (IH (S k)) as [Hs Hge].
    assert (Hgt : Forall (fun r => (k < r)%nat) (omap indexRow (rows keep (S k) l))).
    { eapply Forall_impl; [exact Hge |]. simpl. intros r Hr. lia. }
    destruct (keep g); simpl.
    + split; constructor; try assumption; try lia.
      eapply Forall_impl; [exact Hgt |]. simpl. intros r Hr. lia.
    + split; [assumption |].
      eapply Forall_impl; [exact Hgt |]. simpl. intros r Hr. lia.
Qed.

Lemma SFeqb_refl_nan x : SFeqb x x = false -> x = S754_nan.
Proof.
  destruct x as [s | s | | s m e]; try destruct s; simpl; try discriminate;
    try reflexivity.
  all: unfold SFeqb, SFcompare; simpl;
    rewrite ?Z.compare_refl, ?Pos.compare_refl; simpl;
    rewrite ?Pos.compare_refl; discriminate.
Qed.

Lemma is_nan_Prim2SF t : PrimFloat.is_nan t = true -> Prim2SF t = S754_nan.
Proof.
  unfold PrimFloat.is_nan. rewrite FloatAxioms.eqb_spec. intros Hn.
  apply negb_true_iff in Hn. now apply SFeqb_refl_nan.
Qed.

Lemma leb_nan_l x t : PrimFloat.is_nan x = true -> PrimFloat.leb x t = false.
Proof.
  intros Hn. rewrite FloatAxioms.leb_spec, (is_nan_Prim2SF _ Hn). reflexivity.
Qed.

Lemma leb_nan_r x t : PrimFloat.is_nan x = true -> PrimFloat.leb t x = false.
Proof.
  intros Hn. rewrite FloatAxioms.leb_spec, (is_nan_Prim2SF _ Hn).
  unfold SFleb, SFcompare. destruct (Prim2SF t) as [s | s | | s m e];
    try destruct s; reflexivity.
Qed.

Lemma rows_none keep k l : (forall f, keep f = false) -> rows keep k l = [].
Proof.
  intros Hk. revert k. induction l as [| g l IH]; intros k; simpl; [reflexivity |].
  now rewrite Hk, IH.
Qed.

(** X4.  [modelRange(from, to)] returns exactly the indexes [index(row, 0)]
    of the rows whose frame starts at or after [from] and ends at or before
    [to], each once and by ascending row; when a bound is a NaN it returns
    nothing. *)
Theorem modelRange_exact from to m :
  (forall idx,
      idx ∈ modelRange from to m <->
      exists row f, idx = ModelIndex row 0 f /\ index m row 0 = idx
                    /\ frames m !! row = Some f /\ inWindow from to f = true)
  /\ StronglySorted lt (omap indexRow (modelRange from to m))
  /\ (PrimFloat.is_nan from = true \/ PrimFloat.is_nan to = true ->
      modelRange from to m = []).
Proof.
  rewrite modelRange_rows. repeat split.
  - intros Hin. apply rows_elem in Hin. destruct Hin as (i & f & -> & Hl & Hk).
    exists i, f. simpl. repeat split; try assumption.
    unfold index. rewrite Hl. reflexivity.
  - intros (row & f & -> & _ & Hl & Hk). apply rows_elem. exists row, f. auto.
  - apply rows_ascending.
  - intros Hnan. apply rows_none. intros f. unfold inWindow.
    destruct Hnan as [Hn | Hn].
    + now rewrite (leb_nan_l _ _ Hn).
    + rewrite (leb_nan_r _ _ Hn). apply andb_false_r.
Qed.

Lemma modelRange_exact_witness :
  let f1 := mkFrame NfcA PollFrame false 0.5%float 0.75%float [x26] in
  let f2 := mkFrame NfcA ListenFrame false 1%float 1.25%float [x04; x00] in
  let m := mkImpl [f1; f2] [] in
  ModelIndex 1 0 f2 ∈ modelRange 1%float 2%float m
  /\ modelRange nan 2%float m = [].
Proof.
  intros f1 f2 m.
  destruct (modelRange_exact 1%float 2%float m) as (Hin & _ & _).
  destruct (modelRange_exact nan 2%float m) as (_ & _ & Hnan).
  split.
  - apply Hin. exists 1%nat, f2. repeat split.
  - apply Hnan. left. reflexivity.
Defined.

(** X5.  [fetchMore] is idempotent and a no-op when nothing is pending;
    [canFetchMore] tells whether the queue holds a frame; and [resetModel]
    does not discard frames that are still pending: the next [fetchMore]
    shows exactly them, from row 0. *)
Theorem fetchMore_resetModel_compose m f :
  fetchMore (fetchMore m) = fetchMore m
  /\ canFetchMore (fetchMore m) = false
  /\ canFetchMore (append f m) = true
  /\ (canFetchMore m = false -> fetchMore m = m)
  /\ frames (fetchMore (resetModel m)) = stream m
  /\ frames (fetchMore (append f (resetModel (fetchMore m)))) = [f]
  /\ rowCount (fetchMore m) = (rowCount m + length (stream m))%nat.
Proof.
  destruct m as [fs st]. unfold fetchMore, canFetchMore, resetModel, append, rowCount.
  simpl. rewrite !drain_app. simpl. rewrite ?app_nil_r. repeat split.
  - rewrite length_app. simpl. apply Nat.ltb_lt. lia.
  - intros Hc. destruct st; [now rewrite app_nil_r | discriminate].
  - apply length_app.
Qed.

Lemma fetchMore_resetModel_compose_witness :
  let f := frameOf NfcA PollFrame false [x26] in
  fetchMore (mkImpl [f] []) = mkImpl [f] [].
Proof.
  intros f.
  destruct (fetchMore_resetModel_compose (mkImpl [f] []) f) as (_ & _ & _ & Hnoop & _).
  apply Hnoop. reflexivity.
Defined.

Lemma run_frames_prefix ops m :
  Forall (fun op => op <> ResetModel) ops ->
  exists more, frames (foldl apply m ops) = (frames m ++ more)%list.
Proof.
  intros Hops. revert m. induction Hops as [| op ops Hop _ IH]; intros m; simpl.
  - exists []. now rewrite app_nil_r.
  - destruct (IH (apply m op)) as [more Hmore]. rewrite Hmore.
    destruct op as [f | |]; simpl.
    + eauto.
    + rewrite drain_app, <- app_assoc. eauto.
    + contradiction.
Qed.

Lemma dataEvent_prefix m m' more row :
  frames m' = (frames m ++ more)%list ->
  0 <= row < Z.of_nat (length (frames m)) ->
  dataEvent m' row = dataEvent m row.
Proof.
  intros Hf Hrow. unfold dataEvent. rewrite Hf, length_app.
  assert (H1 : (Z.of_nat (length (frames m) + length more) <=? row) = false)
    by (apply Z.leb_gt; lia).
  assert (H2 : (Z.of_nat (length (frames m)) <=? row) = false) by (apply Z.leb_gt; lia).
  assert (H3 : (row <? 0) = false) by (apply Z.ltb_ge; lia).
  rewrite H1, H2, H3. simpl.
  rewrite lookup_app_l by lia.
  destruct (frames m !! Z.to_nat row); [| reflexivity].
  destruct (0 <? row) eqn:E; [| reflexivity].
  rewrite lookup_app_l by lia. reflexivity.
Qed.

(** X6.  The event cell of a row depends on the frames of that row and of
    the row above only: every row below the first is classified with the
    frame of the row directly above it as context, the first row without
    context (so a technology-A listen frame in the first row has the empty
    label), and the cell does not change when more frames are appended and
    fetched.  Outside the table the cell is invalid. *)
Theorem dataEvent_stable m :
  (forall ops row,
      Forall (fun op => op <> ResetModel) ops ->
      0 <= row < Z.of_nat (rowCount m) ->
      dataEvent (foldl apply m ops) row = dataEvent m row)
  /\ (forall row, row < 0 \/ Z.of_nat (rowCount m) <= row -> dataEvent m row = Some Invalid)
  /\ (forall f, frames m !! 0%nat = Some f ->
                dataEvent m 0 = Text <$> frameEvent f None)
  /\ (forall row p f,
      frames m !! row = Some p -> frames m !! S row = Some f ->
      dataEvent m (Z.of_nat (S row)) = Text <$> frameEvent f (Some p))
  /\ (forall f, frames m !! 0%nat = Some f -> techType f = NfcA ->
                isListenFrame f = true -> dataEvent m 0 = Some (Text "")).
Proof.
  assert (Hfirst : forall f, frames m !! 0%nat = Some f ->
                             dataEvent m 0 = Text <$> frameEvent f None).
  { intros f Hf. unfold dataEvent.
    destruct (frames m) as [| g fs] eqn:E; [discriminate |].
    simpl in Hf. injection Hf as ->. reflexivity. }
  repeat split.
  - intros ops row Hops Hrow. destruct (run_frames_prefix ops m Hops) as [more Hmore].
    exact (dataEvent_prefix m _ more row Hmore Hrow).
  - intros row Hrow. unfold dataEvent, rowCount in *.
    destruct (Z.leb_spec (Z.of_nat (length (frames m))) row); [reflexivity |].
    destruct (Z.ltb_spec row 0); [reflexivity | lia].
  - exact Hfirst.
  - intros row p f Hp Hf. unfold dataEvent.
    pose proof (lookup_lt_Some _ _ _ Hf) as Hlen.
    assert (H1 : (Z.of_nat (length (frames m)) <=? Z.of_nat (S row)) = false)
      by (apply Z.leb_gt; lia).
    assert (H2 : (Z.of_nat (S row) <? 0) = false) by (apply Z.ltb_ge; lia).
    assert (H3 : (0 <? Z.of_nat (S row)) = true) by (apply Z.ltb_lt; lia).
    rewrite H1, H2, H3. cbn [orb].
    replace (Z.to_nat (Z.of_nat (S row) - 1)) with row by lia.
    rewrite Nat2Z.id, Hf, Hp. reflexivity.
  - intros f Hf Ht Hli. rewrite (Hfirst f Hf).
    unfold frameEvent, isCarrierOn, isCarrierOff.
    rewrite (frameType_listen _ Hli), Ht. unfold eventNfcA.
    rewrite (listen_not_poll _ Hli). destruct (isEncrypted f); reflexivity.
Qed.

Lemma dataEvent_stable_witness :
  let poll := frameOf NfcA PollFrame false [x93; x20] in
  let listen := frameOf NfcA ListenFrame false [x04; x11; x22; x33; x44] in
  let m := mkImpl [poll; listen] [] in
  dataEvent (foldl apply m [Append poll; FetchMore]) 1 = Some (Text "UID")
  /\ dataEvent m 2 = Some Invalid
  /\ dataEvent (mkImpl [listen; poll] []) 0 = Some (Text "")
  /\ dataEvent (mkImpl [poll; listen; listen] []) 2
     = Text <$> frameEvent listen (Some listen)
  /\ dataEvent (mkImpl [poll; listen; listen] []) 2 = Some (Text "").
Proof.
  intros poll listen m.
  destruct (dataEvent_stable m) as (Hstable & Hout & _ & _).
  destruct (dataEvent_stable (mkImpl [listen; poll] [])) as (_ & _ & _ & _ & Hlisten).
  destruct (dataEvent_stable (mkImpl [poll; listen; listen] []))
    as (_ & _ & _ & Habove & _).
  split; [| split; [| split; [| split]]];
    [| | | exact (Habove 1%nat listen listen eq_refl eq_refl)
         | transitivity (Text <$> frameEvent listen (Some listen));
           [exact (Habove 1%nat listen listen eq_refl eq_refl) | reflexivity]].
  - assert (Hops : Forall (fun op => op <> ResetModel) [Append poll; FetchMore])
      by (repeat constructor; discriminate).
    rewrite (Hstable _ 1 Hops); [reflexivity | unfold m, rowCount; simpl; lia].
  - apply Hout. right. unfold m, rowCount. simpl. lia.
  - apply (Hlisten listen); reflexivity.
Defined.

End FrameStoreMore.

(** ** The devices: what reaches the consumer *)

Lemma forwarded_app e1 e2 : forwarded (e1 ++ e2) = (forwarded e1 ++ forwarded e2)%list.
Proof. unfold forwarded. apply omap_app. Qed.

Section AirspyStream.
Context `{SdrHeaders}.
Import AirspyDevice AirspyRun Pull.

Lemma airspy_readAll fuel : forall d,
  (length (streamQueue d) <= fuel)%nat ->
  airspyReadAll fuel d = (set_streamQueue [] d, streamQueue d).
Proof.
  induction fuel as [| fuel IH]; intros d Hq.
  - destruct d as [? ? ? ? ? ? ? ? ? ? ? ? ? ? ? q ? ? ?]. simpl in *.
    destruct q; [reflexivity | simpl in Hq; lia].
  - destruct d as [? ? ? ? ? ? ? ? ? ? ? ? ? ? ? q ? ? ?]. simpl in *.
    destruct q as [| b q]; [reflexivity |].
    unfold read. simpl. rewrite IH by (simpl in *; lia). reflexivity.
Qed.

(** One callback: the buffer it builds goes to the handler or to the queue,
    and the receive counter grows by the sample count. *)
Lemma airspy_process_transfer_stream t d :
  exists d' events,
    process_transfer t (Some d) = (Some d', events, 0)
    /\ streamCallback d' = streamCallback d
    /\ sampleRate d' = sampleRate d
    /\ samplesReceived d' = wrap64 (samplesReceived d + sample_count t)
    /\ (forall h, streamCallback d = Some h ->
          forwarded events = (fun b => (h, b)) <$> airspyBuffers (sampleRate d) (samplesReceived d) [t]
          /\ queued events = [] /\ evictions events = []
          /\ streamQueue d' = streamQueue d
          /\ samplesDropped d' = wrap64 (samplesDropped d + dropped_samples t))
    /\ (streamCallback d = None ->
          forwarded events = []
          /\ queued events = airspyBuffers (sampleRate d) (samplesReceived d) [t]
          /\ (evictions events ++ streamQueue d')%list = (streamQueue d ++ queued events)%list
          /\ ((length (streamQueue d) <= 4)%nat -> (length (streamQueue d') <= 4)%nat)).
Proof.
  unfold process_transfer. simpl.
  destruct (streamCallback d) as [h |] eqn:Ecb.
  - eexists _, _. split; [reflexivity |]. simpl. rewrite Ecb.
    repeat split; try discriminate; congruence.
  - destruct (MAX_QUEUE_SIZE <=? Z.of_nat (length (streamQueue d))) eqn:Efull.
    + destruct (streamQueue d) as [| front rest] eqn:Eq.
      * simpl in Efull. discriminate.
      * eexists _, _. split; [reflexivity |]. simpl. rewrite Ecb.
        repeat split; try discriminate; try reflexivity.
        all: try (destruct (sample_type t); reflexivity).
        all: rewrite length_app; simpl in *; lia.
    + eexists _, _. split; [reflexivity |]. simpl. rewrite Ecb.
      unfold MAX_QUEUE_SIZE in Efull. apply Z.leb_gt in Efull.
      repeat split; try discriminate; try reflexivity.
      all: try (destruct (sample_type t); reflexivity).
      all: rewrite length_app; simpl in *; lia.
Qed.

Lemma airspy_deliver_stream transfers : forall d,
  let '(d', events) := deliver transfers d in
  streamCallback d' = streamCallback d
  /\ sampleRate d' = sampleRate d
  /\ (forall k, samplesReceived d = wrap64 k ->
        samplesReceived d' = wrap64 (k + sumZ (sample_count <$> transfers)))
  /\ (forall h, streamCallback d = Some h ->
        forwarded events
        = (fun b => (h, b)) <$> airspyBuffers (sampleRate d) (samplesReceived d) transfers
        /\ queued events = [] /\ evictions events = []
        /\ streamQueue d' = streamQueue d
        /\ (forall k, samplesDropped d = wrap64 k ->
              samplesDropped d' = wrap64 (k + sumZ (dropped_samples <$> transfers))))
  /\ (streamCallback d = None ->
        forwarded events = []
        /\ queued events = airspyBuffers (sampleRate d) (samplesReceived d) transfers
        /\ (evictions events ++ streamQueue d')%list = (streamQueue d ++ queued events)%list
        /\ ((length (streamQueue d) <= 4)%nat -> (length (streamQueue d') <= 4)%nat)).
Proof.
  induction transfers as [| t transfers IH]; intros d; cbn [deliver].
  - simpl. repeat split; try reflexivity; try tauto.
    + intros k ->. now rewrite Z.add_0_r.
    + intros k ->. now rewrite Z.add_0_r.
    + now rewrite app_nil_r.
  - destruct (airspy_process_transfer_stream t d)
      as (d1 & ev1 & -> & Hcb1 & Hrate1 & Hrecv1 & Hpush1 & Hpull1).
    specialize (IH d1). destruct (deliver transfers d1) as [d2 ev2].
    destruct IH as (Hcb2 & Hrate2 & Hrecv2 & Hpush2 & Hpull2).
    rewrite forwarded_app, queued_app, evictions_app.
    split; [congruence |]. split; [congruence |]. split; [| split].
    + intros k Hk. rewrite fmap_cons, sumZ_cons.
      rewrite (Hrecv2 (k + sample_count t)) by (now rewrite Hrecv1, Hk, wrap64_add_l).
      f_equal. lia.
    + intros h Hh. destruct (Hpush1 h Hh) as (Hf1 & Hq1 & He1 & Hs1 & Hd1).
      assert (Hh1 : streamCallback d1 = Some h) by congruence.
      destruct (Hpush2 h Hh1) as (Hf2 & Hq2 & He2 & Hs2 & Hd2).
      rewrite Hf1, Hf2, Hq1, Hq2, He1, He2, Hrate1, Hrecv1.
      repeat split; try congruence.
      intros k Hk. rewrite fmap_cons, sumZ_cons.
      rewrite (Hd2 (k + dropped_samples t)) by (now rewrite Hd1, Hk, wrap64_add_l).
      f_equal. lia.
    + intros Hn. destruct (Hpull1 Hn) as (Hf1 & Hq1 & Hfifo1 & Hle1).
      assert (Hn1 : streamCallback d1 = None) by congruence.
      destruct (Hpull2 Hn1) as (Hf2 & Hq2 & Hfifo2 & Hle2).
      rewrite Hf1, Hf2, Hq2, Hrate1, Hrecv1. repeat split.
      * rewrite Hq1. reflexivity.
      * rewrite <- app_assoc, Hfifo2, Hq2, app_assoc, Hfifo1, Hq1, <- app_assoc.
        rewrite Hrate1, Hrecv1. reflexivity.
      * auto.
Qed.

End AirspyStream.

Section MiriStream.
Context `{SdrHeaders}.
Import MiriDevice MiriRun Pull.

Lemma miri_readAll fuel : forall d,
  (length (streamQueue d) <= fuel)%nat ->
  miriReadAll fuel d = (set_streamQueue [] d, streamQueue d).
Proof.
  induction fuel as [| fuel IH]; intros d Hq.
  - destruct d as [? ? ? ? ? ? ? ? ? ? ? ? ? ? q ? ? ?]. simpl in *.
    destruct q; [reflexivity | simpl in Hq; lia].
  - destruct d as [? ? ? ? ? ? ? ? ? ? ? ? ? ? q ? ? ?]. simpl in *.
    destruct q as [| b q]; [reflexivity |].
    unfold read. simpl. rewrite IH by (simpl in *; lia). reflexivity.
Qed.

Lemma miri_process_transfer_stream len d :
  exists d' events,
    process_transfer len (Some d) = (Some d', events, 0)
    /\ streamCallback d' = streamCallback d
    /\ samplesReceived d' = wrap64 (samplesReceived d + len)
    /\ (forall h, streamCallback d = Some h ->
          forwarded events = [(h, EmptyBuffer)]
          /\ queued events = [] /\ evictions events = []
          /\ streamQueue d' = streamQueue d
          /\ samplesDropped d' = samplesDropped d)
    /\ (streamCallback d = None ->
          forwarded events = []
          /\ queued events = [EmptyBuffer]
          /\ (evictions events ++ streamQueue d')%list = (streamQueue d ++ queued events)%list
          /\ ((length (streamQueue d) <= 4)%nat -> (length (streamQueue d') <= 4)%nat)).
Proof.
  unfold process_transfer. simpl.
  destruct (streamCallback d) as [h |] eqn:Ecb.
  - eexists _, _. split; [reflexivity |]. simpl. rewrite Ecb.
    repeat split; try discriminate; congruence.
  - destruct (MAX_QUEUE_SIZE <=? Z.of_nat (length (streamQueue d))) eqn:Efull.
    + destruct (streamQueue d) as [| front rest] eqn:Eq.
      * simpl in Efull. discriminate.
      * eexists _, _. split; [reflexivity |]. simpl. rewrite Ecb.
        repeat split; try discriminate; try reflexivity.
        all: rewrite length_app; simpl in *; lia.
    + eexists _, _. split; [reflexivity |]. simpl. rewrite Ecb.
      unfold MAX_QUEUE_SIZE in Efull. apply Z.leb_gt in Efull.
      repeat split; try discriminate; try reflexivity.
      all: rewrite length_app; simpl in *; lia.
Qed.

Lemma miri_deliver_stream lens : forall d,
  let '(d', events) := deliver lens d in
  streamCallback d' = streamCallback d
  /\ (forall k, samplesReceived d = wrap64 k ->
        samplesReceived d' = wrap64 (k + sumZ lens))
  /\ (forall h, streamCallback d = Some h ->
        forwarded events = replicate (length lens) (h, EmptyBuffer)
        /\ queued events = [] /\ evictions events = []
        /\ streamQueue d' = streamQueue d
        /\ samplesDropped d' = samplesDropped d)
  /\ (streamCallback d = None ->
        forwarded events = []
        /\ queued events = replicate (length lens) EmptyBuffer
        /\ (evictions events ++ streamQueue d')%list = (streamQueue d ++ queued events)%list
        /\ ((length (streamQueue d) <= 4)%nat -> (length (streamQueue d') <= 4)%nat)).
Proof.
  induction lens as [| len lens IH]; intros d; cbn [deliver].
  - simpl. repeat split; try reflexivity; try tauto.
    + intros k ->. now rewrite Z.add_0_r.
    + now rewrite app_nil_r.
  - destruct (miri_process_transfer_stream len d)
      as (d1 & ev1 & -> & Hcb1 & Hrecv1 & Hpush1 & Hpull1).
    specialize (IH d1). destruct (deliver lens d1) as [d2 ev2].
    destruct IH as (Hcb2 & Hrecv2 & Hpush2 & Hpull2).
    rewrite forwarded_app, queued_app, evictions_app.
    split; [congruence |]. split; [| split].
    + intros k Hk. rewrite sumZ_cons.
      rewrite (Hrecv2 (k + len)) by (now rewrite Hrecv1, Hk, wrap64_add_l).
      f_equal. lia.
    + intros h Hh. destruct (Hpush1 h Hh) as (Hf1 & Hq1 & He1 & Hs1 & Hd1).
      assert (Hh1 : streamCallback d1 = Some h) by congruence.
      destruct (Hpush2 h Hh1) as (Hf2 & Hq2 & He2 & Hs2 & Hd2).
      rewrite Hf1, Hf2, Hq1, Hq2, He1, He2. repeat split; congruence.
    + intros Hn. destruct (Hpull1 Hn) as (Hf1 & Hq1 & Hfifo1 & Hle1).
      assert (Hn1 : streamCallback d1 = None) by congruence.
      destruct (Hpull2 Hn1) as (Hf2 & Hq2 & Hfifo2 & Hle2).
      rewrite Hf1, Hf2, Hq1, Hq2. repeat split.
      * rewrite <- app_assoc, Hfifo2, Hq2, app_assoc, Hfifo1, Hq1, <- app_assoc.
        reflexivity.
      * auto.
Qed.

End MiriStream.

(** X7.  Pull mode loses nothing silently.  After a run of callbacks without
    handler from an empty queue, reading until the queue is empty (at most 4
    reads) returns the buffers still queued, oldest first, and the evicted
    buffers followed by the buffers read are exactly the buffers the
    callbacks built, in arrival order; a further read finds the queue empty
    and changes nothing.  On the Airspy back-end each buffer carries the
    sample rate of the device and the number of samples received before it. *)
Theorem pull_mode_delivers_in_order `{SdrHeaders} :
  (forall transfers d d' events,
      AirspyDevice.streamCallback d = None -> AirspyDevice.streamQueue d = [] ->
      AirspyRun.deliver transfers d = (d', events) ->
      (evictions events ++ snd (Pull.airspyReadAll 4 d'))%list
      = airspyBuffers (AirspyDevice.sampleRate d) (AirspyDevice.samplesReceived d) transfers
      /\ AirspyDevice.read (fst (Pull.airspyReadAll 4 d'))
         = (fst (Pull.airspyReadAll 4 d'), None))
  /\ (forall lens d d' events,
      MiriDevice.streamCallback d = None -> MiriDevice.streamQueue d = [] ->
      MiriRun.deliver lens d = (d', events) ->
      (evictions events ++ snd (Pull.miriReadAll 4 d'))%list
      = replicate (length lens) EmptyBuffer
      /\ MiriDevice.read (fst (Pull.miriReadAll 4 d'))
         = (fst (Pull.miriReadAll 4 d'), None)).
Proof.
  split.
  - intros transfers d d' events Hcb Hq Hrun.
    pose proof (airspy_deliver_stream transfers d) as Hall. rewrite Hrun in Hall.
    destruct Hall as (_ & _ & _ & _ & Hpull).
    destruct (Hpull Hcb) as (_ & Hqueued & Hfifo & Hle).
    rewrite Hq in Hfifo, Hle. simpl in Hfifo.
    rewrite airspy_readAll by (apply Hle; simpl; lia). simpl.
    split; [congruence |]. destruct d'; reflexivity.
  - intros lens d d' events Hcb Hq Hrun.
    pose proof (miri_deliver_stream lens d) as Hall. rewrite Hrun in Hall.
    destruct Hall as (_ & _ & _ & Hpull).
    destruct (Hpull Hcb) as (_ & Hqueued & Hfifo & Hle).
    rewrite Hq in Hfifo, Hle. simpl in Hfifo.
    rewrite miri_readAll by (apply Hle; simpl; lia). simpl.
    split; [congruence |]. destruct d'; reflexivity.
Qed.

(** X8.  Push mode bypasses the queue.  While a handler is registered every
    buffer goes to that handler, in arrival order; nothing is queued or
    evicted, the queue and the handler stay as they are, and the drop counter
    only collects what the Airspy library reports (on the MiriSDR back-end it
    does not move). *)
Theorem push_mode_forwards `{SdrHeaders} :
  (forall transfers d d' events h k,
      AirspyDevice.streamCallback d = Some h ->
      AirspyDevice.samplesDropped d = wrap64 k ->
      AirspyRun.deliver transfers d = (d', events) ->
      forwarded events
      = (fun b => (h, b)) <$> airspyBuffers (AirspyDevice.sampleRate d)
                                (AirspyDevice.samplesReceived d) transfers
      /\ queued events = [] /\ evictions events = []
      /\ AirspyDevice.streamQueue d' = AirspyDevice.streamQueue d
      /\ AirspyDevice.streamCallback d' = Some h
      /\ AirspyDevice.samplesDropped d'
         = wrap64 (k + sumZ (AirspyDevice.dropped_samples <$> transfers)))
  /\ (forall lens d d' events h,
      MiriDevice.streamCallback d = Some h ->
      MiriRun.deliver lens d = (d', events) ->
      forwarded events = replicate (length lens) (h, EmptyBuffer)
      /\ queued events = [] /\ evictions events = []
      /\ MiriDevice.streamQueue d' = MiriDevice.streamQueue d
      /\ MiriDevice.streamCallback d' = Some h
      /\ MiriDevice.samplesDropped d' = MiriDevice.samplesDropped d).
Proof.
  split.
  - intros transfers d d' events h k Hcb Hk Hrun.
    pose proof (airspy_deliver_stream transfers d) as Hall. rewrite Hrun in Hall.
    destruct Hall as (Hcb' & _ & _ & Hpush & _).
    destruct (Hpush h Hcb) as (Hf & Hq & He & Hs & Hd).
    repeat split; try assumption; [congruence | auto].
  - intros lens d d' events h Hcb Hrun.
    pose proof (miri_deliver_stream lens d) as Hall. rewrite Hrun in Hall.
    destruct Hall as (Hcb' & _ & Hpush & _).
    destruct (Hpush h Hcb) as (Hf & Hq & He & Hs & Hd).
    repeat split; try assumption. congruence.
Qed.

(** X9.  The receive counter counts every delivered buffer, with or without
    handler: after a run it has grown (as a 64-bit value) by the sample
    counts of the Airspy transfers, and by the byte counts of the MiriSDR
    transfers. *)
Theorem samplesReceived_counts_every_transfer `{SdrHeaders} :
  (forall transfers d d' events k,
      AirspyDevice.samplesReceived d = wrap64 k ->
      AirspyRun.deliver transfers d = (d', events) ->
      AirspyDevice.samplesReceived d'
      = wrap64 (k + sumZ (AirspyDevice.sample_count <$> transfers)))
  /\ (forall lens d d' events k,
      MiriDevice.samplesReceived d = wrap64 k ->
      MiriRun.deliver lens d = (d', events) ->
      MiriDevice.samplesReceived d' = wrap64 (k + sumZ lens)).
Proof.
  split.
  - intros transfers d d' events k Hk Hrun.
    pose proof (airspy_deliver_stream transfers d) as Hall. rewrite Hrun in Hall.
    destruct Hall as (_ & _ & Hrecv & _). auto.
  - intros lens d d' events k Hk Hrun.
    pose proof (miri_deliver_stream lens d) as Hall. rewrite Hrun in Hall.
    destruct Hall as (_ & Hrecv & _). auto.
Qed.

Lemma pull_mode_delivers_in_order_witness :
  let airspy := fst (AirspyDevice.start None 0 1700000000 airspyOpen) in
  let transfers := [iqTransfer 1000 0; iqTransfer 500 0; iqTransfer 1000 0;
                    iqTransfer 1000 0; iqTransfer 1000 0] in
  let run := @AirspyRun.deliver referenceHeaders transfers airspy in
  (evictions (snd run) ++ snd (Pull.airspyReadAll 4 (fst run)))%list
  = [Buffer 2000 2 0 0 0 2; Buffer 1000 2 0 1000 0 2; Buffer 2000 2 0 1500 0 2;
     Buffer 2000 2 0 2500 0 2; Buffer 2000 2 0 3500 0 2].
Proof.
  intros airspy transfers run.
  destruct (@pull_mode_delivers_in_order referenceHeaders) as [Hairspy _].
  destruct (Hairspy transfers airspy (fst run) (snd run)) as [Horder _];
    [vm_compute; reflexivity | vm_compute; reflexivity | vm_compute; reflexivity |].
  rewrite Horder. vm_compute. reflexivity.
Defined.

Lemma push_mode_forwards_witness :
  let miri := fst (MiriDevice.start (Some 7%nat) 0 1700000000 miriOpen) in
  let run := @MiriRun.deliver referenceHeaders [512; 512; 512; 512; 512; 512] miri in
  forwarded (snd run) = replicate 6 (7%nat, EmptyBuffer)
  /\ MiriDevice.streamQueue (fst run) = [].
Proof.
  intros miri run.
  destruct (@push_mode_forwards referenceHeaders) as [_ Hmiri].
  destruct (Hmiri [512; 512; 512; 512; 512; 512] miri (fst run) (snd run) 7%nat)
    as (Hf & _ & _ & Hq & _);
    [vm_compute; reflexivity | vm_compute; reflexivity |].
  split; [exact Hf | exact Hq].
Defined.

Lemma samplesReceived_counts_every_transfer_witness :
  let airspy := fst (AirspyDevice.start (Some 7%nat) 0 1700000000 airspyOpen) in
  let transfers := [iqTransfer 1000 0; iqTransfer 500 3] in
  AirspyDevice.samplesReceived (fst (@AirspyRun.deliver referenceHeaders transfers airspy))
  = 1500.
Proof.
  intros airspy transfers.
  destruct (@samplesReceived_counts_every_transfer referenceHeaders) as [Hairspy _].
  rewrite (Hairspy transfers airspy _ (snd (@AirspyRun.deliver referenceHeaders transfers airspy)) 0);
    [vm_compute; reflexivity | vm_compute; reflexivity | vm_compute; reflexivity].
Defined.

(** ** The devices: life cycle beyond [start] and [stop] *)

(** X10.  [close] leaves the device closed, not streaming and at end of file
    whatever the library answers, and a second [close] changes nothing, as
    does a [close] of a closed device.  Closing an open device clears its
    name and version and, when a handler is registered, also the handler,
    the queue and the session start time; without handler the queue and the
    start time survive, so buffers queued in pull mode can still be read
    after [close].  The stored parameters are never touched. *)
Theorem close_contract :
  (forall rx cl (d : AirspyDevice.Impl),
      let d' := AirspyDevice.close rx cl d in
      AirspyDevice.isOpen d' = false
      /\ (forall hw, AirspyDevice.isStreaming hw d' = false
                     /\ AirspyDevice.isEof hw d' = true)
      /\ (forall rx' cl', AirspyDevice.close rx' cl' d' = d')
      /\ (AirspyDevice.isOpen d = false -> d' = d)
      /\ (AirspyDevice.isOpen d = true ->
          AirspyDevice.deviceName d' = "" /\ AirspyDevice.deviceVersion d' = "")
      /\ (AirspyDevice.isOpen d = true -> AirspyDevice.streamCallback d <> None ->
          AirspyDevice.streamCallback d' = None /\ AirspyDevice.streamQueue d' = []
          /\ AirspyDevice.streamTime d' = 0)
      /\ (AirspyDevice.streamCallback d = None ->
          AirspyDevice.streamQueue d' = AirspyDevice.streamQueue d
          /\ AirspyDevice.streamTime d' = AirspyDevice.streamTime d
          /\ AirspyDevice.read d' = (AirspyDevice.set_streamQueue
                                       (tail (AirspyDevice.streamQueue d)) d',
                                     head (AirspyDevice.streamQueue d)))
      /\ (AirspyDevice.centerFreq d', AirspyDevice.sampleRate d', AirspyDevice.gainMode d',
          AirspyDevice.gainValue d', AirspyDevice.tunerAgc d', AirspyDevice.mixerAgc d',
          AirspyDevice.decimation d')
         = (AirspyDevice.centerFreq d, AirspyDevice.sampleRate d, AirspyDevice.gainMode d,
            AirspyDevice.gainValue d, AirspyDevice.tunerAgc d, AirspyDevice.mixerAgc d,
            AirspyDevice.decimation d))
  /\ (forall (d : MiriDevice.Impl),
      let d' := MiriDevice.close d in
      MiriDevice.isOpen d' = false
      /\ MiriDevice.isStreaming d' = false /\ MiriDevice.isEof d' = true
      /\ MiriDevice.close d' = d'
      /\ (MiriDevice.isOpen d = false -> d' = d)
      /\ (MiriDevice.isOpen d = true ->
          MiriDevice.deviceName d' = "" /\ MiriDevice.deviceVersion d' = "")
      /\ (MiriDevice.isOpen d = true -> MiriDevice.streamCallback d <> None ->
          MiriDevice.streamCallback d' = None /\ MiriDevice.streamQueue d' = []
          /\ MiriDevice.streamTime d' = 0)
      /\ (MiriDevice.streamCallback d = None ->
          MiriDevice.streamQueue d' = MiriDevice.streamQueue d
          /\ MiriDevice.streamTime d' = MiriDevice.streamTime d)
      /\ (MiriDevice.centerFreq d', MiriDevice.sampleRate d', MiriDevice.gainMode d',
          MiriDevice.gainValue d', MiriDevice.tunerAgc d', MiriDevice.mixerAgc d',
          MiriDevice.decimation d')
         = (MiriDevice.centerFreq d, MiriDevice.sampleRate d, MiriDevice.gainMode d,
            MiriDevice.gainValue d, MiriDevice.tunerAgc d, MiriDevice.mixerAgc d,
            MiriDevice.decimation d)).
Proof.
  split.
  - intros rx cl d d'. subst d'.
    unfold AirspyDevice.close, AirspyDevice.stop, AirspyDevice.isOpen,
      AirspyDevice.isStreaming, AirspyDevice.isEof, AirspyDevice.isOpen,
      AirspyDevice.read.
    destruct d as [? ? ? ? ? ? ? ? ? ? ? ? ? ? dh q cb ? ?]. simpl.
    destruct dh as [h |], cb as [c |]; simpl; repeat split;
      try discriminate; try congruence; try reflexivity;
      try (intros Ho; apply bool_decide_eq_false in Ho; exfalso; apply Ho; eauto);
      try (intros Ho; apply bool_decide_eq_true in Ho; destruct Ho; discriminate).
    all: destruct q; reflexivity.
  - intros d d'. subst d'.
    unfold MiriDevice.close, MiriDevice.stop, MiriDevice.isOpen,
      MiriDevice.isStreaming, MiriDevice.isEof, MiriDevice.isOpen.
    destruct d as [? ? ? ? ? ? ? ? ? ? ? ? ? dh q cb ? ?]. simpl.
    destruct dh as [h |], cb as [c |]; simpl; repeat split;
      try discriminate; try congruence; try reflexivity;
      try (intros Ho; apply bool_decide_eq_false in Ho; exfalso; apply Ho; eauto);
      try (intros Ho; apply bool_decide_eq_true in Ho; destruct Ho; discriminate).
Qed.

Lemma close_contract_witness :
  let streaming := fst (AirspyDevice.start (Some 7%nat) 0 1700000000 airspyOpen) in
  let pulling :=
    fst (@AirspyRun.deliver referenceHeaders [iqTransfer 1000 0]
           (fst (AirspyDevice.start None 0 1700000000 airspyOpen))) in
  AirspyDevice.deviceName (AirspyDevice.close 0 0 streaming) = ""
  /\ AirspyDevice.streamTime (AirspyDevice.close 0 0 streaming) = 0
  /\ snd (AirspyDevice.read (AirspyDevice.close 0 0 pulling)) = Some (Buffer 2000 2 0 0 0 2)
  /\ MiriDevice.close (@MiriDevice.create referenceHeaders "miri://0")
     = @MiriDevice.create referenceHeaders "miri://0".
Proof.
  intros streaming pulling.
  destruct close_contract as [Hairspy Hmiri].
  destruct (Hairspy 0 0 streaming) as (_ & _ & _ & _ & Hname & Hhandler & _).
  destruct (Hairspy 0 0 pulling) as (_ & _ & _ & _ & _ & _ & Hpull & _).
  destruct (Hmiri (@MiriDevice.create referenceHeaders "miri://0"))
    as (_ & _ & _ & _ & Hclosed & _).
  split; [| split; [| split]].
  - apply Hname. reflexivity.
  - apply Hhandler; [reflexivity | discriminate].
  - destruct Hpull as (_ & _ & Hread); [vm_compute; reflexivity |].
    rewrite Hread. vm_compute. reflexivity.
  - apply Hclosed. reflexivity.
Defined.

(** X11.  A failed [start] is not free of side effects: on an open device it
    has already reset both counters and emptied the queue, and on the Airspy
    back-end it also records the session start time (the clock's second
    count narrowed to the [int] field) and the failure status (the MiriSDR
    back-end keeps the old start time).  And [start] erases
    every trace of earlier sessions: starting after any earlier [start] and
    [stop] gives the same device and status as starting directly (on the
    MiriSDR back-end when this [start] succeeds). *)
Theorem start_side_effects_and_restart :
  (forall handler rx now (d : AirspyDevice.Impl),
      AirspyDevice.isOpen d = true -> rx <> AirspyDevice.AIRSPY_SUCCESS ->
      let d' := fst (AirspyDevice.start handler rx now d) in
      AirspyDevice.samplesReceived d' = 0 /\ AirspyDevice.samplesDropped d' = 0
      /\ AirspyDevice.streamQueue d' = [] /\ AirspyDevice.streamTime d' = wrap32 now
      /\ AirspyDevice.deviceResult d' = rx)
  /\ (forall handler rx now (d : MiriDevice.Impl),
      MiriDevice.isOpen d = true -> rx <> MiriDevice.MIRI_SUCCESS ->
      let d' := fst (MiriDevice.start handler rx now d) in
      MiriDevice.samplesReceived d' = 0 /\ MiriDevice.samplesDropped d' = 0
      /\ MiriDevice.streamQueue d' = []
      /\ MiriDevice.streamTime d' = MiriDevice.streamTime d)
  /\ (forall h1 rx1 now1 rxs h2 rx2 now2 (d : AirspyDevice.Impl),
      AirspyDevice.start h2 rx2 now2
        (fst (AirspyDevice.stop rxs (fst (AirspyDevice.start h1 rx1 now1 d))))
      = AirspyDevice.start h2 rx2 now2 d)
  /\ (forall h1 rx1 now1 h2 now2 (d : MiriDevice.Impl),
      MiriDevice.start h2 MiriDevice.MIRI_SUCCESS now2
        (fst (MiriDevice.stop (fst (MiriDevice.start h1 rx1 now1 d))))
      = MiriDevice.start h2 MiriDevice.MIRI_SUCCESS now2 d).
Proof.
  repeat apply conj.
  - intros handler rx now d Ho Hrx d'. subst d'.
    unfold AirspyDevice.start, AirspyDevice.isOpen in *.
    destruct (AirspyDevice.deviceHandle d) as [h |] eqn:Eh; [| discriminate].
    cbn [AirspyDevice.deviceResult AirspyDevice.set_deviceResult fst].
    destruct (negb (rx =? AirspyDevice.AIRSPY_SUCCESS)); repeat split.
  - intros handler rx now d Ho Hrx d'. subst d'.
    unfold MiriDevice.start, MiriDevice.isOpen in *.
    destruct (MiriDevice.deviceHandle d) as [h |] eqn:Eh; [| discriminate].
    apply Z.eqb_neq in Hrx. rewrite Hrx. simpl. repeat split.
  - intros h1 rx1 now1 rxs h2 rx2 now2 d.
    unfold AirspyDevice.start, AirspyDevice.stop.
    destruct d as [? ? ? ? ? ? ? ? ? ? ? ? ? ? dh q cb ? ?]. simpl.
    destruct dh as [h |]; simpl; [| reflexivity].
    destruct (negb (rx1 =? AirspyDevice.AIRSPY_SUCCESS)),
      (negb (rx2 =? AirspyDevice.AIRSPY_SUCCESS)), h1; simpl; reflexivity.
  - intros h1 rx1 now1 h2 now2 d.
    unfold MiriDevice.start, MiriDevice.stop.
    destruct d as [? ? ? ? ? ? ? ? ? ? ? ? ? dh q cb ? ?]. simpl.
    destruct dh as [h |]; simpl; [| reflexivity].
    destruct (negb (rx1 =? MiriDevice.MIRI_SUCCESS)), h1; simpl; reflexivity.
Qed.

Lemma start_side_effects_and_restart_witness :
  AirspyDevice.streamTime (fst (AirspyDevice.start (Some 7%nat) (-5) 1700000000 airspyOpen))
  = 1700000000
  /\ MiriDevice.streamTime (fst (MiriDevice.start (Some 7%nat) (-1) 1700000000 miriOpen)) = 0.
Proof.
  destruct start_side_effects_and_restart as (Hairspy & Hmiri & _).
  split.
  - destruct (Hairspy (Some 7%nat) (-5) 1700000000 airspyOpen) as (_ & _ & _ & Ht & _);
      [reflexivity | discriminate | rewrite Ht; reflexivity].
  - destruct (Hmiri (Some 7%nat) (-1) 1700000000 miriOpen) as (_ & _ & _ & Ht);
      [reflexivity | discriminate | exact Ht].
Defined.

(** X12.  On the Airspy back-end a gain value is pushed to the hardware in
    the Linearity and Sensitivity modes only: there [setGainValue] on an
    open device stores the value, makes the library call and stores and
    returns its status.  In any other mode, and so after [setTunerAgc] or
    [setMixerAgc] has switched an open device to the automatic mode with a
    non-zero argument, [setGainValue] stores the value but makes no call and
    returns the status of the previous library call. *)
Theorem setGainValue_stale_status `{SdrHeaders} :
  Auto <> Linearity -> Auto <> Sensitivity ->
  (forall value r (d : AirspyDevice.Impl),
      AirspyDevice.isOpen d = true ->
      AirspyDevice.gainMode d = Linearity \/ AirspyDevice.gainMode d = Sensitivity ->
      AirspyDevice.setGainValue value r d
      = (AirspyDevice.set_deviceResult r (AirspyDevice.set_gainValue value d), r))
  /\ (forall value r (d : AirspyDevice.Impl),
      AirspyDevice.isOpen d = true ->
      AirspyDevice.gainMode d <> Linearity -> AirspyDevice.gainMode d <> Sensitivity ->
      AirspyDevice.setGainValue value r d
      = (AirspyDevice.set_gainValue value d, AirspyDevice.deviceResult d))
  /\ (forall agc r value r' (d : AirspyDevice.Impl),
      AirspyDevice.isOpen d = true -> agc <> 0 ->
      snd (AirspyDevice.setGainValue value r' (fst (AirspyDevice.setTunerAgc agc r d))) = r
      /\ snd (AirspyDevice.setGainValue value r' (fst (AirspyDevice.setMixerAgc agc r d))) = r
      /\ AirspyDevice.gainValue
           (fst (AirspyDevice.setGainValue value r' (fst (AirspyDevice.setTunerAgc agc r d))))
         = value).
Proof.
  intros HL HS. split; [| split].
  - intros value r d Ho Hmode.
    unfold AirspyDevice.setGainValue, AirspyDevice.isOpen in *.
    destruct d as [? ? ? ? ? ? ? gm ? ? ? ? ? ? dh q cb ? ?]. simpl in *.
    destruct dh as [h |]; [| discriminate].
    destruct Hmode as [-> | ->].
    + rewrite Z.eqb_refl. reflexivity.
    + rewrite Z.eqb_refl. destruct (Sensitivity =? Linearity); reflexivity.
  - intros value r d Ho HnL HnS.
    unfold AirspyDevice.setGainValue, AirspyDevice.isOpen in *.
    destruct d as [? ? ? ? ? ? ? gm ? ? ? ? ? ? dh q cb ? ?]. simpl in *.
    destruct dh as [h |]; [| discriminate].
    apply Z.eqb_neq in HnL, HnS. rewrite HnL, HnS. reflexivity.
  - intros agc r value r' d Ho Hagc.
    unfold AirspyDevice.setGainValue, AirspyDevice.setTunerAgc, AirspyDevice.setMixerAgc,
      AirspyDevice.isOpen in *.
    destruct d as [? ? ? ? ? ? ? gm ? ? ? ? ? ? dh q cb ? ?]. simpl in *.
    destruct dh as [h |]; [| discriminate].
    apply Z.eqb_neq in Hagc, HL, HS. rewrite Hagc. simpl. rewrite HL, HS.
    repeat split.
Qed.

Lemma setGainValue_stale_status_witness :
  snd (@AirspyDevice.setGainValue referenceHeaders 12 0
         (fst (@AirspyDevice.setTunerAgc referenceHeaders 1 (-2) airspyOpen))) = -2
  /\ @AirspyDevice.setGainValue referenceHeaders 12 (-7)
       (AirspyDevice.set_gainMode 1 airspyOpen)
     = (AirspyDevice.set_deviceResult (-7)
          (AirspyDevice.set_gainValue 12 (AirspyDevice.set_gainMode 1 airspyOpen)), -7).
Proof.
  destruct (@setGainValue_stale_status referenceHeaders) as (Hpush & _ & Hagc);
    [discriminate | discriminate |].
  split.
  - destruct (Hagc 1 (-2) 12 0 airspyOpen) as (Hs & _); [reflexivity | discriminate |].
    exact Hs.
  - apply Hpush; [reflexivity | left; reflexivity].
Defined.

(** ** Opening a device *)

Section HexRoundTrip.
Import Std.

Lemma hexValue_hexDigit d : 0 <= d < 16 -> hexValue (hexDigit d) = Some d.
Proof.
  intros Hd.
  assert (Hcases : d = 0 \/ d = 1 \/ d = 2 \/ d = 3 \/ d = 4 \/ d = 5 \/ d = 6
                   \/ d = 7 \/ d = 8 \/ d = 9 \/ d = 10 \/ d = 11 \/ d = 12
                   \/ d = 13 \/ d = 14 \/ d = 15) by lia.
  repeat (destruct Hcases as [-> | Hcases]; [reflexivity |]).
  subst d. reflexivity.
Qed.

Lemma isHex_plain c :
  isHex c ->
  isspace c = false /\ Ascii.eqb c "-" = false /\ Ascii.eqb c "+" = false
  /\ Ascii.eqb c "x" = false /\ Ascii.eqb c "X" = false.
Proof.
  destruct c as [[] [] [] [] [] [] [] []]; vm_compute;
    intros [v Hv]; try discriminate; repeat split.
Qed.

Lemma number16_allHex fuel : forall n rest,
  0 <= n -> allHex rest -> allHex (number16 fuel n rest).
Proof.
  induction fuel as [| fuel IH]; intros n rest Hn Hrest; [exact Hrest |].
  cbn [number16].
  assert (Hacc : allHex (String (hexDigit (n mod 16)) rest)).
  { split; [| exact Hrest]. unfold isHex.
    rewrite hexValue_hexDigit by (apply Z.mod_pos_bound; lia). eauto. }
  destruct (n / 16 =? 0); [exact Hacc |].
  apply IH; [apply Z.div_pos; lia | exact Hacc].
Qed.

Lemma number16_nonempty fuel n rest :
  exists c s, number16 (S fuel) n rest = String c s.
Proof.
  revert n rest. induction fuel as [| fuel IH]; intros n rest; cbn [number16].
  - destruct (n / 16 =? 0); eauto.
  - destruct (n / 16 =? 0); [eauto |]. apply IH.
Qed.

Lemma number16_length fuel : forall n rest,
  (String.length (number16 fuel n rest) <= fuel + String.length rest)%nat.
Proof.
  induction fuel as [| fuel IH]; intros n rest; cbn [number16]; [lia |].
  destruct (n / 16 =? 0); [simpl; lia |].
  etransitivity; [apply IH |]. simpl. lia.
Qed.

(** Reading back the digits [number16] writes gives the number again. *)
Lemma hexDigits_number16 fuel : forall n rest,
  0 <= n < 16 ^ Z.of_nat fuel -> (0 < fuel)%nat ->
  exists k, (0 < k)%nat /\ forall acc count,
    hexDigits acc count (number16 fuel n rest)
    = hexDigits (acc * 16 ^ Z.of_nat k + n) (count + k) rest.
Proof.
  induction fuel as [| fuel IH]; intros n rest Hn Hfuel; [lia |].
  cbn [number16].
  assert (Hdigit : hexValue (hexDigit (n mod 16)) = Some (n mod 16))
    by (apply hexValue_hexDigit, Z.mod_pos_bound; lia).
  assert (Hsplit : n = 16 * (n / 16) + n mod 16) by (apply Z.div_mod; lia).
  destruct (n / 16 =? 0) eqn:Hq.
  - apply Z.eqb_eq in Hq. exists 1%nat. split; [lia |]. intros acc count.
    cbn [hexDigits]. rewrite Hdigit. f_equal; lia.
  - apply Z.eqb_neq in Hq.
    assert (Hpos : 0 < n / 16)
      by (pose proof (Z.div_pos n 16); lia).
    assert (Hlt : n / 16 < 16 ^ Z.of_nat fuel).
    { apply Z.div_lt_upper_bound; [lia |].
      replace (16 * 16 ^ Z.of_nat fuel) with (16 ^ Z.of_nat (S fuel)); [lia |].
      rewrite Nat2Z.inj_succ, Z.pow_succ_r by lia. reflexivity. }
    assert (Hf : (0 < fuel)%nat).
    { destruct fuel; [simpl in Hlt; lia | lia]. }
    destruct (IH (n / 16) (String (hexDigit (n mod 16)) rest)) as (k & Hk & Heq);
      [lia | exact Hf |].
    exists (S k). split; [lia |]. intros acc count.
    rewrite Heq. cbn [hexDigits]. rewrite Hdigit.
    rewrite Nat2Z.inj_succ, Z.pow_succ_r by lia.
    f_equal; lia.
Qed.

Lemma llx_bound n : 0 <= n -> n < 16 ^ Z.of_nat (S (Z.to_nat (Z.log2 n))).
Proof.
  intros Hn. rewrite Nat2Z.inj_succ, Z2Nat.id by apply Z.log2_nonneg.
  destruct (Z.eq_dec n 0) as [-> | Hne]; [reflexivity |].
  pose proof (Z.log2_spec n ltac:(lia)) as [_ Hup].
  eapply Z.lt_le_trans; [exact Hup |].
  change 16 with (2 ^ 4). rewrite <- Z.pow_mul_r by (pose proof (Z.log2_nonneg n); lia).
  apply Z.pow_le_mono_r; pose proof (Z.log2_nonneg n); lia.
Qed.

Lemma llx_length n : 0 <= n < 2 ^ 64 -> (String.length (llx n) <= 64)%nat.
Proof.
  intros Hn. unfold llx.
  etransitivity; [apply number16_length |]. simpl String.length.
  assert (Z.log2 n < 64).
  { destruct (Z.eq_dec n 0) as [-> | Hne]; [reflexivity |].
    apply Z.log2_lt_pow2; lia. }
  pose proof (Z.log2_nonneg n). lia.
Qed.

(** [stoull] on a text that consists of hexadecimal digits only. *)
Lemma stoull16_allHex c s :
  allHex (String c s) ->
  stoull16 (String c s)
  = if ULLONG_MAX <? fst (hexDigits 0 0 (String c s)) then inl out_of_range
    else inr (fst (hexDigits 0 0 (String c s))).
Proof.
  intros [Hc Hs]. unfold stoull16.
  destruct (isHex_plain c Hc) as (Hsp & Hminus & Hplus & _).
  cbn [skipSpace]. rewrite Hsp. cbn [stripSign]. rewrite Hminus, Hplus.
  assert (Hprefix : stripPrefix (String c s) = String c s).
  { destruct s as [| x [| c' s']]; try reflexivity.
    destruct Hs as [Hx _]. destruct (isHex_plain x Hx) as (_ & _ & _ & Hx1 & Hx2).
    cbn [stripPrefix]. rewrite Hx1, Hx2, andb_false_r. reflexivity. }
  rewrite Hprefix. cbn [hexDigits]. destruct Hc as [v Hv]. rewrite Hv.
  assert (Hcount : forall t acc count,
             (count <= snd (hexDigits acc count t))%nat).
  { induction t as [| c' t IHt]; intros acc count; cbn [hexDigits]; [simpl; lia |].
    destruct (hexValue c'); [| simpl; lia].
    etransitivity; [| apply IHt]. lia. }
  specialize (Hcount s (0 * 16 + v) 1%nat).
  destruct (hexDigits (0 * 16 + v) 1 s) as [value count]. simpl in Hcount.
  destruct count; [lia |]. reflexivity.
Qed.

Lemma stoull16_llx n : 0 <= n < 2 ^ 64 -> stoull16 (llx n) = inr n.
Proof.
  intros Hn.
  assert (Hall : allHex (llx n)) by (apply number16_allHex; [lia | exact I]).
  destruct (number16_nonempty (Z.to_nat (Z.log2 n)) n "") as (c & s & Hcs).
  destruct (hexDigits_number16 (S (Z.to_nat (Z.log2 n))) n "") as (k & _ & Hk);
    [split; [lia | apply llx_bound; lia] | lia |].
  unfold llx in *. rewrite Hcs in Hall |- *.
  rewrite (stoull16_allHex c s Hall), <- Hcs, Hk. cbn [hexDigits fst].
  replace (0 * 16 ^ Z.of_nat k + n) with n by lia.
  unfold ULLONG_MAX. destruct (2 ^ 64 - 1 <? n) eqn:Hmax; [| reflexivity].
  apply Z.ltb_lt in Hmax. lia.
Qed.

Lemma substring_all s : forall m,
  (String.length s <= m)%nat -> String.substring 0 m s = s.
Proof.
  induction s as [| c s IH]; intros m Hm.
  - destruct m; reflexivity.
  - destruct m; [simpl in Hm; lia |]. simpl. f_equal. apply IH. simpl in Hm. lia.
Qed.

Lemma snprintf_short size text :
  (String.length text < size)%nat -> snprintf size text = text.
Proof. intros Hlen. apply substring_all. lia. Qed.

Lemma found_scheme_prefix scheme rest :
  found scheme (String.append scheme rest) = true.
Proof.
  unfold found.
  assert (Hprefix : forall s, String.prefix s (String.append s rest) = true).
  { induction s as [| c s IH]; simpl; [destruct rest; reflexivity |].
    destruct (ascii_dec c c); [exact IH | congruence]. }
  specialize (Hprefix scheme).
  destruct (String.append scheme rest) as [| c t].
  - destruct scheme; [reflexivity | discriminate].
  - cbn [String.index]. rewrite Hprefix. reflexivity.
Qed.

Lemma append_length p rest :
  String.length (String.append p rest) = (String.length p + String.length rest)%nat.
Proof. induction p as [| c p IH]; simpl; [reflexivity | rewrite IH; reflexivity]. Qed.

Lemma substr_after_prefix p rest :
  substr (String.length p) (String.append p rest) = inr rest.
Proof.
  unfold substr.
  rewrite append_length.
  destruct (String.length p + String.length rest <? String.length p)%nat eqn:Hlt;
    [apply Nat.ltb_lt in Hlt; lia |].
  replace (String.length p + String.length rest - String.length p)%nat
    with (String.length rest) by lia.
  f_equal. clear Hlt. induction p as [| c p IH]; simpl; [| exact IH].
  apply substring_all. lia.
Qed.

End HexRoundTrip.

(** Running [open] on a device whose fields are known: call by value, so
    that each intermediate device is a record before it is used again. *)
Ltac airspy_run :=
  cbv beta iota zeta delta
    [fst snd AirspyOpen.open AirspyDevice.close AirspyDevice.stop AirspyDevice.setCenterFreq
      AirspyDevice.setSampleRate AirspyDevice.setGainMode AirspyDevice.setGainValue
      AirspyDevice.set_deviceName AirspyDevice.set_deviceVersion
      AirspyDevice.set_centerFreq AirspyDevice.set_sampleRate AirspyDevice.set_gainMode
      AirspyDevice.set_gainValue AirspyDevice.set_tunerAgc AirspyDevice.set_mixerAgc
      AirspyDevice.set_decimation AirspyDevice.set_streamTime
      AirspyDevice.set_deviceResult AirspyDevice.set_deviceHandle
      AirspyDevice.set_streamQueue AirspyDevice.set_streamCallback
      AirspyDevice.set_samplesReceived AirspyDevice.set_samplesDropped
      AirspyDevice.deviceName AirspyDevice.deviceVersion AirspyDevice.fileDesc
      AirspyDevice.centerFreq AirspyDevice.sampleRate AirspyDevice.sampleSize
      AirspyDevice.sampleType AirspyDevice.gainMode AirspyDevice.gainValue
      AirspyDevice.tunerAgc AirspyDevice.mixerAgc AirspyDevice.decimation
      AirspyDevice.streamTime AirspyDevice.deviceResult AirspyDevice.deviceHandle
      AirspyDevice.streamQueue AirspyDevice.streamCallback AirspyDevice.samplesReceived
      AirspyDevice.samplesDropped].

Ltac miri_run :=
  cbv beta iota zeta delta
    [fst snd MiriOpen.open MiriDevice.close MiriDevice.stop MiriDevice.setCenterFreq
      MiriDevice.setSampleRate MiriDevice.setGainMode MiriDevice.setGainValue
      MiriDevice.set_deviceName MiriDevice.set_deviceVersion MiriDevice.set_centerFreq
      MiriDevice.set_sampleRate MiriDevice.set_gainMode MiriDevice.set_gainValue
      MiriDevice.set_tunerAgc MiriDevice.set_mixerAgc MiriDevice.set_decimation
      MiriDevice.set_streamTime MiriDevice.set_deviceHandle MiriDevice.set_streamQueue
      MiriDevice.set_streamCallback MiriDevice.set_samplesReceived
      MiriDevice.set_samplesDropped
      MiriDevice.deviceName MiriDevice.deviceVersion MiriDevice.fileDesc
      MiriDevice.centerFreq MiriDevice.sampleRate MiriDevice.sampleSize
      MiriDevice.sampleType MiriDevice.gainMode MiriDevice.gainValue
      MiriDevice.tunerAgc MiriDevice.mixerAgc MiriDevice.decimation
      MiriDevice.streamTime MiriDevice.deviceHandle MiriDevice.streamQueue
      MiriDevice.streamCallback MiriDevice.samplesReceived MiriDevice.samplesDropped].

Lemma airspy_closed_handle (d : AirspyDevice.Impl) :
  AirspyDevice.isOpen d = false -> AirspyDevice.deviceHandle d = None.
Proof.
  unfold AirspyDevice.isOpen. intros Ho. apply bool_decide_eq_false in Ho.
  destruct (AirspyDevice.deviceHandle d); [exfalso; apply Ho; eauto | reflexivity].
Qed.

Lemma miri_closed_handle (d : MiriDevice.Impl) :
  MiriDevice.isOpen d = false -> MiriDevice.deviceHandle d = None.
Proof.
  unfold MiriDevice.isOpen. intros Ho. apply bool_decide_eq_false in Ho.
  destruct (MiriDevice.deviceHandle d); [exfalso; apply Ho; eauto | reflexivity].
Qed.

(** [open] on a closed Airspy device, step by step; on success the last
    status stored is the one of the last library call [open] made. *)
Lemma airspy_open_closed `{SdrHeaders} a (d : AirspyDevice.Impl) :
  AirspyDevice.deviceHandle d = None ->
  AirspyOpen.open a d
  = if Std.found "://" (AirspyDevice.deviceName d)
       && negb (Std.found "airspy://" (AirspyDevice.deviceName d))
    then (d, Std.Returned false)
    else
      match Std.substr 9 (AirspyDevice.deviceName d) with
      | inl e => (d, Std.Thrown e)
      | inr digits =>
          match Std.stoull16 digits with
          | inl e => (d, Std.Thrown e)
          | inr sn =>
              if AirspyOpen.open_sn a sn =? AirspyDevice.AIRSPY_SUCCESS then
                (AirspyDevice.set_deviceResult
                   (if AirspyDevice.gainMode d =? Linearity then AirspyOpen.gain a
                    else if AirspyDevice.gainMode d =? Sensitivity then AirspyOpen.gain a
                    else if AirspyDevice.gainMode d =? Auto then AirspyOpen.gain2 a
                    else AirspyOpen.samplerate a)
                   (AirspyDevice.set_sampleRate (wrap32 (AirspyDevice.sampleRate d))
                      (AirspyDevice.set_centerFreq (wrap32 (AirspyDevice.centerFreq d))
                         (AirspyDevice.set_deviceVersion (AirspyOpen.version a)
                            (AirspyDevice.set_deviceHandle (Some (AirspyOpen.handle a)) d)))),
                 Std.Returned true)
              else (AirspyDevice.set_deviceResult (AirspyOpen.open_sn a sn) d,
                    Std.Returned false)
          end
      end.
Proof.
  intros Hclosed.
  destruct d as [name ? ? ? ? ? ? gm ? ? ? ? ? ? dh q cb ? ?].
  cbn [AirspyDevice.deviceHandle] in Hclosed. subst dh.
  unfold AirspyOpen.open, AirspyDevice.close.
  cbn [AirspyDevice.deviceName AirspyDevice.deviceHandle AirspyDevice.gainMode
         AirspyDevice.centerFreq AirspyDevice.sampleRate].
  destruct (Std.found "://" name && negb (Std.found "airspy://" name)); [reflexivity |].
  destruct (Std.substr 9 name) as [e | digits]; [reflexivity |].
  destruct (Std.stoull16 digits) as [e | sn]; [reflexivity |].
  airspy_run.
  destruct (AirspyOpen.open_sn a sn =? AirspyDevice.AIRSPY_SUCCESS); [| reflexivity].
  repeat match goal with
         | E : (?x =? ?y) = _ |- context [if ?x =? ?y then _ else _] =>
             rewrite E; airspy_run
         | |- context [if ?x =? ?y then _ else _] =>
             destruct (x =? y) eqn:?; airspy_run
         end.
  all: reflexivity.
Qed.

(** [open] on a MiriSDR device whose name is accepted. *)
Lemma miri_open_accepted `{SdrHeaders} status handle (d : MiriDevice.Impl) :
  Std.found "://" (MiriDevice.deviceName d)
  && negb (Std.found "miri://" (MiriDevice.deviceName d)) = false ->
  MiriOpen.open status handle d
  = if status =? MiriDevice.MIRI_SUCCESS then
      (MiriDevice.set_sampleRate (wrap32 (MiriDevice.sampleRate d))
         (MiriDevice.set_centerFreq (wrap32 (MiriDevice.centerFreq d))
            (MiriDevice.set_deviceHandle (Some handle) (MiriDevice.close d))), true)
    else (MiriDevice.close d, false).
Proof.
  intros Hname. unfold MiriOpen.open. rewrite Hname.
  destruct (status =? MiriDevice.MIRI_SUCCESS); [| reflexivity].
  destruct d as [name ? ? ? ? ? ? gm ? ? ? ? ? dh q cb ? ?].
  destruct dh as [h |], cb as [c |]; miri_run;
    repeat match goal with
           | E : (?x =? ?y) = _ |- context [if ?x =? ?y then _ else _] =>
               rewrite E; miri_run
           | |- context [if ?x =? ?y then _ else _] =>
               destruct (x =? y) eqn:?; miri_run
           end; reflexivity.
Qed.

(** What [open] gives on an open Airspy device. *)
Lemma airspy_reopen_state `{SdrHeaders} a (d : AirspyDevice.Impl) :
  AirspyDevice.isOpen d = true ->
  snd (AirspyOpen.open a d) = Std.Returned false
  \/ snd (AirspyOpen.open a d) = Std.Thrown Std.out_of_range.
Proof.
  intros Ho. unfold AirspyOpen.open.
  destruct (Std.found "://" (AirspyDevice.deviceName d)
            && negb (Std.found "airspy://" (AirspyDevice.deviceName d)));
    [left; reflexivity | right].
  unfold AirspyDevice.isOpen in Ho. apply bool_decide_eq_true in Ho.
  destruct Ho as [h Hh]. unfold AirspyDevice.close. rewrite Hh. reflexivity.
Qed.

(** X13.  An Airspy device cannot be reopened: [open] on an open device
    first closes it, which clears the name, and the serial number is then cut
    out of the empty name, so [substr] throws [out_of_range] and the device
    is left closed.  (With a name of a foreign scheme [open] returns false
    before it closes anything.)  The same exception leaves [open] on a closed
    device whose name has fewer than nine characters, such as the empty name
    of a device made from a file descriptor. *)
Theorem airspy_reopen_throws `{SdrHeaders} a (d : AirspyDevice.Impl) :
  (AirspyDevice.isOpen d = true ->
   AirspyOpen.open a d
   = if Std.found "://" (AirspyDevice.deviceName d)
        && negb (Std.found "airspy://" (AirspyDevice.deviceName d))
     then (d, Std.Returned false)
     else (AirspyDevice.close (AirspyOpen.stop_rx a) (AirspyOpen.close_status a) d,
           Std.Thrown Std.out_of_range))
  /\ (AirspyDevice.isOpen d = false ->
      (String.length (AirspyDevice.deviceName d) < 9)%nat ->
      Std.found "://" (AirspyDevice.deviceName d) = false ->
      AirspyOpen.open a d = (d, Std.Thrown Std.out_of_range)).
Proof.
  split.
  - intros Ho. unfold AirspyOpen.open.
    destruct (Std.found "://" (AirspyDevice.deviceName d)
              && negb (Std.found "airspy://" (AirspyDevice.deviceName d)));
      [reflexivity |].
    unfold AirspyDevice.isOpen in Ho. apply bool_decide_eq_true in Ho.
    destruct Ho as [h Hh]. unfold AirspyDevice.close. rewrite Hh. reflexivity.
  - intros Ho Hlen Hscheme. unfold AirspyOpen.open. rewrite Hscheme.
    unfold AirspyDevice.close. rewrite (airspy_closed_handle d Ho).
    cbn [andb]. unfold Std.substr.
    apply Nat.ltb_lt in Hlen. rewrite Hlen. reflexivity.
Qed.

Lemma airspy_reopen_throws_witness :
  let a := AirspyOpen.mkAnswers 0 0 (fun _ => 0) 5%nat 0 "v1" 0 0 0 0 0 0 0 0 in
  snd (@AirspyOpen.open referenceHeaders a airspyOpen) = Std.Thrown Std.out_of_range
  /\ snd (@AirspyOpen.open referenceHeaders a (@AirspyDevice.create referenceHeaders ""))
     = Std.Thrown Std.out_of_range.
Proof.
  intros a. split.
  - destruct (@airspy_reopen_throws referenceHeaders a airspyOpen) as [Hopen _].
    rewrite Hopen; reflexivity.
  - destruct (@airspy_reopen_throws referenceHeaders a
                (@AirspyDevice.create referenceHeaders "")) as [_ Hclosed].
    rewrite Hclosed; [reflexivity | reflexivity | simpl; lia | reflexivity].
Defined.

(** X14.  The names [listDevices] builds lead [open] back to the devices
    they were built from: for a closed device that carries the i-th listed
    name, [open] asks libairspy for exactly the i-th serial number (the
    sixteen-digit limit of the format and the 256-character buffer lose
    nothing), returns whether that call succeeded, leaves the device open
    exactly then, and keeps the name. *)
Theorem airspy_listed_name_opens `{SdrHeaders} a devices i serial (d : AirspyDevice.Impl) :
  Forall (fun s => 0 <= s < 2 ^ 64) devices ->
  devices !! i = Some serial ->
  AirspyOpen.listDevices devices !! i = Some (AirspyDevice.deviceName d) ->
  AirspyDevice.isOpen d = false ->
  let opened := AirspyOpen.open_sn a serial =? AirspyDevice.AIRSPY_SUCCESS in
  snd (AirspyOpen.open a d) = Std.Returned opened
  /\ AirspyDevice.isOpen (fst (AirspyOpen.open a d)) = opened
  /\ AirspyDevice.deviceName (fst (AirspyOpen.open a d)) = AirspyDevice.deviceName d.
Proof.
  intros Hall Hserial Hname Ho opened. subst opened.
  assert (Hrange : 0 <= serial < 2 ^ 64).
  { rewrite Forall_lookup in Hall. exact (Hall i serial Hserial). }
  unfold AirspyOpen.listDevices in Hname.
  rewrite list_lookup_fmap, Hserial in Hname. simpl in Hname.
  injection Hname as Hname.
  rewrite snprintf_short in Hname.
  2:{ pose proof (llx_length serial Hrange). rewrite append_length.
      change (String.length "airspy://") with 9%nat. lia. }
  rewrite (airspy_open_closed a d (airspy_closed_handle d Ho)), <- Hname.
  rewrite (found_scheme_prefix "airspy://"), andb_false_r.
  change 9%nat with (String.length "airspy://").
  rewrite substr_after_prefix, (stoull16_llx serial Hrange).
  unfold AirspyDevice.isOpen. pose proof (airspy_closed_handle d Ho) as Hclosed.
  destruct d as [name ? ? ? ? ? ? gm ? ? ? ? ? ? dh q cb ? ?].
  cbn [AirspyDevice.deviceHandle] in Hclosed. subst dh.
  destruct (AirspyOpen.open_sn a serial =? AirspyDevice.AIRSPY_SUCCESS);
    airspy_run; repeat split; symmetry; exact Hname.
Qed.

Lemma airspy_listed_name_opens_witness :
  let a := AirspyOpen.mkAnswers 0 0 (fun sn => if sn =? 2740555582169354695 then 0 else -5)
             5%nat 0 "v1" 0 0 0 0 0 0 0 0 in
  let d := @AirspyDevice.create referenceHeaders "airspy://260868c82a6b11c7" in
  snd (@AirspyOpen.open referenceHeaders a d) = Std.Returned true
  /\ AirspyDevice.isOpen (fst (@AirspyOpen.open referenceHeaders a d)) = true.
Proof.
  intros a d.
  destruct (@airspy_listed_name_opens referenceHeaders a
              [2740555582169354695] 0%nat 2740555582169354695 d)
    as (Hresult & Hopen & _).
  - apply List.Forall_cons; [| apply List.Forall_nil].
    vm_compute. split; [discriminate | reflexivity].
  - reflexivity.
  - vm_compute. reflexivity.
  - reflexivity.
  - split; [exact Hresult | exact Hopen].
Defined.

(** X15.  [open] on the Airspy back-end returns true only for a device that
    was closed, and then the device is open with the handle and the firmware
    version the library gave, and its name, its stored parameters, its queue
    and its counters are as before: every parameter is pushed to the
    hardware as it was stored, whatever the library answers to the
    pushes. *)
Theorem airspy_open_keeps_configuration `{SdrHeaders} a (d : AirspyDevice.Impl) :
  fits 32 (AirspyDevice.centerFreq d) -> fits 32 (AirspyDevice.sampleRate d) ->
  snd (AirspyOpen.open a d) = Std.Returned true ->
  let d' := fst (AirspyOpen.open a d) in
  AirspyDevice.isOpen d = false
  /\ AirspyDevice.deviceHandle d' = Some (AirspyOpen.handle a)
  /\ AirspyDevice.deviceVersion d' = AirspyOpen.version a
  /\ AirspyDevice.deviceName d' = AirspyDevice.deviceName d
  /\ (AirspyDevice.centerFreq d', AirspyDevice.sampleRate d', AirspyDevice.sampleSize d',
      AirspyDevice.sampleType d', AirspyDevice.gainMode d', AirspyDevice.gainValue d',
      AirspyDevice.tunerAgc d', AirspyDevice.mixerAgc d', AirspyDevice.decimation d')
     = (AirspyDevice.centerFreq d, AirspyDevice.sampleRate d, AirspyDevice.sampleSize d,
        AirspyDevice.sampleType d, AirspyDevice.gainMode d, AirspyDevice.gainValue d,
        AirspyDevice.tunerAgc d, AirspyDevice.mixerAgc d, AirspyDevice.decimation d)
  /\ (AirspyDevice.streamQueue d', AirspyDevice.streamCallback d',
      AirspyDevice.samplesReceived d', AirspyDevice.samplesDropped d')
     = (AirspyDevice.streamQueue d, AirspyDevice.streamCallback d,
        AirspyDevice.samplesReceived d, AirspyDevice.samplesDropped d).
Proof.
  intros Hfreq Hrate Htrue d'. subst d'.
  assert (Hclosed : AirspyDevice.isOpen d = false).
  { destruct (AirspyDevice.isOpen d) eqn:Ho; [| reflexivity].
    destruct (airspy_reopen_state a d Ho) as [Hs | Hs]; rewrite Hs in Htrue;
      discriminate. }
  split; [exact Hclosed |]. revert Htrue.
  rewrite (airspy_open_closed a d (airspy_closed_handle d Hclosed)).
  destruct (Std.found "://" (AirspyDevice.deviceName d)
            && negb (Std.found "airspy://" (AirspyDevice.deviceName d)));
    [discriminate |].
  destruct (Std.substr 9 (AirspyDevice.deviceName d)) as [e | digits]; [discriminate |].
  destruct (Std.stoull16 digits) as [e | sn]; [discriminate |].
  destruct (AirspyOpen.open_sn a sn =? AirspyDevice.AIRSPY_SUCCESS); [| discriminate].
  intros _. cbn [fst].
  destruct d as [name ? ? cf sr ? ? gm ? ? ? ? ? ? dh q cb ? ?].
  cbn [AirspyDevice.centerFreq AirspyDevice.sampleRate] in Hfreq, Hrate.
  airspy_run. unfold wrap32.
  rewrite (wrap_fits 32 cf), (wrap_fits 32 sr) by (assumption || lia).
  repeat split.
Qed.

Lemma airspy_open_keeps_configuration_witness :
  let a := AirspyOpen.mkAnswers 0 0 (fun _ => 0) 5%nat 0 "v1" 0 0 0 (-3) 0 0 0 0 in
  let d := AirspyDevice.set_centerFreq 13560000
             (@AirspyDevice.create referenceHeaders "airspy://260868c82a6b11c7") in
  AirspyDevice.centerFreq (fst (@AirspyOpen.open referenceHeaders a d)) = 13560000
  /\ AirspyDevice.deviceVersion (fst (@AirspyOpen.open referenceHeaders a d)) = "v1".
Proof.
  intros a d.
  destruct (@airspy_open_keeps_configuration referenceHeaders a d)
    as (_ & _ & Hversion & _ & Hparams & _).
  - vm_compute. split; [discriminate | reflexivity].
  - vm_compute. split; [discriminate | reflexivity].
  - vm_compute. reflexivity.
  - split; [| exact Hversion].
    exact (f_equal (fun t => fst (fst (fst (fst (fst (fst (fst (fst t)))))))) Hparams).
Defined.

(** X16.  The MiriSDR [open], unlike the Airspy one, can be repeated: unless
    the name carries a foreign scheme, [open] returns whether [mirisdr_open]
    succeeded and leaves the device open exactly then, with the new handle
    and the stored parameters as before.  Reopening an open device costs it
    its name, and the empty name is accepted again.  A name of a foreign
    scheme makes [open] return false and leaves the device as it is, open or
    not. *)
Theorem miri_open_contract `{SdrHeaders} status handle (d : MiriDevice.Impl) :
  (Std.found "://" (MiriDevice.deviceName d)
   && negb (Std.found "miri://" (MiriDevice.deviceName d)) = false ->
   fits 32 (MiriDevice.centerFreq d) -> fits 32 (MiriDevice.sampleRate d) ->
   let d' := fst (MiriOpen.open status handle d) in
   let opened := status =? MiriDevice.MIRI_SUCCESS in
   snd (MiriOpen.open status handle d) = opened
   /\ MiriDevice.isOpen d' = opened
   /\ MiriDevice.deviceHandle d' = (if opened then Some handle else None)
   /\ MiriDevice.deviceName d'
      = (if MiriDevice.isOpen d then "" else MiriDevice.deviceName d)
   /\ Std.found "://" (MiriDevice.deviceName d')
      && negb (Std.found "miri://" (MiriDevice.deviceName d')) = false
   /\ (MiriDevice.centerFreq d', MiriDevice.sampleRate d', MiriDevice.sampleSize d',
       MiriDevice.sampleType d', MiriDevice.gainMode d', MiriDevice.gainValue d',
       MiriDevice.tunerAgc d', MiriDevice.mixerAgc d', MiriDevice.decimation d')
      = (MiriDevice.centerFreq d, MiriDevice.sampleRate d, MiriDevice.sampleSize d,
         MiriDevice.sampleType d, MiriDevice.gainMode d, MiriDevice.gainValue d,
         MiriDevice.tunerAgc d, MiriDevice.mixerAgc d, MiriDevice.decimation d))
  /\ (Std.found "://" (MiriDevice.deviceName d)
      && negb (Std.found "miri://" (MiriDevice.deviceName d)) = true ->
      MiriOpen.open status handle d = (d, false)).
Proof.
  split.
  - intros Hname Hfreq Hrate d' opened. subst d' opened.
    rewrite (miri_open_accepted status handle d Hname).
    unfold MiriDevice.isOpen.
    destruct d as [name ? ? cf sr ? ? gm ? ? ? ? ? dh q cb ? ?].
    cbn [MiriDevice.deviceName MiriDevice.centerFreq MiriDevice.sampleRate] in *.
    destruct dh as [h |], cb as [c |], (status =? MiriDevice.MIRI_SUCCESS); miri_run;
      unfold wrap32; rewrite ?(wrap_fits 32 cf), ?(wrap_fits 32 sr) by (assumption || lia);
      repeat split; exact Hname.
  - intros Hname. unfold MiriOpen.open. rewrite Hname. reflexivity.
Qed.

Lemma miri_open_contract_witness :
  snd (@MiriOpen.open referenceHeaders 0 9%nat miriOpen) = true
  /\ MiriDevice.deviceName (fst (@MiriOpen.open referenceHeaders 0 9%nat miriOpen)) = ""
  /\ @MiriOpen.open referenceHeaders 0 9%nat
       (@MiriDevice.create referenceHeaders "airspy://260868c82a6b11c7")
     = (@MiriDevice.create referenceHeaders "airspy://260868c82a6b11c7", false).
Proof.
  destruct (@miri_open_contract referenceHeaders 0 9%nat miriOpen) as [Hopen _].
  destruct (@miri_open_contract referenceHeaders 0 9%nat
              (@MiriDevice.create referenceHeaders "airspy://260868c82a6b11c7"))
    as [_ Hforeign].
  destruct Hopen as (Hresult & _ & _ & Hname & _).
  - vm_compute. reflexivity.
  - vm_compute. split; [discriminate | reflexivity].
  - vm_compute. split; [discriminate | reflexivity].
  - split; [exact Hresult | split; [exact Hname |]].
    apply Hforeign. vm_compute. reflexivity.
Defined.

(** X17.  Every name the MiriSDR [listDevices] builds passes the name check
    of [open], also a name that the 256-character buffer has cut: for a
    device that carries a listed name, [open] returns whether [mirisdr_open]
    succeeded. *)
Theorem miri_listed_name_opens `{SdrHeaders} names i status handle (d : MiriDevice.Impl) :
  MiriOpen.listDevices names !! i = Some (MiriDevice.deviceName d) ->
  snd (MiriOpen.open status handle d) = (status =? MiriDevice.MIRI_SUCCESS)
  /\ MiriDevice.isOpen (fst (MiriOpen.open status handle d))
     = (status =? MiriDevice.MIRI_SUCCESS).
Proof.
  intros Hname. unfold MiriOpen.listDevices in Hname.
  rewrite list_lookup_fmap in Hname.
  destruct (names !! i) as [name |]; [| discriminate].
  simpl in Hname. injection Hname as Hname.
  assert (Hfound : Std.found "miri://" (MiriDevice.deviceName d) = true).
  { rewrite <- Hname. unfold Std.snprintf. simpl.
    change (Std.found "miri://"
              (String.append "miri://" (String.substring 0 248 name)) = true).
    apply found_scheme_prefix. }
  rewrite miri_open_accepted by (rewrite Hfound; apply andb_false_r).
  unfold MiriDevice.isOpen.
  destruct (status =? MiriDevice.MIRI_SUCCESS); cbn [fst snd]; (split; [reflexivity |]).
  - reflexivity.
  - unfold MiriDevice.close. destruct (MiriDevice.deviceHandle d) eqn:Eh; [reflexivity |].
    rewrite Eh. reflexivity.
Qed.

Lemma miri_listed_name_opens_witness :
  snd (@MiriOpen.open referenceHeaders 0 9%nat
         (@MiriDevice.create referenceHeaders "miri://Mirics MSi2500"))
  = true.
Proof.
  destruct (@miri_listed_name_opens referenceHeaders
              ["Mirics MSi2500"] 0%nat 0 9%nat
              (@MiriDevice.create referenceHeaders
                 "miri://Mirics MSi2500")) as [Hresult _].
  - vm_compute. reflexivity.
  - exact Hresult.
Defined.
